(** * terminal-brief: the cache, configuration and module orchestration layers

    A shallow embedding of [src/utils/cache.ts], [src/config/index.ts],
    [src/types/config.ts], [src/utils/performance.ts], [src/modules/base.ts]
    and [src/index.ts], with the properties the specification states about
    them; and of the configuration command handler, the logger, the GitHub
    and greeting modules and the system module's uptime, with further
    properties of the code.

    Asynchronous functions are modelled as state transformers that either
    return or throw ([M]); the state a throw leaves behind is kept, as in
    JavaScript, so [try_catch] sees every effect that happened before the
    throw. The file system, the clocks and the JSON codec of the runtime are
    parameters of the model: a [Host] says which operations the operating
    system refuses, and the properties hold for every [JSON.stringify] and
    [JSON.parse].

    The definitions come first, module by module as in the sources; the
    properties follow, in modules named after the ones they are about. *)

From Stdlib Require Import ZArith Ascii String DecimalString.
From stdpp Require Import gmap strings list.

#[local] Set Warnings "-register-all".

Local Open Scope Z_scope.

(* ===================================================================== *)
(** * Insertion-ordered maps with string keys *)
(* ===================================================================== *)

(** A JavaScript [Map] or object keeps its keys in insertion order, and
    setting a key that is present keeps the key's position. *)
Fixpoint assoc_set {A} (k : string) (v : A) (l : list (string * A))
  : list (string * A) :=
  match l with
  | [] => [(k, v)]
  | (k', v') :: rest =>
      if String.eqb k k' then (k, v) :: rest else (k', v') :: assoc_set k v rest
  end.

Fixpoint assoc_get {A} (k : string) (l : list (string * A)) : option A :=
  match l with
  | [] => None
  | (k', v') :: rest => if String.eqb k k' then Some v' else assoc_get k rest
  end.

(* ===================================================================== *)
(** * JavaScript values and JSON text *)
(* ===================================================================== *)

Module Js.

(** The values the modelled code stores, parses and returns. Numbers are the
    integers (no fractions, no NaN); functions and class instances are not
    represented. An object is its list of own properties in insertion
    order. *)
Inductive Value : Type :=
| VUndefined
| VNull
| VBool (b : bool)
| VNum (n : Z)
| VStr (s : string)
| VArr (items : list Value)
| VObj (props : list (string * Value)).

(** [if (v)]: null, undefined, false, 0 and the empty string are falsy. *)
Definition truthy (v : Value) : bool :=
  match v with
  | VUndefined | VNull => false
  | VBool b => b
  | VNum n => negb (n =? 0)
  | VStr s => negb (String.eqb s "")
  | VArr _ | VObj _ => true
  end.

(** [o[k] = v] and [o[k]] on a property list. *)
Definition obj_set (k : string) (v : Value) (props : list (string * Value))
  : list (string * Value) := assoc_set k v props.

Definition obj_get (k : string) (props : list (string * Value)) : option Value :=
  assoc_get k props.

(** [v.k] for a value that is neither null nor undefined: own properties of
    an object; every other value has no property of the names used here. *)
Definition prop (v : Value) (k : string) : Value :=
  match v with
  | VObj props => default VUndefined (obj_get k props)
  | _ => VUndefined
  end.

Definition dquote : ascii := "034"%char.
Definition newline : string := String "010"%char "".

Definition show_Z (n : Z) : string := NilZero.string_of_int (Z.to_int n).

Fixpoint escape (s : string) : string :=
  match s with
  | EmptyString => EmptyString
  | String c rest =>
      if Ascii.eqb c dquote then String "\"%char (String dquote (escape rest))
      else if Ascii.eqb c "\"%char then String "\"%char (String "\"%char (escape rest))
      else if Ascii.eqb c "010"%char then String "\"%char (String "n"%char (escape rest))
      else String c (escape rest)
  end.

Definition quote (s : string) : string :=
  String dquote (escape s) +:+ String dquote "".

Fixpoint join (sep : string) (parts : list string) : string :=
  match parts with
  | [] => ""
  | [p] => p
  | p :: rest => p +:+ sep +:+ join sep rest
  end.

(** [JSON.stringify(v, null, 2)] below the top level: [undefined] inside an
    array prints as null, a property whose value is [undefined] is left
    out. *)
Fixpoint stringify_at (indent : string) (v : Value) : string :=
  let inner := (indent +:+ "  ")%string in
  match v with
  | VUndefined | VNull => "null"
  | VBool true => "true"
  | VBool false => "false"
  | VNum n => show_Z n
  | VStr s => quote s
  | VArr items =>
      let lines :=
        (fix go (xs : list Value) : list string :=
           match xs with
           | [] => []
           | x :: rest => (inner +:+ stringify_at inner x) :: go rest
           end) items in
      match lines with
      | [] => "[]"
      | _ => "[" +:+ newline +:+ join ("," +:+ newline) lines +:+ newline +:+ indent +:+ "]"
      end
  | VObj props =>
      let lines :=
        (fix go (ps : list (string * Value)) : list string :=
           match ps with
           | [] => []
           | (k, VUndefined) :: rest => go rest
           | (k, x) :: rest =>
               (inner +:+ quote k +:+ ": " +:+ stringify_at inner x) :: go rest
           end) props in
      match lines with
      | [] => "{}"
      | _ => "{" +:+ newline +:+ join ("," +:+ newline) lines +:+ newline +:+ indent +:+ "}"
      end
  end.

(** [JSON.stringify(v, null, 2)]: [None] is JavaScript's [undefined], the
    result for a value that has no JSON text. *)
Definition stringify (v : Value) : option string :=
  match v with
  | VUndefined => None
  | _ => Some (stringify_at "" v)
  end.

Definition is_ws (c : ascii) : bool :=
  Ascii.eqb c " "%char || Ascii.eqb c "010"%char || Ascii.eqb c "009"%char
  || Ascii.eqb c "013"%char.

Fixpoint skip_ws (cs : list ascii) : list ascii :=
  match cs with
  | c :: rest => if is_ws c then skip_ws rest else cs
  | [] => []
  end.

Definition is_digit (c : ascii) : bool :=
  (48 <=? Z.of_nat (nat_of_ascii c)) && (Z.of_nat (nat_of_ascii c) <=? 57).

Fixpoint take_digits (cs : list ascii) : list ascii * list ascii :=
  match cs with
  | c :: rest =>
      if is_digit c then let '(ds, r) := take_digits rest in (c :: ds, r)
      else ([], cs)
  | [] => ([], [])
  end.

(** After the opening quote: the decoded text and what follows the closing
    quote. *)
Fixpoint parse_string (cs : list ascii) : option (string * list ascii) :=
  match cs with
  | [] => None
  | c :: rest =>
      if Ascii.eqb c dquote then Some (EmptyString, rest)
      else if Ascii.eqb c "\"%char then
        match rest with
        | e :: rest' =>
            let decoded :=
              if Ascii.eqb e "n"%char then Some "010"%char
              else if Ascii.eqb e dquote then Some dquote
              else if Ascii.eqb e "\"%char then Some "\"%char
              else if Ascii.eqb e "/"%char then Some "/"%char
              else if Ascii.eqb e "t"%char then Some "009"%char
              else None in
            match decoded, parse_string rest' with
            | Some d, Some (s, r) => Some (String d s, r)
            | _, _ => None
            end
        | [] => None
        end
      else if Ascii.eqb c "010"%char then None
      else match parse_string rest with
           | Some (s, r) => Some (String c s, r)
           | None => None
           end
  end.

Definition parse_number (cs : list ascii) : option (Value * list ascii) :=
  let '(neg, body) :=
    match cs with
    | "-"%char :: r => (true, r)
    | _ => (false, cs)
    end in
  let '(ds, rest) := take_digits body in
  match ds, rest with
  | [], _ => None
  | "0"%char :: _ :: _, _ => None
  | _, "."%char :: _ | _, "e"%char :: _ | _, "E"%char :: _ => None
  | _, _ =>
      match NilZero.int_of_string (string_of_list_ascii ds) with
      | Some d => Some (VNum (if neg then - Z.of_int d else Z.of_int d), rest)
      | None => None
      end
  end.

(** Recursive descent over the text; [fuel] bounds the nesting and the number
    of items, and the length of the text is always enough. *)
Fixpoint parse_value (fuel : nat) (cs : list ascii) : option (Value * list ascii) :=
  match fuel with
  | O => None
  | S fuel =>
      match skip_ws cs with
      | "n"%char :: "u"%char :: "l"%char :: "l"%char :: r => Some (VNull, r)
      | "t"%char :: "r"%char :: "u"%char :: "e"%char :: r => Some (VBool true, r)
      | "f"%char :: "a"%char :: "l"%char :: "s"%char :: "e"%char :: r => Some (VBool false, r)
      | "["%char :: r =>
          match skip_ws r with
          | "]"%char :: r' => Some (VArr [], r')
          | _ => match parse_items fuel r with
                 | Some (items, r') => Some (VArr items, r')
                 | None => None
                 end
          end
      | "{"%char :: r =>
          match skip_ws r with
          | "}"%char :: r' => Some (VObj [], r')
          | _ => match parse_members fuel r with
                 | Some (props, r') => Some (VObj props, r')
                 | None => None
                 end
          end
      | c :: r =>
          if Ascii.eqb c dquote then
            match parse_string r with
            | Some (s, r') => Some (VStr s, r')
            | None => None
            end
          else parse_number (c :: r)
      | [] => None
      end
  end
with parse_items (fuel : nat) (cs : list ascii) : option (list Value * list ascii) :=
  match fuel with
  | O => None
  | S fuel =>
      match parse_value fuel cs with
      | Some (v, r) =>
          match skip_ws r with
          | ","%char :: r' =>
              match parse_items fuel r' with
              | Some (vs, r'') => Some (v :: vs, r'')
              | None => None
              end
          | "]"%char :: r' => Some ([v], r')
          | _ => None
          end
      | None => None
      end
  end
with parse_members (fuel : nat) (cs : list ascii)
  : option (list (string * Value) * list ascii) :=
  match fuel with
  | O => None
  | S fuel =>
      match skip_ws cs with
      | c :: r =>
          if Ascii.eqb c dquote then
            match parse_string r with
            | Some (k, r1) =>
                match skip_ws r1 with
                | ":"%char :: r2 =>
                    match parse_value fuel r2 with
                    | Some (v, r3) =>
                        match skip_ws r3 with
                        | ","%char :: r4 =>
                            match parse_members fuel r4 with
                            | Some (props, r5) => Some ((k, v) :: props, r5)
                            | None => None
                            end
                        | "}"%char :: r4 => Some ([(k, v)], r4)
                        | _ => None
                        end
                    | None => None
                    end
                | _ => None
                end
            | None => None
            end
          else None
      | [] => None
      end
  end.

(** A key that occurs twice in an object keeps its first position and its
    last value. *)
Fixpoint dedupe (v : Value) : Value :=
  match v with
  | VArr items => VArr (map dedupe items)
  | VObj props =>
      VObj (fold_left (fun acc kv => obj_set (fst kv) (dedupe (snd kv)) acc) props [])
  | _ => v
  end.

(** [JSON.parse(text)] on JSON without fractions, exponents and unicode
    escapes; [None] is a thrown SyntaxError. *)
Definition parse (text : string) : option Value :=
  let cs := list_ascii_of_string text in
  match parse_value (S (length cs)) cs with
  | Some (v, r) => match skip_ws r with [] => Some (dedupe v) | _ => None end
  | None => None
  end.

End Js.

(* ===================================================================== *)
(** * Asynchronous computations *)
(* ===================================================================== *)

(** A thrown value, identified with the text it prints as in a template
    string (the program only logs and rethrows what it catches). Values that
    cannot be converted to a string are not represented. *)
Definition Error := string.

Inductive Outcome (A : Type) : Type :=
| Ok (a : A)
| Throw (e : Error).
Arguments Ok {A} a.
Arguments Throw {A} e.

(** An [async] function over the state [S]: it returns or throws, and the
    state it leaves is kept either way. *)
Definition M (S A : Type) : Type := S -> Outcome A * S.

Section Monad.
Context {S : Type}.

Definition ret {A} (a : A) : M S A := fun s => (Ok a, s).

Definition throw {A} (e : Error) : M S A := fun s => (Throw e, s).

Definition bind {A B} (m : M S A) (k : A -> M S B) : M S B :=
  fun s => match m s with
           | (Ok a, s') => k a s'
           | (Throw e, s') => (Throw e, s')
           end.

(** [try { m } catch (error) { h error }]. *)
Definition try_catch {A} (m : M S A) (h : Error -> M S A) : M S A :=
  fun s => match m s with
           | (Ok a, s') => (Ok a, s')
           | (Throw e, s') => h e s'
           end.

(** [try { m } finally { f }]: [f] runs whether [m] returned or threw; what
    [m] returned or threw is passed on unless [f] throws, and then what [f]
    threw is. *)
Definition try_finally {A B} (m : M S A) (f : M S B) : M S A :=
  fun s => let '(r, s') := m s in
           match f s' with
           | (Ok _, s'') => (r, s'')
           | (Throw e, s'') => (Throw e, s'')
           end.

Definition gets {A} (f : S -> A) : M S A := fun s => (Ok (f s), s).

Definition modify (f : S -> S) : M S unit := fun s => (Ok tt, f s).



End Monad.

Declare Scope eff_scope.
Delimit Scope eff_scope with eff.
Notation "'do' x <- m ; k" := (bind m (fun x => k))
  (at level 10, x name, m at level 100, k at level 200,
   format "'[v' 'do'  x  <-  m ; '/' k ']'") : eff_scope.
Notation "m >> k" := (bind m (fun _ => k))
  (at level 100, k at level 200, right associativity) : eff_scope.
Local Open Scope eff_scope.

(* ===================================================================== *)
(** * The process and its host *)
(* ===================================================================== *)

(** [src/types/config.ts]: [enum LogLevel]. *)
Inductive LogLevel := DEBUG | INFO | WARN | ERROR.

Definition LogLevel_value (l : LogLevel) : Z :=
  match l with DEBUG => 0 | INFO => 1 | WARN => 2 | ERROR => 3 end.

(** A regular file: what [fs.stat] and [fs.readFile] see of it. *)
Record File := { mtimeMs : Z; content : string }.

(** What the operating system decides and the program cannot change: the home
    directory, the directories [mkdir] cannot create, the paths it refuses to
    write (missing parent directory, permissions, name too long, full disk)
    and the files it refuses to read although [stat] succeeds. *)
Record Host := {
  homedir : string;
  no_mkdir : gset string;
  unwritable : gset string;
  unreadable : gset string
}.

(** Everything the utilities and the modules of the program can reach.
    [env] stands for what is not modelled in detail (module instances, the
    network, the operating system's statistics). [logs] records the calls to
    the logger, whatever its level lets through to the console; [console]
    is what the entry point prints itself. *)
Record Sys (Env : Type) := {
  files : gmap string File;
  clock : Z;
  perf_clock : Z;
  logs : list (LogLevel * string);
  logger_level : Js.Value;
  console : list string;
  env : Env
}.
Arguments files {Env} _.
Arguments clock {Env} _.
Arguments perf_clock {Env} _.
Arguments logs {Env} _.
Arguments logger_level {Env} _.
Arguments console {Env} _.
Arguments env {Env} _.

Section SysOps.
Context {Env : Type}.
Implicit Types (s : Sys Env).

Definition set_files (f : gmap string File -> gmap string File) s : Sys Env :=
  {| files := f (files s); clock := clock s; perf_clock := perf_clock s;
     logs := logs s; logger_level := logger_level s; console := console s;
     env := env s |}.

Definition set_clock (t : Z) s : Sys Env :=
  {| files := files s; clock := t; perf_clock := perf_clock s;
     logs := logs s; logger_level := logger_level s; console := console s;
     env := env s |}.

Definition set_logs (f : list (LogLevel * string) -> list (LogLevel * string)) s
  : Sys Env :=
  {| files := files s; clock := clock s; perf_clock := perf_clock s;
     logs := f (logs s); logger_level := logger_level s; console := console s;
     env := env s |}.

Definition set_logger_level (l : Js.Value) s : Sys Env :=
  {| files := files s; clock := clock s; perf_clock := perf_clock s;
     logs := logs s; logger_level := l; console := console s; env := env s |}.

Definition set_console (f : list string -> list string) s : Sys Env :=
  {| files := files s; clock := clock s; perf_clock := perf_clock s;
     logs := logs s; logger_level := logger_level s; console := f (console s);
     env := env s |}.

Definition set_env (e : Env) s : Sys Env :=
  {| files := files s; clock := clock s; perf_clock := perf_clock s;
     logs := logs s; logger_level := logger_level s; console := console s;
     env := e |}.

(** Time passing between two calls: [d] milliseconds on the wall clock. *)
Definition elapse (d : Z) s : Sys Env := set_clock (clock s + d) s.

(** ** The logger ([src/utils/logger.ts]) *)

Definition log_entry (l : LogLevel) (message : string) s : Sys Env :=
  set_logs (fun ls => ls ++ [(l, message)]) s.

Definition logger_debug (message : string) : M (Sys Env) unit :=
  modify (log_entry DEBUG message).
Definition logger_info (message : string) : M (Sys Env) unit :=
  modify (log_entry INFO message).
Definition logger_warn (message : string) : M (Sys Env) unit :=
  modify (log_entry WARN message).
Definition logger_error (message : string) : M (Sys Env) unit :=
  modify (log_entry ERROR message).
Definition logger_setLevel (level : Js.Value) : M (Sys Env) unit :=
  modify (set_logger_level level).

(** ** The file system and the clock, as the program uses them *)

Variable host : Host.

(** [path.join(dir, name)] for a name of one segment ([file_name] below):
    the normalisation that [path.join] does of a name holding separators is
    not modelled, so two such names are not told apart here as the file
    system would. *)
Definition path_join (dir name : string) : string := dir +:+ "/" +:+ name.


(** [fs.mkdir(dir, { recursive: true })]: whether it throws. The state
    records files by their whole path and no directories, so the directory
    the call makes does not show in it. *)
Definition fs_mkdir (dir : string) : M (Sys Env) unit :=
  if decide (dir ∈ no_mkdir host)
  then throw ("Error: EACCES: permission denied, mkdir " +:+ dir)
  else ret tt.

(** [fs.stat(path)], read for its [mtimeMs]. *)
Definition fs_stat (path : string) : M (Sys Env) Z :=
  fun s => match files s !! path with
           | Some f => (Ok (mtimeMs f), s)
           | None => (Throw ("Error: ENOENT: no such file or directory, stat " +:+ path), s)
           end.

(** [fs.readFile(path, 'utf8')]. *)
Definition fs_readFile (path : string) : M (Sys Env) string :=
  fun s => match files s !! path with
           | Some f =>
               if decide (path ∈ unreadable host)
               then (Throw ("Error: EACCES: permission denied, open " +:+ path), s)
               else (Ok (content f), s)
           | None => (Throw ("Error: ENOENT: no such file or directory, open " +:+ path), s)
           end.

(** [fs.writeFile(path, data, 'utf8')]; [data] is [None] when the caller
    passes [undefined], which Node rejects. The file's modification time is
    the time of the write. *)
Definition fs_writeFile (path : string) (data : option string) : M (Sys Env) unit :=
  match data with
  | None => throw "TypeError [ERR_INVALID_ARG_TYPE]: The data argument must be of type string"
  | Some text =>
      if decide (path ∈ unwritable host)
      then throw ("Error: EACCES: permission denied, open " +:+ path)
      else fun s =>
             (Ok tt, set_files (insert path {| mtimeMs := clock s; content := text |}) s)
  end.

(** [Date.now()]. *)
Definition Date_now : M (Sys Env) Z := gets clock.

End SysOps.

(* ===================================================================== *)
(** * The time-to-live cache ([src/utils/cache.ts]) *)
(* ===================================================================== *)

Module Cache.
Import Js.

Section Cache.
Context {Env : Type}.
Variable host : Host.

(** [JSON.stringify(data, null, 2)] and [JSON.parse(text)] of the runtime;
    [None] is [undefined] for the first and a thrown SyntaxError for the
    second. [Js.stringify] and [Js.parse] are one such pair. *)
Variable JSON_stringify : Value -> option string.
Variable JSON_parse : string -> option Value.

Definition JSON_parse_or_throw (text : string) : M (Sys Env) Value :=
  match JSON_parse text with
  | Some v => ret v
  | None => throw "SyntaxError: Unexpected token in JSON"
  end.

Definition CACHE_DIR : string :=
  path_join (path_join (path_join (homedir host) ".config") "welcome") "cache".

Definition cacheFile (cacheName : string) : string :=
  path_join CACHE_DIR (cacheName +:+ ".json").

Definition ensureCacheDir : M (Sys Env) unit :=
  try_catch
    (fs_mkdir host CACHE_DIR)
    (fun error => logger_error ("Failed to create cache directory: " +:+ error)).

(** The [try] block either returns a value from inside ([Some]) or falls
    through to the final [return null] ([None]), as a caught exception does. *)
Definition getCache (cacheName : string) (maxAge : Z) : M (Sys Env) Value :=
  do returned <-
    try_catch
      (do mtime <- fs_stat (cacheFile cacheName);
       do now <- Date_now;
       let fileAge := now - mtime in
       if fileAge <? maxAge * 1000 then
         do data <- fs_readFile host (cacheFile cacheName);
         do value <- JSON_parse_or_throw data;
         ret (Some value)
       else ret None)
      (fun _ => ret None);
  match returned with
  | Some value => ret value
  | None => ret VNull
  end.

Definition saveCache (cacheName : string) (data : Value) : M (Sys Env) unit :=
  try_catch
    (ensureCacheDir >>
     fs_writeFile host (cacheFile cacheName) (JSON_stringify data) >>
     logger_debug ("Cached data for " +:+ cacheName))
    (fun error =>
       logger_error ("Failed to cache data for " +:+ cacheName +:+ ": " +:+ error)).

Definition apiRequest (cacheName : string) (cacheAge : Z)
    (requestFn : M (Sys Env) Value) : M (Sys Env) Value :=
  do cachedData <- getCache cacheName cacheAge;
  if truthy cachedData then
    logger_debug ("Using cached data for " +:+ cacheName) >>
    ret cachedData
  else
    logger_debug ("Cache miss for " +:+ cacheName +:+ ", making API request") >>
    try_catch
      (do response <- requestFn;
       saveCache cacheName response >>
       ret response)
      (fun error =>
         logger_error ("API request failed for " +:+ cacheName +:+ ": " +:+ error) >>
         throw error).

(** The contract of [get] in the specification's words: the stored value when
    an entry is present, younger than the maximal age, readable and well
    formed; absent ([null]) otherwise. *)
Definition stored_value (s : Sys Env) (key : string) (maxAgeSeconds : Z) : Value :=
  match files s !! cacheFile key with
  | Some entry =>
      if bool_decide (clock s - mtimeMs entry < maxAgeSeconds * 1000
                      /\ cacheFile key ∉ unreadable host)
      then default VNull (JSON_parse (content entry))
      else VNull
  | None => VNull
  end.

End Cache.
End Cache.

(* ===================================================================== *)
(** * Configuration types ([src/types/config.ts]) *)
(* ===================================================================== *)

Module Types.
Import Js.

Inductive ColorTheme := theme_default | theme_light | theme_dark | theme_pastel.
Inductive WeatherUnits := metric | imperial.

Record UserConfig := { userName : string }.

Record WeatherConfig := {
  city : option string;
  country : option string;
  zip : option string;
  units : WeatherUnits;
  weather_apiKey : option string;
  showForecast : bool;
  showHumidity : bool;
  showWind : bool
}.

Record GitHubConfig := {
  personalToken : option string;
  username : option string;
  showAssignedPRs : bool;
  showCreatedPRs : bool;
  showMentions : bool;
  maxPRs : Z
}.

Record LinearConfig := {
  linear_apiKey : option string;
  teamNames : list string;
  daysStalled : Z;
  baseUrl : string
}.

Record SystemConfig := {
  showLoad : bool;
  showMemory : bool;
  showDisk : bool;
  showBattery : bool;
  showUptime : bool
}.

Record CacheConfig := {
  weatherDuration : Z;
  githubDuration : Z;
  quoteDuration : Z
}.

Record PerformanceConfig := {
  maxExecutionTime : Z;
  parallelExecution : bool;
  showMetrics : bool
}.

Record DisplayConfig := {
  useEmojis : bool;
  colorTheme : ColorTheme;
  logLevel : LogLevel
}.

Record WelcomeConfig := {
  user : UserConfig;
  weather : WeatherConfig;
  github : GitHubConfig;
  linear : LinearConfig;
  system : SystemConfig;
  cache : CacheConfig;
  performance : PerformanceConfig;
  display : DisplayConfig;
  enabledModules : list string;
  dataDir : string;
  postWelcomeCommand : option string
}.

(** The variables of [process.env] the defaults read. *)
Record ProcessEnv := {
  GITHUB_PERSONAL_TOKEN : option string;
  LINEAR_API_KEY : option string;
  HOME : option string;
  USERPROFILE : option string
}.

(** [a || b] on strings that may be undefined, inside a template string. *)
Definition or_else_text (a b : option string) : string :=
  match a with
  | Some x => if String.eqb x "" then default "undefined" b else x
  | None => default "undefined" b
  end.

Definition defaultConfig (penv : ProcessEnv) : WelcomeConfig := {|
  user := {| userName := "Jens" |};
  weather := {|
    city := Some "New York";
    country := Some "US";
    zip := Some "10001";
    units := imperial;
    weather_apiKey := Some "";
    showForecast := false;
    showHumidity := true;
    showWind := false
  |};
  github := {|
    personalToken := GITHUB_PERSONAL_TOKEN penv;
    username := None;
    showAssignedPRs := true;
    showCreatedPRs := false;
    showMentions := false;
    maxPRs := 5
  |};
  linear := {|
    linear_apiKey := LINEAR_API_KEY penv;
    teamNames := ["Application"; "Security"; "Dev Ops"];
    daysStalled := 3;
    baseUrl := "https://linear.app/"
  |};
  system := {|
    showLoad := true;
    showMemory := true;
    showDisk := false;
    showBattery := true;
    showUptime := true
  |};
  cache := {|
    weatherDuration := 3600;
    githubDuration := 300;
    quoteDuration := 86400
  |};
  performance := {|
    maxExecutionTime := 1;
    parallelExecution := false;
    showMetrics := false
  |};
  display := {|
    useEmojis := true;
    colorTheme := theme_default;
    logLevel := INFO
  |};
  enabledModules := ["system"; "greeting"; "weather"; "github"; "linearStalled"];
  dataDir := or_else_text (HOME penv) (USERPROFILE penv) +:+ "/.config/welcome/data";
  postWelcomeCommand := None
|}.

(** [{ ...c, enabledModules: names }]. *)
Definition with_enabledModules (names : list string) (c : WelcomeConfig) : WelcomeConfig :=
  {| user := user c; weather := weather c; github := github c; linear := linear c;
     system := system c; cache := cache c; performance := performance c;
     display := display c; enabledModules := names; dataDir := dataDir c;
     postWelcomeCommand := postWelcomeCommand c |}.

(** [{ ...c, github: g }]. *)
Definition with_github (g : GitHubConfig) (c : WelcomeConfig) : WelcomeConfig :=
  {| user := user c; weather := weather c; github := g; linear := linear c;
     system := system c; cache := cache c; performance := performance c;
     display := display c; enabledModules := enabledModules c; dataDir := dataDir c;
     postWelcomeCommand := postWelcomeCommand c |}.

(** ** The same configuration as the object the program holds at run time *)

Definition optional (o : option string) : Value :=
  match o with Some s => VStr s | None => VUndefined end.

Definition ColorTheme_text (t : ColorTheme) : string :=
  match t with
  | theme_default => "default" | theme_light => "light"
  | theme_dark => "dark" | theme_pastel => "pastel"
  end.

Definition WeatherUnits_text (u : WeatherUnits) : string :=
  match u with metric => "metric" | imperial => "imperial" end.

Definition toObject (c : WelcomeConfig) : Value :=
  VObj ([
    ("user", VObj [("userName", VStr (userName (user c)))]);
    ("weather", VObj [
       ("city", optional (city (weather c)));
       ("country", optional (country (weather c)));
       ("zip", optional (zip (weather c)));
       ("units", VStr (WeatherUnits_text (units (weather c))));
       ("apiKey", optional (weather_apiKey (weather c)));
       ("showForecast", VBool (showForecast (weather c)));
       ("showHumidity", VBool (showHumidity (weather c)));
       ("showWind", VBool (showWind (weather c)))]);
    ("github", VObj [
       ("personalToken", optional (personalToken (github c)));
       ("username", optional (username (github c)));
       ("showAssignedPRs", VBool (showAssignedPRs (github c)));
       ("showCreatedPRs", VBool (showCreatedPRs (github c)));
       ("showMentions", VBool (showMentions (github c)));
       ("maxPRs", VNum (maxPRs (github c)))]);
    ("linear", VObj [
       ("apiKey", optional (linear_apiKey (linear c)));
       ("teamNames", VArr (map VStr (teamNames (linear c))));
       ("daysStalled", VNum (daysStalled (linear c)));
       ("baseUrl", VStr (baseUrl (linear c)))]);
    ("system", VObj [
       ("showLoad", VBool (showLoad (system c)));
       ("showMemory", VBool (showMemory (system c)));
       ("showDisk", VBool (showDisk (system c)));
       ("showBattery", VBool (showBattery (system c)));
       ("showUptime", VBool (showUptime (system c)))]);
    ("cache", VObj [
       ("weatherDuration", VNum (weatherDuration (cache c)));
       ("githubDuration", VNum (githubDuration (cache c)));
       ("quoteDuration", VNum (quoteDuration (cache c)))]);
    ("performance", VObj [
       ("maxExecutionTime", VNum (maxExecutionTime (performance c)));
       ("parallelExecution", VBool (parallelExecution (performance c)));
       ("showMetrics", VBool (showMetrics (performance c)))]);
    ("display", VObj [
       ("useEmojis", VBool (useEmojis (display c)));
       ("colorTheme", VStr (ColorTheme_text (colorTheme (display c))));
       ("logLevel", VNum (LogLevel_value (logLevel (display c))))]);
    ("enabledModules", VArr (map VStr (enabledModules c)));
    ("dataDir", VStr (dataDir c))]
    ++ match postWelcomeCommand c with
       | Some command => [("postWelcomeCommand", VStr command)]
       | None => []
       end).

End Types.

(* ===================================================================== *)
(** * Loading the configuration ([src/config/index.ts]) *)
(* ===================================================================== *)

Module Config.
Import Js Types.

(** The properties [{...v}] copies: those of an object, the indexed items of
    an array, the indexed characters of a string, none of any other value. *)
Definition own_props (v : Value) : list (string * Value) :=
  match v with
  | VObj props => props
  | VArr items => imap (fun i x => (show_Z (Z.of_nat i), x)) items
  | VStr s =>
      imap (fun i c => (show_Z (Z.of_nat i), VStr (String c "")))
           (list_ascii_of_string s)
  | _ => []
  end.

(** [{...a, ...b}]. Properties are kept in insertion order (JavaScript moves
    integer-like keys to the front, which nothing here observes). *)
Definition spread (a b : Value) : Value :=
  VObj (fold_left (fun acc kv => obj_set (fst kv) (snd kv) acc)
                  (own_props a ++ own_props b) []).

(** [v.k], which throws when [v] is null or undefined. *)
Definition member {S : Type} (v : Value) (k : string) : M S Value :=
  match v with
  | VNull => throw ("TypeError: Cannot read properties of null (reading '" +:+ k +:+ "')")
  | VUndefined =>
      throw ("TypeError: Cannot read properties of undefined (reading '" +:+ k +:+ "')")
  | _ => ret (prop v k)
  end.

Definition is_defined (v : Value) : bool :=
  match v with VUndefined => false | _ => true end.

(** The fields to which [defaults] gives a value and [config] does not, as
    (section, field), or (key, "") for a top-level value that is no
    section. *)
Definition missing_fields (defaults config : Value) : list (string * string) :=
  flat_map
    (fun kd =>
       match snd kd with
       | VObj fields =>
           omap (fun fv =>
                   if is_defined (snd fv)
                      && negb (is_defined (prop (prop config (fst kd)) (fst fv)))
                   then Some (fst kd, fst fv) else None) fields
       | d => if is_defined d && negb (is_defined (prop config (fst kd)))
              then [(fst kd, "")] else []
       end)
    (own_props defaults).

Section Config.
Context {Env : Type}.
Variable host : Host.
Variable penv : ProcessEnv.
Variable JSON_stringify : Value -> option string.
Variable JSON_parse : string -> option Value.

Definition CONFIG_DIR : string :=
  path_join (path_join (homedir host) ".config") "welcome".

Definition CONFIG_FILE : string := path_join CONFIG_DIR "config.json".

(** [defaultConfig], the object. *)
Definition defaultConfigObject : Value := toObject (defaultConfig penv).

Definition saveConfig (config : Value) : M (Sys Env) unit :=
  try_catch
    (fs_writeFile host CONFIG_FILE (JSON_stringify config) >>
     logger_debug "Saved configuration to file")
    (fun error => logger_error ("Failed to save configuration: " +:+ error)).

Definition loadConfig : M (Sys Env) Value :=
  try_catch
    (fs_mkdir host CONFIG_DIR >>
     try_catch
       (do configData <- fs_readFile host CONFIG_FILE;
        do userConfig <- Cache.JSON_parse_or_throw JSON_parse configData;
        let config := spread defaultConfigObject userConfig in
        do level <- member (prop config "display") "logLevel";
        logger_setLevel level >>
        logger_debug "Loaded configuration from file" >>
        ret config)
       (fun _ =>
          saveConfig defaultConfigObject >>
          logger_info "Created default configuration file" >>
          ret defaultConfigObject))
    (fun error =>
       logger_error ("Failed to load/create configuration: " +:+ error) >>
       ret defaultConfigObject).

(** What [loadConfig] can read of the persisted file: the parsed value, or
    nothing when the directory cannot be made or the file is absent,
    unreadable or not JSON. *)
Definition persisted (s : Sys Env) : option Value :=
  if decide (CONFIG_DIR ∈ no_mkdir host) then None
  else match files s !! CONFIG_FILE with
       | Some f =>
           if decide (CONFIG_FILE ∈ unreadable host) then None
           else JSON_parse (content f)
       | None => None
       end.

Definition is_nullish (v : Value) : bool :=
  match v with VNull | VUndefined => true | _ => false end.

(** What [loadConfig] returns: the defaults overridden, top-level entry by
    top-level entry, by what was persisted; the defaults alone when nothing
    could be read or the merged [display] entry is null. *)
Definition expected_config (s : Sys Env) : Value :=
  match persisted s with
  | Some userConfig =>
      if is_nullish (prop (spread defaultConfigObject userConfig) "display")
      then defaultConfigObject
      else spread defaultConfigObject userConfig
  | None => defaultConfigObject
  end.

End Config.
End Config.

(* ===================================================================== *)
(** * Timers ([src/utils/performance.ts]) *)
(* ===================================================================== *)

(** The process as the orchestrator sees it: [timers] is the map private to
    [performance.ts], which only [startTimer] and [endTimer] reach. *)
Record World (Env : Type) := {
  sys : Sys Env;
  timers : gmap string Z
}.
Arguments sys {Env} _.
Arguments timers {Env} _.

Module Performance.

Section Performance.
Context {Env : Type}.

Definition lift {A} (m : M (Sys Env) A) : M (World Env) A :=
  fun w => let '(r, s') := m (sys w) in (r, {| sys := s'; timers := timers w |}).

Definition set_timers (f : gmap string Z -> gmap string Z) (w : World Env) : World Env :=
  {| sys := sys w; timers := f (timers w) |}.

(** [performance.now()], in whole milliseconds. *)
Definition performance_now : M (World Env) Z := gets (fun w => perf_clock (sys w)).

Definition startTimer (name : string) : M (World Env) unit :=
  do now <- performance_now;
  modify (set_timers (insert name now)).

(** The duration is returned in milliseconds; the source's number of seconds
    with three decimals is that number divided by 1000. *)
Definition endTimer (name : string) : M (World Env) Z :=
  do startTime <- gets (fun w => timers w !! name);
  match startTime with
  | None =>
      throw ("Error: Timer " +:+ String Js.dquote name +:+ String Js.dquote " was not started")
  | Some startTime =>
      do endTime <- performance_now;
      let durationMs := endTime - startTime in
      modify (set_timers (delete name)) >>
      ret durationMs
  end.

(** [fn] is any computation of the process; it may start and end timers
    itself. *)
Definition measureTime {A} (name : string) (fn : M (World Env) A) : M (World Env) A :=
  startTimer name >>
  try_finally fn (endTimer name).

Definition measureTimeSync {A} (name : string) (fn : M (World Env) A) : M (World Env) A :=
  startTimer name >>
  try_finally fn (endTimer name).

End Performance.

(** How JavaScript prints [ms / 1000] rounded to three decimals. *)
Definition pad3 (n : Z) : string :=
  (if n <? 10 then "00" else if n <? 100 then "0" else "") +:+ Js.show_Z n.

Definition show_seconds (ms : Z) : string :=
  let a := Z.abs ms in
  (if ms <? 0 then "-" else "") +:+ Js.show_Z (a / 1000)
  +:+ (let r := a mod 1000 in
       if r =? 0 then ""
       else if r mod 100 =? 0 then "." +:+ Js.show_Z (r / 100)
       else if r mod 10 =? 0 then "." +:+ (if r <? 100 then "0" else "") +:+ Js.show_Z (r / 10)
       else "." +:+ pad3 r).

End Performance.

(* ===================================================================== *)
(** * The module registry and the orchestrator ([src/modules/base.ts]) *)
(* ===================================================================== *)

Module Base.
Import Types Performance.

(** [interface WelcomeModule]. What a module's methods do is code of the
    module: any computation over [Sys], which has no access to the timers. *)
Record WelcomeModule (Env : Type) := {
  name : string;
  setup : WelcomeConfig -> M (Sys Env) unit;
  display : WelcomeConfig -> M (Sys Env) string;
  cleanup : option (M (Sys Env) unit)
}.
Arguments name {Env} _.
Arguments setup {Env} _ _.
Arguments display {Env} _ _.
Arguments cleanup {Env} _.

(** The methods of a built-in module, whose bodies are not modelled. *)
Record Methods (Env : Type) := {
  on_setup : WelcomeConfig -> M (Sys Env) unit;
  on_display : WelcomeConfig -> M (Sys Env) string;
  on_cleanup : M (Sys Env) unit
}.
Arguments on_setup {Env} _ _.
Arguments on_display {Env} _ _.
Arguments on_cleanup {Env} _.

Definition built_in {Env} (module_name : string) (methods : Methods Env)
  : WelcomeModule Env :=
  {| name := module_name;
     setup := on_setup methods;
     display := on_display methods;
     cleanup := Some (on_cleanup methods) |}.

(** [array.filter(x => x !== undefined)]. *)
Definition filter_defined {A} (xs : list (option A)) : list A := omap id xs.

(** [array.join('\n')] etc. *)
Definition array_join (sep : string) (xs : list string) : string := Js.join sep xs.

Section Registry.
Context {Env : Type}.

(** [class ModuleRegistry]: the state of an instance is its private [Map],
    here the list of its entries in insertion order. [register] also logs a
    debug line, which is left out. *)
Definition register (module : WelcomeModule Env)
    (modules : list (string * WelcomeModule Env)) : list (string * WelcomeModule Env) :=
  assoc_set (name module) module modules.

Definition getModule (modules : list (string * WelcomeModule Env)) (module_name : string)
  : option (WelcomeModule Env) :=
  assoc_get module_name modules.

Definition getAllModules (modules : list (string * WelcomeModule Env))
  : list (WelcomeModule Env) :=
  map snd modules.

Definition getEnabledModules (modules : list (string * WelcomeModule Env))
    (config : WelcomeConfig) : list (WelcomeModule Env) :=
  filter_defined
    (map (fun module_name => assoc_get module_name modules) (enabledModules config)).

(** A registry on which [register] was called with each module of the list,
    first to last. *)
Definition registry_of (registered : list (WelcomeModule Env))
  : list (string * WelcomeModule Env) :=
  fold_left (fun modules module => register module modules) registered [].

(** The registry keeps one entry per name, filed under the module's name. *)
Definition registry_ok (modules : list (string * WelcomeModule Env)) : Prop :=
  NoDup modules.*1 /\ Forall (fun entry => name entry.2 = entry.1) modules.

(** ** The singleton registry and the built-in modules *)

Variables githubMethods weatherMethods linearStalledMethods systemMethods
          greetingMethods : Methods Env.

Definition githubModule := built_in "github" githubMethods.
Definition weatherModule := built_in "weather" weatherMethods.
Definition linearStalledModule := built_in "linearStalled" linearStalledMethods.
Definition systemModule := built_in "system" systemMethods.
(** [src/modules/greeting.ts] exports it; [base.ts] does not import it. *)
Definition greetingModule := built_in "greeting" greetingMethods.

Definition moduleRegistry : list (string * WelcomeModule Env) :=
  register systemModule
    (register linearStalledModule
       (register weatherModule
          (register githubModule []))).

(** ** [setupModules] *)

(** The body of [for (const module of enabledModules)]. *)
Definition setup_one (config : WelcomeConfig) (module : WelcomeModule Env)
  : M (World Env) unit :=
  try_catch
    (startTimer ("setup_" +:+ name module) >>
     lift (setup module config) >>
     do setupTime <- endTimer ("setup_" +:+ name module);
     lift (logger_debug ("Module " +:+ name module +:+ " setup completed in "
                         +:+ show_seconds setupTime +:+ "s")))
    (fun error =>
       lift (logger_error ("Failed to setup module " +:+ name module +:+ ": " +:+ error))).

Fixpoint setup_each (config : WelcomeConfig) (enabled : list (WelcomeModule Env))
  : M (World Env) unit :=
  match enabled with
  | [] => ret tt
  | module :: rest => setup_one config module >> setup_each config rest
  end.

Definition setupModules (config : WelcomeConfig) : M (World Env) unit :=
  let enabled := getEnabledModules moduleRegistry config in
  lift (logger_debug ("Setting up " +:+ Js.show_Z (Z.of_nat (length enabled)) +:+ " modules")) >>
  setup_each config enabled.

(** ** [displayWelcome] *)

(** The body of the display loop; [output] is the array built so far. It is
    pushed to after the last statement of the [try] block that can throw, so
    a caught exception leaves it as it was. *)
Definition display_one (config : WelcomeConfig) (module : WelcomeModule Env)
    (output : list string) : M (World Env) (list string) :=
  try_catch
    (startTimer ("display_" +:+ name module) >>
     do moduleOutput <- lift (display module config);
     do displayTime <- endTimer ("display_" +:+ name module);
     let output' :=
       if negb (String.eqb moduleOutput "") then output ++ [moduleOutput] else output in
     (if 100 <? displayTime then
        lift (logger_debug ("Module " +:+ name module +:+ " display took "
                            +:+ show_seconds displayTime +:+ "s"))
      else ret tt) >>
     ret output')
    (fun error =>
       lift (logger_error ("Failed to display module " +:+ name module +:+ ": " +:+ error)) >>
       ret output).

Fixpoint display_each (config : WelcomeConfig) (enabled : list (WelcomeModule Env))
    (output : list string) : M (World Env) (list string) :=
  match enabled with
  | [] => ret output
  | module :: rest =>
      do output' <- display_one config module output;
      display_each config rest output'
  end.

Definition displayWelcome (config : WelcomeConfig) : M (World Env) string :=
  let enabled := getEnabledModules moduleRegistry config in
  let output := [""] in
  startTimer "display_welcome" >>
  do output <- display_each config enabled output;
  let output := output ++ [""] in
  do totalTime <- endTimer "display_welcome";
  lift (logger_debug ("Total welcome display time: " +:+ show_seconds totalTime +:+ "s")) >>
  ret (array_join Js.newline output).

(** ** The two passes in terms of the modules alone

    What remains of the loops once timers and exception handlers are taken
    out: each enabled module's method is applied, in order, to the state its
    predecessor left, and is followed by the line the orchestrator logs. *)

Definition setup_step (config : WelcomeConfig) (s : Sys Env) (module : WelcomeModule Env)
  : Sys Env :=
  match setup module config s with
  | (Ok _, s') =>
      log_entry DEBUG ("Module " +:+ name module +:+ " setup completed in "
                       +:+ show_seconds (perf_clock s' - perf_clock s) +:+ "s") s'
  | (Throw error, s') =>
      log_entry ERROR ("Failed to setup module " +:+ name module +:+ ": " +:+ error) s'
  end.

Definition setup_pass (config : WelcomeConfig) (enabled : list (WelcomeModule Env))
    (s : Sys Env) : Sys Env :=
  fold_left (setup_step config) enabled s.

(** What one [display] call contributes to the output: its text when it
    returns a non-empty one, nothing when it returns the empty string or
    throws. *)
Definition fragment_of (result : Outcome string) : list string :=
  match result with
  | Ok moduleOutput => if String.eqb moduleOutput "" then [] else [moduleOutput]
  | Throw _ => []
  end.

Definition display_step (config : WelcomeConfig) (s : Sys Env) (module : WelcomeModule Env)
  : Outcome string * Sys Env :=
  match display module config s with
  | (Ok moduleOutput, s') =>
      (Ok moduleOutput,
       if 100 <? perf_clock s' - perf_clock s
       then log_entry DEBUG ("Module " +:+ name module +:+ " display took "
                             +:+ show_seconds (perf_clock s' - perf_clock s) +:+ "s") s'
       else s')
  | (Throw error, s') =>
      (Throw error,
       log_entry ERROR ("Failed to display module " +:+ name module +:+ ": " +:+ error) s')
  end.

(** The fragments of the enabled modules, in order, and the final state. *)
Fixpoint display_pass (config : WelcomeConfig) (enabled : list (WelcomeModule Env))
    (s : Sys Env) : list string * Sys Env :=
  match enabled with
  | [] => ([], s)
  | module :: rest =>
      let '(result, s') := display_step config s module in
      let '(fragments, s'') := display_pass config rest s' in
      (fragment_of result ++ fragments, s'')
  end.

(** The module registered last under a name, if any. *)
Fixpoint registered_as (module_name : string) (registered : list (WelcomeModule Env))
  : option (WelcomeModule Env) :=
  match registered with
  | [] => None
  | module :: rest =>
      match registered_as module_name rest with
      | Some later => Some later
      | None => if String.eqb module_name (name module) then Some module else None
      end
  end.

End Registry.
End Base.

(* ===================================================================== *)
(** * The entry point ([src/index.ts]) *)
(* ===================================================================== *)

Module Index.
Import Types Performance Base.

Section Index.
Context {Env : Type}.
Variable host : Host.
Variables githubMethods weatherMethods linearStalledMethods systemMethods
          : Methods Env.

(** [loadConfig()] at its declared type, [Promise<WelcomeConfig>]. What it
    returns for an arbitrary persisted file is the subject of [Config]. *)
Variable loadConfig : M (Sys Env) WelcomeConfig.

Definition console_log (text : string) : M (Sys Env) unit :=
  modify (set_console (fun lines => lines ++ [text])).

Definition init : M (World Env) unit :=
  let moduleRegistry :=
    moduleRegistry githubMethods weatherMethods linearStalledMethods systemMethods in
  try_catch
    (lift (Cache.ensureCacheDir host) >>
     do config <- lift loadConfig;
     lift (logger_setLevel (Js.VNum (LogLevel_value WARN))) >>
     lift (logger_debug ("Enabled modules in config: "
                         +:+ array_join ", " (enabledModules config))) >>
     let registeredModules := getAllModules moduleRegistry in
     lift (logger_debug ("Registered modules: "
                         +:+ array_join ", " (map name registeredModules))) >>
     let enabled := getEnabledModules moduleRegistry config in
     lift (logger_debug ("Enabled and registered modules: "
                         +:+ array_join ", " (map name enabled))) >>
     setupModules githubMethods weatherMethods linearStalledMethods systemMethods config >>
     do welcomeMessage <-
       displayWelcome githubMethods weatherMethods linearStalledMethods systemMethods config;
     lift (logger_debug ("Welcome message length: "
                         +:+ Js.show_Z (Z.of_nat (String.length welcomeMessage)))) >>
     lift (logger_debug ("Welcome message content: " +:+ String Js.dquote welcomeMessage
                         +:+ String Js.dquote "")) >>
     lift (console_log welcomeMessage) >>
     match postWelcomeCommand config with
     | Some command =>
         if negb (String.eqb command "")
         then lift (logger_debug ("Executing post-welcome command: " +:+ command))
         else ret tt
     | None => ret tt
     end)
    (fun error =>
       lift (logger_error ("Failed to initialize welcome message system: " +:+ error))).

(** The statements at the end of the file: [init()] when the file is the
    program's main module, then [init()] again. Neither call is awaited; the
    model runs one after the other, which keeps the calls each makes and
    their number (in Node the two interleave at each [await]). *)
Definition main (require_main_is_module : bool) : M (World Env) unit :=
  (if require_main_is_module then init else ret tt) >>
  init.

End Index.
End Index.

(* ===================================================================== *)
(** * The configuration command handler *)
(* ===================================================================== *)

(** Strings as the command reads them from a shell file. A character stands
    for a code unit below 256. *)
Module Text.

(** [s.split('\n')]. *)
Fixpoint split_lines (s : string) : list string :=
  match s with
  | EmptyString => [""]
  | String c rest =>
      if Ascii.eqb c "010"%char then "" :: split_lines rest
      else match split_lines rest with
           | line :: lines => String c line :: lines
           | [] => [String c ""]
           end
  end.

(** White space and line terminators, which [trim] removes. *)
Definition is_space (c : ascii) : bool :=
  match nat_of_ascii c with
  | 9%nat | 10%nat | 11%nat | 12%nat | 13%nat | 32%nat | 160%nat => true
  | _ => false
  end.

Fixpoint trimStart (s : string) : string :=
  match s with
  | EmptyString => ""
  | String c rest => if is_space c then trimStart rest else s
  end.

Fixpoint trimEnd (s : string) : string :=
  match s with
  | EmptyString => ""
  | String c rest =>
      match trimEnd rest with
      | EmptyString => if is_space c then "" else String c ""
      | kept => String c kept
      end
  end.

Definition trim (s : string) : string := trimEnd (trimStart s).

(** [s.startsWith(p)]. *)
Definition startsWith (s p : string) : bool := String.prefix p s.

(** [!s.includes('\n')]. *)
Fixpoint single_line (s : string) : bool :=
  match s with
  | EmptyString => true
  | String c rest => negb (Ascii.eqb c "010"%char) && single_line rest
  end.

End Text.

Module ConfigCommand.
Import Js Types Config Text.

Section ConfigCommand.
Context {Env : Type}.
Variable host : Host.
Variable penv : ProcessEnv.
Variable JSON_parse : string -> option Value.

#[local] Abbreviation defaultConfig := (defaultConfigObject penv).

(** [{ ...defaultConfig.k, ...userConfig.k }]. *)
Definition merged_section (userConfig : Value) (k : string) : M (Sys Env) Value :=
  do section <- member userConfig k;
  ret (spread (prop defaultConfig k) section).

Definition loadCurrentConfig : M (Sys Env) Value :=
  try_catch
    (fs_mkdir host (CONFIG_DIR host) >>
     do configData <- fs_readFile host (CONFIG_FILE host);
     do userConfig <- Cache.JSON_parse_or_throw JSON_parse configData;
     let config := own_props (spread defaultConfig userConfig) in
     do user <- merged_section userConfig "user";
     let config := obj_set "user" user config in
     do weather <- merged_section userConfig "weather";
     let config := obj_set "weather" weather config in
     do github <- merged_section userConfig "github";
     let config := obj_set "github" github config in
     do linear <- merged_section userConfig "linear";
     let config := obj_set "linear" linear config in
     do system <- merged_section userConfig "system";
     let config := obj_set "system" system config in
     do cache <- merged_section userConfig "cache";
     let config := obj_set "cache" cache config in
     do performance <- merged_section userConfig "performance";
     let config := obj_set "performance" performance config in
     do display <- merged_section userConfig "display";
     let config := obj_set "display" display config in
     ret (VObj config))
    (fun _ => ret (spread defaultConfig (VObj []))).

(** The sections [loadCurrentConfig] merges field by field. *)
Definition sections : list string :=
  ["user"; "weather"; "github"; "linear"; "system"; "cache"; "performance"; "display"].

(** What [loadCurrentConfig] returns for a parsed [userConfig] that is
    neither null nor undefined. *)
Definition deep_merged (userConfig : Value) : Value :=
  VObj (fold_left
          (fun config k =>
             obj_set k (spread (prop defaultConfig k) (prop userConfig k)) config)
          sections (own_props (spread defaultConfig userConfig))).

(** ** [updateEnvFile] *)

Definition exportLine (key value : string) : string :=
  "export " +:+ key +:+ "=" +:+ String dquote value +:+ String dquote "".

(** The test of the [map] callback: the line sets [key]. *)
Definition sets_key (key line : string) : bool :=
  startsWith (trim line) ("export " +:+ key +:+ "=")
  || startsWith (trim line) (key +:+ "=").

Definition updateEnvFile (key value filePath : string) : M (Sys Env) unit :=
  try_catch
    (do content <-
       try_catch
         (fs_readFile host filePath)
         (fun _ => logger_debug ("Creating new file: " +:+ filePath) >> ret "");
     let exportLine := exportLine key value in
     let lines := split_lines content in
     let keyExists := existsb (sets_key key) lines in
     let updatedLines :=
       map (fun line => if sets_key key line then exportLine else line) lines in
     if keyExists then
       fs_writeFile host filePath (Some (join newline updatedLines)) >>
       logger_debug ("Updated " +:+ key +:+ " in " +:+ filePath)
     else
       let newContent :=
         if negb (String.eqb (trim content) "")
         then content +:+ newline +:+ exportLine +:+ newline
         else exportLine +:+ newline in
       fs_writeFile host filePath (Some newContent) >>
       logger_debug ("Added " +:+ key +:+ " to " +:+ filePath))
    (fun error =>
       logger_error ("Failed to update " +:+ filePath +:+ ": " +:+ error) >>
       throw error).

(** What [updateEnvFile] makes of the text it read. *)
Definition updated (key value content : string) : string :=
  if existsb (sets_key key) (split_lines content)
  then join newline
         (map (fun line => if sets_key key line then exportLine key value else line)
              (split_lines content))
  else if negb (String.eqb (trim content) "")
       then content +:+ newline +:+ exportLine key value +:+ newline
       else exportLine key value +:+ newline.

(** The text [updateEnvFile] starts from: the file's, or the empty string
    when it cannot be read. *)
Definition read_or_empty (filePath : string) (s : Sys Env) : string :=
  match files s !! filePath with
  | Some f => if decide (filePath ∈ unreadable host) then "" else content f
  | None => ""
  end.

End ConfigCommand.
End ConfigCommand.

(* ===================================================================== *)
(** * The GitHub module ([src/modules/github.ts]) *)
(* ===================================================================== *)

Module GitHub.
Import Js Types Config.

(** [`${v}`] for a JSON value: its text, or nothing when the conversion
    throws a TypeError. A parsed object with an own property [toString] has
    no callable [toString] (no JSON value is a function) and its [valueOf]
    returns the object, so it converts to no primitive; any other object
    prints as [[object Object]], and an array prints its items, null and
    undefined as nothing, separated by commas. An integer prints its digits,
    which is what JavaScript does below 10^21. *)
Fixpoint to_text (v : Value) : option string :=
  match v with
  | VUndefined => Some "undefined"
  | VNull => Some "null"
  | VBool true => Some "true"
  | VBool false => Some "false"
  | VNum n => Some (show_Z n)
  | VStr s => Some s
  | VArr items =>
      option_map (join ",")
        ((fix each (items : list Value) : option (list string) :=
            match items with
            | [] => Some []
            | item :: rest =>
                match (if is_nullish item then Some "" else to_text item), each rest with
                | Some text, Some texts => Some (text :: texts)
                | _, _ => None
                end
            end) items)
  | VObj props =>
      match obj_get "toString" props with
      | Some _ => None
      | None => Some "[object Object]"
      end
  end.

(** Whether [`${v}`] returns. *)
Definition printable (v : Value) : bool :=
  match to_text v with Some _ => true | None => false end.

(** [s.split(sep)] for a separator of one character. *)
Fixpoint split_on (sep : ascii) (s : string) : list string :=
  match s with
  | EmptyString => [""]
  | String c rest =>
      if Ascii.eqb c sep then "" :: split_on sep rest
      else match split_on sep rest with
           | part :: parts => String c part :: parts
           | [] => [String c ""]
           end
  end.

(** [!s.includes(sep)]. *)
Fixpoint without (sep : ascii) (s : string) : bool :=
  match s with
  | EmptyString => true
  | String c rest => negb (Ascii.eqb c sep) && without sep rest
  end.

(** [a || b] on strings that may be undefined. *)
Definition or_else (a b : option string) : option string :=
  match a with
  | Some x => if String.eqb x "" then b else a
  | None => b
  end.

(** [!a] on a string that may be undefined. *)
Definition blank (a : option string) : bool :=
  match a with
  | Some x => String.eqb x ""
  | None => true
  end.

(** What [fetch] resolves to, as far as [fetchGitHub] looks at it. *)
Record Response (Env : Type) := {
  ok : bool;
  status : Z;
  statusText : string;
  json : M (Sys Env) Value
}.
Arguments ok {Env} _.
Arguments status {Env} _.
Arguments statusText {Env} _.
Arguments json {Env} _.

(** The private fields of the module's instance. *)
Record Fields := {
  this_username : Value;
  this_token : option string
}.

Section GitHub.
Context {Env : Type}.
Variable host : Host.
Variable JSON_stringify : Value -> option string.
Variable JSON_parse : string -> option Value.

(** [process.env.GITHUB_PERSONAL_TOKEN] and [process.env.GITHUB_TOKEN]. *)
Variables GITHUB_PERSONAL_TOKEN GITHUB_TOKEN : option string.

(** [fetch(url, { headers })]: the network. *)
Variable fetch : string -> list (string * string) -> M (Sys Env) (Response Env).

(** [colorText] and [colorBoldText] of [src/utils/color.ts], which hand the
    text to chalk. *)
Variables colorText colorBoldText : string -> string -> string.

(** [ToNumber(s) > n] for a string [s]. *)
Variable string_gt : string -> Z -> bool.

(** [`${v}`] where it is evaluated. *)
Definition template (v : Value) : M (Sys Env) string :=
  match to_text v with
  | Some text => ret text
  | None => throw "TypeError: Cannot convert object to primitive value"
  end.

(** [v > n] for a JSON value [v]: an array or an object is first converted to
    a primitive, which is its text or a TypeError as in a template. *)
Definition js_gt (v : Value) (n : Z) : M (Sys Env) bool :=
  match v with
  | VUndefined => ret false
  | VNull => ret (n <? 0)
  | VBool b => ret (n <? (if b then 1 else 0))
  | VNum m => ret (n <? m)
  | VStr s => ret (string_gt s n)
  | VArr _ | VObj _ =>
      do text <- template v;
      ret (string_gt text n)
  end.

Definition getToken (config : GitHubConfig) : option string :=
  or_else (or_else (personalToken config) GITHUB_PERSONAL_TOKEN) GITHUB_TOKEN.

Definition fetchGitHub (url token : string) : M (Sys Env) Value :=
  do res <- fetch url [("Authorization", "token " +:+ token);
                       ("Accept", "application/vnd.github.v3+json");
                       ("User-Agent", "welcome-message-ts")];
  if negb (ok res)
  then throw ("Error: GitHub API error: " +:+ show_Z (status res) +:+ " " +:+ statusText res)
  else json res.

Definition getUsername (config : WelcomeConfig) : M (Sys Env) Value :=
  if negb (blank (username (github config)))
  then ret (optional (username (github config)))
  else
    let token := getToken (github config) in
    if blank token then ret VUndefined
    else
      try_catch
        (do data <- fetchGitHub "https://api.github.com/user" (default "" token);
         member data "login")
        (fun e =>
           logger_warn ("Could not fetch GitHub username: " +:+ e) >>
           ret VUndefined).

(** [url.split('/')], which only a string has, and the last part. *)
Definition repoNameFromUrl (url : Value) : M (Sys Env) string :=
  match url with
  | VStr url => ret (List.last (split_on "/" url) "")
  | VNull => throw "TypeError: Cannot read properties of null (reading 'split')"
  | VUndefined => throw "TypeError: Cannot read properties of undefined (reading 'split')"
  | _ => throw "TypeError: url.split is not a function"
  end.

(** [setup] returns the fields it has assigned. *)
Definition setup (config : WelcomeConfig) : M (Sys Env) Fields :=
  let token := getToken (github config) in
  do username <-
    (if negb (blank (username (github config)))
     then ret (optional (username (github config)))
     else getUsername config);
  (if blank token
   then logger_warn "GitHub token not configured. GitHub information will not be available."
   else ret tt) >>
  (if negb (truthy username)
   then logger_warn "GitHub username not configured or could not be fetched."
   else ret tt) >>
  ret {| this_username := username; this_token := token |}.

(** One entry of [data.items.map(item => ...)]. *)
Definition item_line (sep : string) (item : Value) : M (Sys Env) string :=
  do url <- member item "repository_url";
  do repo <- repoNameFromUrl url;
  do number <- template (prop item "number");
  do title <- template (prop item "title");
  ret (repo +:+ sep +:+ number +:+ ": " +:+ title).

Fixpoint item_lines (sep : string) (items : list Value) : M (Sys Env) (list string) :=
  match items with
  | [] => ret []
  | item :: rest =>
      do line <- item_line sep item;
      do lines <- item_lines sep rest;
      ret (line :: lines)
  end.

(** [data.items.map(...)], which only an array has. *)
Definition items_map (sep : string) (data : Value) : M (Sys Env) (list string) :=
  match prop data "items" with
  | VArr items => item_lines sep items
  | VNull => throw "TypeError: Cannot read properties of null (reading 'map')"
  | VUndefined => throw "TypeError: Cannot read properties of undefined (reading 'map')"
  | _ => throw "TypeError: data.items.map is not a function"
  end.

(** One of the three [try] blocks of [display], with the count and the items
    it leaves in the variables declared before it: the count is assigned
    before the items are mapped, so an exception in the mapping leaves the
    count assigned and the items empty. [prefix] and [query] are the texts
    before [${this.username}] in the cache name and in the URL; the URL is
    built when the request is made. *)
Definition search (username : Value) (prefix query token sep failure maxPRs : string)
    (cacheAge : Z) : M (Sys Env) (Value * list string) :=
  try_catch
    (do name <- template username;
     do data <- Cache.apiRequest host JSON_stringify JSON_parse (prefix +:+ name) cacheAge
                  (do name <- template username;
                   fetchGitHub (query +:+ name +:+ "&per_page=" +:+ maxPRs) token);
     do count <- member data "total_count";
     try_catch
       (do items <- items_map sep data;
        ret (count, items))
       (fun e => logger_warn (failure +:+ e) >> ret (count, [])))
    (fun e => logger_warn (failure +:+ e) >> ret (VNum 0, [])).

(** What the mapping makes of an item: its line when its [repository_url] is
    a string and its number and title can be printed, nothing when the
    callback throws. *)
Definition item_text (sep : string) (item : Value) : option string :=
  match prop item "repository_url",
        to_text (prop item "number"), to_text (prop item "title") with
  | VStr url, Some number, Some title =>
      Some (List.last (split_on "/" url) "" +:+ sep +:+ number +:+ ": " +:+ title)
  | _, _, _ => None
  end.

(** The lines of the items of [data], or nothing when [data.items.map(...)]
    throws. *)
Definition items_text (sep : string) (data : Value) : option (list string) :=
  match prop data "items" with
  | VArr items => mapM (item_text sep) items
  | _ => None
  end.

(** The lines of one list of details. *)
Definition details (title_color title arrow_color : string) (items : list string) : string :=
  match items with
  | [] => ""
  | _ =>
      newline +:+ "  " +:+ colorBoldText title_color title
      +:+ fold_left
            (fun message item =>
               message +:+ newline +:+ "    " +:+ colorText arrow_color "↳" +:+ " "
               +:+ colorText "white" item)
            items ""
  end.

Definition not_configured : string :=
  colorBoldText "cyan" "▶" +:+ " GitHub: "
  +:+ colorText "yellow" "⚠️ GitHub API not configured".

Definition heading : string :=
  colorBoldText "cyan" "▶" +:+ " " +:+ colorBoldText "white" "GitHub:".

(** The count and the items of a list that is switched off. *)
Definition nothing : Value * list string := (VNum 0, []).

(** [display] after its guard, in its two parts: the three [try] blocks, and
    the statements that build the output from what they left. *)
Definition searches (this : Fields) (config : WelcomeConfig)
  : M (Sys Env) ((Value * list string) * (Value * list string) * (Value * list string)) :=
  let token := default "" (this_token this) in
  let username := this_username this in
  let maxPRs := show_Z (maxPRs (github config)) in
  let cacheAge := githubDuration (cache config) in
  do review <-
    (if showAssignedPRs (github config)
     then search username "github_review_"
            "https://api.github.com/search/issues?q=is:open+is:pr+review-requested:"
            token " #" "Failed to fetch review requests: " maxPRs cacheAge
     else ret nothing);
  do created <-
    (if showCreatedPRs (github config)
     then search username "github_created_"
            "https://api.github.com/search/issues?q=is:open+is:pr+author:"
            token "/" "Failed to fetch created PRs: " maxPRs cacheAge
     else ret nothing);
  do mention <-
    (if showMentions (github config)
     then search username "github_mentions_"
            "https://api.github.com/search/issues?q=is:open+is:pr+mentions:"
            token "/" "Failed to fetch PR mentions: " maxPRs cacheAge
     else ret nothing);
  ret (review, created, mention).

Definition build (config : WelcomeConfig)
    (results : (Value * list string) * (Value * list string) * (Value * list string))
  : M (Sys Env) string :=
  let '(review, created, mention) := results in
  let githubMessage := heading in
  do githubMessage <-
    (if showAssignedPRs (github config)
     then
       do above3 <- js_gt (fst review) 3;
       do reviewColor <-
         (if above3 then ret "red"
          else
            do above0 <- js_gt (fst review) 0;
            ret (if above0 then "yellow" else "green"));
       do reviewCount <- template (fst review);
       ret (githubMessage +:+ " 🔍 "
            +:+ colorBoldText reviewColor (reviewCount +:+ " PRs")
            +:+ " awaiting your review")
     else ret githubMessage);
  do githubMessage <-
    (if showCreatedPRs (github config)
     then
       do createdCount <- template (fst created);
       ret (githubMessage +:+ " | 📤 " +:+ colorText "blue" createdCount
            +:+ " created by you")
     else ret githubMessage);
  do githubMessage <-
    (if showMentions (github config)
     then
       do mentionCount <- template (fst mention);
       ret (githubMessage +:+ " | 💬 " +:+ colorText "magenta" mentionCount
            +:+ " mentions")
     else ret githubMessage);
  let githubMessage :=
    githubMessage +:+ details "yellow" "PRs awaiting your review:" "blue" (snd review) in
  let githubMessage :=
    githubMessage +:+ details "blue" "Your open PRs:" "green" (snd created) in
  let githubMessage :=
    githubMessage +:+ details "magenta" "PR mentions:" "yellow" (snd mention) in
  ret (githubMessage +:+ newline).

Definition display (this : Fields) (config : WelcomeConfig) : M (Sys Env) string :=
  if blank (this_token this) || negb (truthy (this_username this))
  then ret not_configured
  else
    do results <- searches this config;
    build config results.

(** Whether the counts [build] prints can be printed: those of the lists
    that are switched on. *)
Definition counts_printable (config : WelcomeConfig)
    (results : (Value * list string) * (Value * list string) * (Value * list string))
  : bool :=
  let '(review, created, mention) := results in
  implb (showAssignedPRs (github config)) (printable (fst review))
  && implb (showCreatedPRs (github config)) (printable (fst created))
  && implb (showMentions (github config)) (printable (fst mention)).

End GitHub.
End GitHub.

(* ===================================================================== *)
(** * The logger as a class ([src/utils/logger.ts]) *)
(* ===================================================================== *)

Module Logger.

(** An instance and the two streams of the console it prints to. *)
Record Logger := {
  level : LogLevel;
  stdout : list string;
  stderr : list string
}.

Section Logger.
(** [colorText] of [src/utils/color.ts]. *)
Variable colorText : string -> string -> string.

Definition console_log (text : string) (this : Logger) : Logger :=
  {| level := level this; stdout := stdout this ++ [text]; stderr := stderr this |}.

Definition console_error (text : string) (this : Logger) : Logger :=
  {| level := level this; stdout := stdout this; stderr := stderr this ++ [text] |}.

(** [new Logger(level)], the level being INFO when none is given. *)
Definition new (given : option LogLevel) : Logger :=
  {| level := default INFO given; stdout := []; stderr := [] |}.

Definition setLevel (l : LogLevel) (this : Logger) : Logger :=
  {| level := l; stdout := stdout this; stderr := stderr this |}.

Definition debug (message : string) (this : Logger) : Logger :=
  if LogLevel_value (level this) <=? LogLevel_value DEBUG
  then console_log (colorText "cyan" ("[DEBUG] " +:+ message)) this
  else this.

Definition info (message : string) (this : Logger) : Logger :=
  if LogLevel_value (level this) <=? LogLevel_value INFO
  then console_log (colorText "blue" ("[INFO] " +:+ message)) this
  else this.

Definition warn (message : string) (this : Logger) : Logger :=
  if LogLevel_value (level this) <=? LogLevel_value WARN
  then console_log (colorText "yellow" ("[WARN] " +:+ message)) this
  else this.

Definition error (message : string) (this : Logger) : Logger :=
  if LogLevel_value (level this) <=? LogLevel_value ERROR
  then console_error (colorText "red" ("[ERROR] " +:+ message)) this
  else this.

(** A call of the method of the given severity, and a sequence of calls. *)
Definition call (entry : LogLevel * string) (this : Logger) : Logger :=
  match fst entry with
  | DEBUG => debug (snd entry) this
  | INFO => info (snd entry) this
  | WARN => warn (snd entry) this
  | ERROR => error (snd entry) this
  end.

Definition calls (entries : list (LogLevel * string)) (this : Logger) : Logger :=
  fold_left (fun this entry => call entry this) entries this.

(** The line a call prints when it prints. *)
Definition rendered (entry : LogLevel * string) : string :=
  match fst entry with
  | DEBUG => colorText "cyan" ("[DEBUG] " +:+ snd entry)
  | INFO => colorText "blue" ("[INFO] " +:+ snd entry)
  | WARN => colorText "yellow" ("[WARN] " +:+ snd entry)
  | ERROR => colorText "red" ("[ERROR] " +:+ snd entry)
  end.

End Logger.
End Logger.

(* ===================================================================== *)
(** * The greeting module ([src/modules/greeting.ts]) *)
(* ===================================================================== *)

Module Greeting.
Import Types.

Inductive TimePeriod := MORNING | AFTERNOON | EVENING | NIGHT.

Definition TimePeriod_text (p : TimePeriod) : string :=
  match p with
  | MORNING => "morning"
  | AFTERNOON => "afternoon"
  | EVENING => "evening"
  | NIGHT => "night"
  end.

(** [hour] is [new Date().getHours()]. *)
Definition getCurrentTimePeriod (hour : Z) : TimePeriod :=
  if (5 <=? hour) && (hour <? 12) then MORNING
  else if (12 <=? hour) && (hour <? 18) then AFTERNOON
  else if (18 <=? hour) && (hour <? 22) then EVENING
  else NIGHT.

Definition getTimeEmoji (timePeriod : TimePeriod) : string :=
  match timePeriod with
  | MORNING => "☀️"
  | AFTERNOON => "🌤️"
  | EVENING => "🌇"
  | NIGHT => "✨"
  end.

Section Greeting.
Context {Env : Type}.

(** The hour of the day on the process's clock, in its time zone. *)
Variable getHours : Sys Env -> Z.

Variables colorText colorBoldText : string -> string -> string.

Definition setup (config : WelcomeConfig) : M (Sys Env) unit :=
  (if String.eqb (userName (user config)) ""
   then logger_warn "No user name set in configuration"
   else ret tt) >>
  ret tt.

Definition display (config : WelcomeConfig) : M (Sys Env) string :=
  do hour <- gets getHours;
  let timePeriod := getCurrentTimePeriod hour in
  let timeEmoji := if useEmojis (display config) then getTimeEmoji timePeriod else "" in
  let userName :=
    if String.eqb (userName (user config)) "" then "User" else userName (user config) in
  let waveEmoji := if useEmojis (display config) then "👋 " else "" in
  let greeting := waveEmoji +:+ colorBoldText "magenta" ("Hey " +:+ userName +:+ "!") in
  let greeting :=
    if negb (String.eqb timeEmoji "")
    then greeting +:+ " " +:+ colorText "blue" ("Good " +:+ TimePeriod_text timePeriod)
         +:+ " " +:+ timeEmoji
    else greeting in
  ret greeting.

End Greeting.
End Greeting.

(* ===================================================================== *)
(** * The system module's uptime ([src/modules/system.ts]) *)
(* ===================================================================== *)

Module System.

(** [uptime] is [os.uptime()], a whole number of seconds. [%] is the
    remainder of the truncated division. *)
Definition uptime_parts (uptime : Z) : Z * Z * Z :=
  let hours := uptime / 3600 in
  let minutes := Z.rem uptime 3600 / 60 in
  let seconds := Z.rem uptime 60 in
  (hours, minutes, seconds).

Definition getUptime (uptime : Z) : string :=
  let '(hours, minutes, seconds) := uptime_parts uptime in
  Js.show_Z hours +:+ "h " +:+ Js.show_Z minutes +:+ "m " +:+ Js.show_Z seconds +:+ "s".

End System.

(* ===================================================================== *)
(** * Concrete hosts, states and producers *)
(* ===================================================================== *)

Module Scenario.
Import Js.

(** A host that refuses nothing. *)
Definition laptop : Host :=
  {| homedir := "/home/jens"; no_mkdir := ∅; unwritable := ∅; unreadable := ∅ |}.

Definition review_key : string := "github_review_jens".


(** A process that has just started, with no file in sight. *)
Definition boot {Env} (e : Env) : Sys Env :=
  {| files := ∅; clock := 1700000000000; perf_clock := 0; logs := [];
     logger_level := VNum (LogLevel_value INFO); console := []; env := e |}.

(** A search response of the shape the GitHub module caches. *)
Definition reviews : Value :=
  VObj [("total_count", VNum 1);
        ("items", VArr [VObj [("title", VStr "Fix the cache");
                              ("number", VNum 42);
                              ("repository_url",
                               VStr "https://api.github.com/repos/jens/terminal-brief")]])].

Definition reviews_text : string := default "" (stringify reviews).

(** [boot] with an entry for [review_key] written [age] milliseconds ago. *)
Definition cached {Env} (e : Env) (age : Z) (text : string) : Sys Env :=
  set_files (insert (Cache.cacheFile laptop review_key)
                    {| mtimeMs := 1700000000000 - age; content := text |})
            (boot e).

(** Producers over a counter of their invocations. *)
Definition fetch_reviews : M (Sys nat) Value :=
  fun s => (Ok reviews, set_env (S (env s)) s).

Definition fetch_unavailable : M (Sys nat) Value :=
  fun s => (Throw "Error: GitHub API error: 503 Service Unavailable", set_env (S (env s)) s).

Definition fetch_zero : M (Sys nat) Value :=
  fun s => (Ok (VNum 0), set_env (S (env s)) s).

(** A process environment with a home directory and no tokens. *)
Definition jens_env : Types.ProcessEnv :=
  {| Types.GITHUB_PERSONAL_TOKEN := None; Types.LINEAR_API_KEY := None;
     Types.HOME := Some "/home/jens"; Types.USERPROFILE := None |}.

Definition start {Env} (e : Env) : World Env := {| sys := boot e; timers := ∅ |}.

(** The configuration of the specification's end-to-end scenario. *)
Definition only_system : Types.WelcomeConfig :=
  Types.with_enabledModules ["system"] (Types.defaultConfig jens_env).

Definition system_and_github : Types.WelcomeConfig :=
  Types.with_enabledModules ["github"; "system"] (Types.defaultConfig jens_env).

(** Module methods that return at once, and methods that throw. *)
Definition returning (text : string) : Base.Methods unit :=
  {| Base.on_setup := fun _ => ret tt;
     Base.on_display := fun _ => ret text;
     Base.on_cleanup := ret tt |}.

Definition throwing (error : Error) : Base.Methods unit :=
  {| Base.on_setup := fun _ => throw error;
     Base.on_display := fun _ => throw error;
     Base.on_cleanup := ret tt |}.

Definition system_report : string :=
  "System Information:" +:+ newline +:+ "Load: 0.42, 0.40, 0.35" +:+ newline
  +:+ "Uptime: 3h 12m 5s".

(** A persisted configuration that sets the city and nothing else. *)
Definition paris : Value := VObj [("weather", VObj [("city", VStr "Paris")])].

Definition with_config_file (text : string) : Sys unit :=
  set_files (insert (Config.CONFIG_FILE laptop)
                    {| mtimeMs := 1600000000000; content := text |})
            (boot tt).

(** Module methods that note each call in a journal. *)
Definition journal (entry : string) : M (Sys (list string)) unit :=
  fun s => (Ok tt, set_env (env s ++ [entry]) s).

Definition recording (module_name : string) : Base.Methods (list string) :=
  {| Base.on_setup := fun _ => journal ("setup " +:+ module_name);
     Base.on_display := fun _ => journal ("display " +:+ module_name) >> ret module_name;
     Base.on_cleanup := ret tt |}.

(** A configuration that enables the greeting module alone. *)
Definition only_greeting : Types.WelcomeConfig :=
  Types.with_enabledModules ["greeting"] (Types.defaultConfig jens_env).

(** A host on which the configuration directory cannot be made. *)
Definition locked_config : Host :=
  {| homedir := "/home/jens";
     no_mkdir := {[ Config.CONFIG_DIR laptop ]};
     unwritable := ∅;
     unreadable := ∅ |}.

(** A function under measurement that takes 250 ms. *)
Definition slow_answer : M (World unit) Z :=
  fun w => (Ok 42,
            {| sys := {| files := files (sys w); clock := clock (sys w) + 250;
                         perf_clock := perf_clock (sys w) + 250; logs := logs (sys w);
                         logger_level := logger_level (sys w);
                         console := console (sys w); env := env (sys w) |};
               timers := timers w |}).

(** A shell file that sets the path and an old token. *)
Definition zshenv : string := "/home/jens/.zshenv".

Definition old_zshenv : string :=
  "export PATH=/usr/local/bin:$PATH" +:+ newline
  +:+ "export GITHUB_PERSONAL_TOKEN=" +:+ String dquote "ghp_old" +:+ String dquote ""
  +:+ newline.

Definition with_zshenv (text : string) : Sys unit :=
  set_files (insert zshenv {| mtimeMs := 1600000000000; content := text |}) (boot tt).

(** A terminal without colours. *)
Definition plain (color text : string) : string := text.

(** The GitHub API answering every request with [reviews], and refusing
    every request. *)
Definition github_api (url : string) (headers : list (string * string))
  : M (Sys unit) (GitHub.Response unit) :=
  ret {| GitHub.ok := true; GitHub.status := 200; GitHub.statusText := "OK";
         GitHub.json := ret reviews |}.

Definition github_down (url : string) (headers : list (string * string))
  : M (Sys unit) (GitHub.Response unit) :=
  ret {| GitHub.ok := false; GitHub.status := 503;
         GitHub.statusText := "Service Unavailable"; GitHub.json := ret VNull |}.

(** A search answer whose count is an object with an own property
    [toString], and one whose item has such an object as its number. *)
Definition odd_count : Value :=
  VObj [("total_count", VObj [("toString", VNum 0)]); ("items", VArr [])].

Definition odd_item : Value :=
  VObj [("total_count", VNum 1);
        ("items",
         VArr [VObj [("title", VStr "Fix the cache");
                     ("number", VObj [("toString", VNum 0)]);
                     ("repository_url",
                      VStr "https://api.github.com/repos/jens/terminal-brief")]])].

(** The GitHub API answering every request with [data]. *)
Definition github_answering (data : Value) (url : string) (headers : list (string * string))
  : M (Sys unit) (GitHub.Response unit) :=
  ret {| GitHub.ok := true; GitHub.status := 200; GitHub.statusText := "OK";
         GitHub.json := ret data |}.

Definition jens_fields : GitHub.Fields :=
  {| GitHub.this_username := VStr "jens"; GitHub.this_token := Some "ghp_abc" |}.

Definition no_fields : GitHub.Fields :=
  {| GitHub.this_username := VUndefined; GitHub.this_token := None |}.

(** The default configuration with the three lists of the GitHub module
    switched off. *)
Definition no_lists : Types.WelcomeConfig :=
  Types.with_github
    {| Types.personalToken := Some "ghp_abc"; Types.username := Some "jens";
       Types.showAssignedPRs := false; Types.showCreatedPRs := false;
       Types.showMentions := false; Types.maxPRs := 5 |}
    (Types.defaultConfig jens_env).

(** [ToNumber(s) > n] for the strings of digits. *)
Definition digits_gt (s : string) (n : Z) : bool :=
  match NilZero.int_of_string s with
  | Some i => n <? Z.of_int i
  | None => false
  end.

End Scenario.

(* ===================================================================== *)
(** * Proof automation *)
(* ===================================================================== *)

(** Runs the monadic plumbing of [loadConfig] as far as the state allows. *)
Ltac run_loadConfig :=
  cbv beta iota zeta delta
    [Config.loadConfig try_catch bind ret throw fs_mkdir fs_readFile
     Cache.JSON_parse_or_throw Config.member logger_setLevel logger_debug
     logger_info logger_error modify].

(** Closes a branch of [loadConfig] that falls back to the defaults, given
    that [saveConfig] returns. *)
Ltac fall_back saveConfig_returns :=
  match goal with
  | |- context [Config.saveConfig ?h ?j ?c ?s0] =>
      let s' := fresh "s" in
      destruct (saveConfig_returns c s0) as [s' ->]; run_loadConfig; by eexists
  end.

(* ===================================================================== *)
(** * Properties of the cache *)
(* ===================================================================== *)

#[local] Set Default Proof Using "Type".

Module CacheProps.
Import Js Cache.

Section CacheProps.
Context {Env : Type}.
Variable host : Host.
Variable JSON_stringify : Value -> option string.
Variable JSON_parse : string -> option Value.

#[local] Abbreviation getCache := (getCache (Env := Env) host JSON_parse).
#[local] Abbreviation saveCache := (saveCache (Env := Env) host JSON_stringify).
#[local] Abbreviation apiRequest := (apiRequest (Env := Env) host JSON_stringify JSON_parse).
#[local] Abbreviation cacheFile := (cacheFile host).
#[local] Abbreviation stored_value := (stored_value (Env := Env) host JSON_parse).

Lemma elapse_files (d : Z) (s : Sys Env) : files (elapse d s) = files s.
Proof. reflexivity. Qed.

Lemma elapse_clock (d : Z) (s : Sys Env) : clock (elapse d s) = clock s + d.
Proof. reflexivity. Qed.

(** [getCache] never throws and changes nothing; what it returns is the
    stored value of the specification. *)
Lemma getCache_stored (s : Sys Env) (key : string) (maxAge : Z) :
  getCache key maxAge s = (Ok (stored_value s key maxAge), s).
Proof.
  unfold Cache.getCache, Cache.stored_value, bind, try_catch, fs_stat, Date_now, gets.
  destruct (files s !! cacheFile key) as [entry|] eqn:Hfile; [|reflexivity].
  destruct (Z.ltb_spec (clock s - mtimeMs entry) (maxAge * 1000)) as [Hlive|Hstale].
  - unfold fs_readFile. rewrite Hfile.
    destruct (decide (cacheFile key ∈ unreadable host)) as [Hno|Hyes].
    + rewrite bool_decide_eq_false_2 by (intros [_ Hread]; exact (Hread Hno)). reflexivity.
    + rewrite bool_decide_eq_true_2 by (split; assumption).
      unfold JSON_parse_or_throw.
      destruct (JSON_parse (content entry)); reflexivity.
  - rewrite bool_decide_eq_false_2 by lia. reflexivity.
Qed.

Lemma stored_value_live (s : Sys Env) key maxAge entry v :
  files s !! cacheFile key = Some entry ->
  clock s - mtimeMs entry < maxAge * 1000 ->
  cacheFile key ∉ unreadable host ->
  JSON_parse (content entry) = Some v ->
  stored_value s key maxAge = v.
Proof.
  intros Hfile Hlive Hread Hparse. unfold Cache.stored_value.
  rewrite Hfile, bool_decide_eq_true_2, Hparse by (split; assumption). reflexivity.
Qed.

Lemma stored_value_stale (s : Sys Env) key maxAge entry :
  files s !! cacheFile key = Some entry ->
  maxAge * 1000 <= clock s - mtimeMs entry ->
  stored_value s key maxAge = VNull.
Proof.
  intros Hfile Hstale. unfold Cache.stored_value.
  rewrite Hfile, bool_decide_eq_false_2 by lia. reflexivity.
Qed.

Lemma stored_value_absent (s : Sys Env) key maxAge :
  files s !! cacheFile key = None -> stored_value s key maxAge = VNull.
Proof. intros Hfile. unfold Cache.stored_value. rewrite Hfile. reflexivity. Qed.

Lemma stored_value_broken (s : Sys Env) key maxAge entry :
  files s !! cacheFile key = Some entry ->
  cacheFile key ∈ unreadable host \/ JSON_parse (content entry) = None ->
  stored_value s key maxAge = VNull.
Proof.
  intros Hfile Hbroken. unfold Cache.stored_value. rewrite Hfile.
  case_bool_decide as Hok; [|reflexivity].
  destruct Hbroken as [Hno|Hbad]; [destruct Hok as [_ Hread]; destruct (Hread Hno)|].
  rewrite Hbad. reflexivity.
Qed.

(** A truthy stored value comes from a live, readable, well-formed entry. *)
Lemma stored_value_truthy (s : Sys Env) key maxAge :
  truthy (stored_value s key maxAge) = true ->
  exists entry,
    files s !! cacheFile key = Some entry
    /\ (cacheFile key ∉ unreadable host)
    /\ JSON_parse (content entry) = Some (stored_value s key maxAge).
Proof.
  unfold Cache.stored_value.
  destruct (files s !! cacheFile key) as [entry|]; [|discriminate].
  case_bool_decide as Hok; [|discriminate].
  destruct (JSON_parse (content entry)) as [v|] eqn:Hparse; [|discriminate].
  intros _. exists entry. split; [reflexivity|]. split; [exact (proj2 Hok)|exact Hparse].
Qed.

(** [ensureCacheDir] returns whether or not the directory could be made. *)
Lemma ensureCacheDir_returns (s : Sys Env) :
  exists s', ensureCacheDir host s = (Ok tt, s')
             /\ files s' = files s /\ clock s' = clock s /\ env s' = env s.
Proof.
  unfold ensureCacheDir, try_catch, fs_mkdir.
  destruct (decide (CACHE_DIR host ∈ no_mkdir host));
    eexists; (split; [reflexivity|auto]).
Qed.

(** [saveCache] returns in every state. *)
Lemma saveCache_returns (s : Sys Env) key v :
  exists s', saveCache key v s = (Ok tt, s') /\ clock s' = clock s /\ env s' = env s.
Proof.
  unfold Cache.saveCache, try_catch, bind.
  destruct (ensureCacheDir_returns s) as (s0 & -> & _ & Hclock & Henv).
  unfold fs_writeFile.
  destruct (JSON_stringify v) as [text|]; [|eexists; split; [reflexivity|eauto]].
  destruct (decide (cacheFile key ∈ unwritable host));
    eexists; (split; [reflexivity|eauto]).
Qed.

(** When the value prints and the host accepts the write, the entry holds the
    printed value and the time of the write. *)
Lemma saveCache_written (s : Sys Env) key v text :
  JSON_stringify v = Some text ->
  cacheFile key ∉ unwritable host ->
  exists s', saveCache key v s = (Ok tt, s')
             /\ files s' = <[cacheFile key := {| mtimeMs := clock s; content := text |}]> (files s)
             /\ clock s' = clock s.
Proof.
  intros Hprint Hwrite. unfold Cache.saveCache, try_catch, bind.
  destruct (ensureCacheDir_returns s) as (s0 & -> & Hfiles & Hclock & _).
  unfold fs_writeFile. rewrite Hprint.
  destruct (decide (cacheFile key ∈ unwritable host)) as [Hno|_]; [destruct (Hwrite Hno)|].
  eexists. split; [reflexivity|]. cbn. rewrite Hfiles, Hclock. auto.
Qed.

(** C4. [getCache] returns in every state, without an error and without an
    effect. It returns the stored value when the entry is present, its age
    [now - mtime] is below [maxAge * 1000], it can be read and it parses; it
    returns null when the entry is absent, when its age is [maxAge * 1000] or
    more (so at equality too), and when it cannot be read or is malformed. *)
Theorem getCache_contract (s : Sys Env) (key : string) (maxAge : Z) :
  (exists v, getCache key maxAge s = (Ok v, s))
  /\ (forall entry v,
        files s !! cacheFile key = Some entry ->
        clock s - mtimeMs entry < maxAge * 1000 ->
        cacheFile key ∉ unreadable host ->
        JSON_parse (content entry) = Some v ->
        getCache key maxAge s = (Ok v, s))
  /\ (forall entry,
        files s !! cacheFile key = Some entry ->
        maxAge * 1000 <= clock s - mtimeMs entry ->
        getCache key maxAge s = (Ok VNull, s))
  /\ (files s !! cacheFile key = None -> getCache key maxAge s = (Ok VNull, s))
  /\ (forall entry,
        files s !! cacheFile key = Some entry ->
        cacheFile key ∈ unreadable host \/ JSON_parse (content entry) = None ->
        getCache key maxAge s = (Ok VNull, s)).
Proof.
  rewrite getCache_stored. repeat split.
  - eauto.
  - intros entry v Hfile Hlive Hread Hparse.
    by rewrite (stored_value_live s key maxAge entry v).
  - intros entry Hfile Hstale. by rewrite (stored_value_stale s key maxAge entry).
  - intros Hfile. by rewrite stored_value_absent.
  - intros entry Hfile Hbroken. by rewrite (stored_value_broken s key maxAge entry).
Qed.

(** What [saveCache] leaves: the files are as they were unless the value
    prints and the host accepts the write. *)
Lemma saveCache_files (s : Sys Env) key v :
  exists s', saveCache key v s = (Ok tt, s')
    /\ clock s' = clock s /\ env s' = env s
    /\ files s'
       = match JSON_stringify v with
         | Some text =>
             if decide (cacheFile key ∈ unwritable host) then files s
             else <[cacheFile key := {| mtimeMs := clock s; content := text |}]> (files s)
         | None => files s
         end.
Proof.
  unfold Cache.saveCache, try_catch, bind.
  destruct (ensureCacheDir_returns s) as (s0 & -> & Hfiles & Hclock & Henv).
  unfold fs_writeFile.
  destruct (JSON_stringify v) as [text|]; [|eexists; split; [reflexivity|auto]].
  destruct (decide (cacheFile key ∈ unwritable host));
    (eexists; split; [reflexivity|cbn]); rewrite ?Hfiles, ?Hclock; auto.
Qed.


(** C5. When [getCache] reports the key absent and the producer throws,
    [apiRequest] throws the producer's error, and the state it leaves is the
    one the producer left plus one logged line: no file was written. *)
Theorem apiRequest_producer_failure (s s' : Sys Env) (key : string) (maxAge : Z)
    (requestFn : M (Sys Env) Value) (error : Error) :
  getCache key maxAge s = (Ok VNull, s) ->
  requestFn (log_entry DEBUG ("Cache miss for " +:+ key +:+ ", making API request") s)
    = (Throw error, s') ->
  apiRequest key maxAge requestFn s
    = (Throw error,
       log_entry ERROR ("API request failed for " +:+ key +:+ ": " +:+ error) s')
  /\ files (snd (apiRequest key maxAge requestFn s)) = files s'.
Proof.
  intros Hmiss Hfail.
  assert (apiRequest key maxAge requestFn s
          = (Throw error,
             log_entry ERROR ("API request failed for " +:+ key +:+ ": " +:+ error) s'))
    as Hrun.
  { unfold Cache.apiRequest, bind at 1. rewrite Hmiss. cbn [truthy].
    unfold bind at 1, logger_debug, modify. unfold try_catch, bind at 1.
    rewrite Hfail. reflexivity. }
  rewrite Hrun. split; reflexivity.
Qed.

(** C1, amended. If the first call returns a truthy value that prints to a
    text parsing back to it, the host accepts the write and the read of the
    key's file, and the entry the first call leaves is still younger than
    [maxAge * 1000] when the second call reads the clock, [d] milliseconds
    later, then the second call returns that value and leaves the state as it
    found it but for one debug line, whatever its producer [q] would do: the
    producer is not invoked. The first call ran its producer [p] not at all
    (a hit) or exactly once (a miss). *)
Theorem apiRequest_twice (s s1 : Sys Env) (key : string) (maxAge d : Z)
    (p q : M (Sys Env) Value) (v : Value) (text : string) :
  apiRequest key maxAge p s = (Ok v, s1) ->
  truthy v = true ->
  JSON_stringify v = Some text ->
  JSON_parse text = Some v ->
  cacheFile key ∉ unwritable host ->
  cacheFile key ∉ unreadable host ->
  (forall entry, files s1 !! cacheFile key = Some entry ->
                 clock s1 + d - mtimeMs entry < maxAge * 1000) ->
  apiRequest key maxAge q (elapse d s1)
    = (Ok v, log_entry DEBUG ("Using cached data for " +:+ key) (elapse d s1))
  /\ (s1 = log_entry DEBUG ("Using cached data for " +:+ key) s
      \/ exists s2,
           p (log_entry DEBUG ("Cache miss for " +:+ key +:+ ", making API request") s)
             = (Ok v, s2)
           /\ saveCache key v s2 = (Ok tt, s1)).
Proof.
  intros Hfirst Htruthy Hprint Hparse Hwrite Hread Hlive.
  assert (stored_value (elapse d s1) key maxAge = v
          /\ (s1 = log_entry DEBUG ("Using cached data for " +:+ key) s
              \/ exists s2,
                   p (log_entry DEBUG ("Cache miss for " +:+ key +:+ ", making API request") s)
                     = (Ok v, s2)
                   /\ saveCache key v s2 = (Ok tt, s1))) as [Hstored Hcount].
  { unfold Cache.apiRequest, bind at 1 in Hfirst. rewrite getCache_stored in Hfirst.
    destruct (truthy (stored_value s key maxAge)) eqn:Hhit.
    - (* the first call was a hit *)
      injection Hfirst as Hv Hs1.
      destruct (stored_value_truthy s key maxAge Hhit) as (entry & Hfile & _ & Hentry).
      assert (files s1 !! cacheFile key = Some entry) as Hfile1 by (by subst s1).
      split; [|left; by subst s1].
      apply stored_value_live with (entry := entry).
      + by rewrite elapse_files.
      + rewrite elapse_clock. by apply Hlive.
      + exact Hread.
      + by rewrite Hentry, Hv.
    - (* the first call was a miss *)
      unfold bind at 1, logger_debug, modify, try_catch, bind at 1 in Hfirst.
      destruct (p _) as [[response|error] s2] eqn:Hp; [|discriminate].
      unfold bind in Hfirst.
      destruct (saveCache_returns s2 key response) as (s3 & Hsave & _).
      rewrite Hsave in Hfirst. injection Hfirst as Hv Hs1. subst response s3.
      split; [|right; eauto].
      destruct (saveCache_written s2 key v text Hprint Hwrite) as (s1' & Hsave' & Hfiles & Hclock).
      rewrite Hsave in Hsave'. injection Hsave' as <-.
      apply stored_value_live with (entry := {| mtimeMs := clock s2; content := text |}).
      + rewrite elapse_files, Hfiles. apply lookup_insert_eq.
      + rewrite elapse_clock.
        apply (Hlive {| mtimeMs := clock s2; content := text |}).
        rewrite Hfiles. apply lookup_insert_eq.
      + exact Hread.
      + exact Hparse. }
  split; [|exact Hcount].
  unfold Cache.apiRequest, bind at 1. rewrite getCache_stored, Hstored, Htruthy.
  reflexivity.
Qed.

End CacheProps.

Import Scenario.

Lemma getCache_contract_witness :
  Cache.getCache laptop Js.parse review_key 300 (cached tt 299999 reviews_text)
    = (Ok reviews, cached tt 299999 reviews_text)
  /\ Cache.getCache laptop Js.parse review_key 300 (cached tt 300000 reviews_text)
      = (Ok VNull, cached tt 300000 reviews_text)
  /\ Cache.getCache laptop Js.parse review_key 300 (cached tt 0 "{ not json")
      = (Ok VNull, cached tt 0 "{ not json").
Proof.
  split; [|split].
  - apply (proj1 (proj2 (getCache_contract laptop Js.parse
                           (cached tt 299999 reviews_text) review_key 300))
             {| mtimeMs := 1700000000000 - 299999; content := reviews_text |} reviews).
    + vm_compute. reflexivity.
    + vm_compute. reflexivity.
    + intros Hin. vm_compute in Hin. discriminate Hin.
    + vm_compute. reflexivity.
  - apply (proj1 (proj2 (proj2 (getCache_contract laptop Js.parse
                                  (cached tt 300000 reviews_text) review_key 300)))
             {| mtimeMs := 1700000000000 - 300000; content := reviews_text |}).
    + vm_compute. reflexivity.
    + vm_compute. discriminate.
  - apply (proj2 (proj2 (proj2 (proj2 (getCache_contract laptop Js.parse
                                         (cached tt 0 "{ not json") review_key 300))))
             {| mtimeMs := 1700000000000 - 0; content := "{ not json" |}).
    + vm_compute. reflexivity.
    + right. vm_compute. reflexivity.
Defined.



Lemma apiRequest_producer_failure_witness :
  Cache.apiRequest laptop stringify Js.parse review_key 300 fetch_unavailable (boot 0%nat)
    = (Throw "Error: GitHub API error: 503 Service Unavailable",
       log_entry ERROR
         ("API request failed for " +:+ review_key
          +:+ ": Error: GitHub API error: 503 Service Unavailable")
         (set_env 1%nat
            (log_entry DEBUG ("Cache miss for " +:+ review_key +:+ ", making API request")
               (boot 0%nat))))
  /\ files (snd (Cache.apiRequest laptop stringify Js.parse review_key 300
                   fetch_unavailable (boot 0%nat)))
     = files (set_env 1%nat
                (log_entry DEBUG ("Cache miss for " +:+ review_key +:+ ", making API request")
                   (boot 0%nat))).
Proof.
  apply (apiRequest_producer_failure laptop stringify Js.parse (boot 0%nat)).
  - vm_compute. reflexivity.
  - reflexivity.
Defined.

(** C1 as stated fails for a producer that fails: nothing is cached by the
    first call, so the second call invokes the producer again. The counter in
    [env] counts the invocations. *)
Lemma apiRequest_twice_failing_producer :
  let first :=
    Cache.apiRequest laptop stringify Js.parse review_key 300 fetch_unavailable (boot 0%nat) in
  let second :=
    Cache.apiRequest laptop stringify Js.parse review_key 300 fetch_unavailable (snd first) in
  fst first = Throw "Error: GitHub API error: 503 Service Unavailable"
  /\ fst second = Throw "Error: GitHub API error: 503 Service Unavailable"
  /\ env (snd second) = 2%nat
  /\ files (snd second) = ∅.
Proof. vm_compute. repeat split; reflexivity. Qed.

(** A value that is cached and read back but is falsy counts as a miss: the
    check of the cached value is [if (cachedData)]. *)
Example apiRequest_twice_falsy_value :
  let first :=
    Cache.apiRequest laptop stringify Js.parse review_key 300 fetch_zero (boot 0%nat) in
  let second :=
    Cache.apiRequest laptop stringify Js.parse review_key 300 fetch_zero (snd first) in
  fst first = Ok (VNum 0)
  /\ fst (Cache.getCache laptop Js.parse review_key 300 (snd first)) = Ok (VNum 0)
  /\ fst second = Ok (VNum 0)
  /\ env (snd second) = 2%nat.
Proof. vm_compute. repeat split; reflexivity. Qed.

Lemma apiRequest_twice_witness :
  let first :=
    Cache.apiRequest laptop stringify Js.parse review_key 300 fetch_reviews (boot 0%nat) in
  Cache.apiRequest laptop stringify Js.parse review_key 300 fetch_unavailable
      (elapse 1000 (snd first))
    = (Ok reviews,
       log_entry DEBUG ("Using cached data for " +:+ review_key) (elapse 1000 (snd first)))
  /\ env (snd first) = 1%nat.
Proof.
  cbv zeta. split; [|vm_compute; reflexivity].
  apply (proj1 (apiRequest_twice laptop stringify Js.parse (boot 0%nat)
                  (snd (Cache.apiRequest laptop stringify Js.parse review_key 300
                          fetch_reviews (boot 0%nat)))
                  review_key 300 1000 fetch_reviews fetch_unavailable reviews reviews_text
                  ltac:(vm_compute; reflexivity)
                  ltac:(vm_compute; reflexivity)
                  ltac:(vm_compute; reflexivity)
                  ltac:(vm_compute; reflexivity)
                  ltac:(intros Hin; vm_compute in Hin; discriminate Hin)
                  ltac:(intros Hin; vm_compute in Hin; discriminate Hin)
                  ltac:(intros entry Hentry; vm_compute in Hentry;
                        injection Hentry as <-; vm_compute; reflexivity))).
Defined.

End CacheProps.

(* ===================================================================== *)
(** * Properties of the registry and the orchestrator *)
(* ===================================================================== *)

Module BaseProps.
Import Types Performance Base.

Section AssocFacts.
Context {A : Type}.

Lemma assoc_get_set_eq (k : string) (v : A) (l : list (string * A)) :
  assoc_get k (assoc_set k v l) = Some v.
Proof.
  induction l as [|[k' v'] rest IH]; cbn.
  - by rewrite String.eqb_refl.
  - destruct (String.eqb k k') eqn:Hk; cbn; rewrite ?String.eqb_refl, ?Hk; auto.
Qed.

Lemma assoc_get_set_ne (k k' : string) (v : A) (l : list (string * A)) :
  k <> k' -> assoc_get k' (assoc_set k v l) = assoc_get k' l.
Proof.
  intros Hne. induction l as [|[k0 v0] rest IH]; cbn.
  - destruct (String.eqb_spec k' k); [congruence|reflexivity].
  - destruct (String.eqb_spec k k0) as [->|Hk0]; cbn.
    + destruct (String.eqb_spec k' k0); [congruence|reflexivity].
    + destruct (String.eqb_spec k' k0); [reflexivity|exact IH].
Qed.

End AssocFacts.

Section RegistryProps.
Context {Env : Type}.
Implicit Types (module : WelcomeModule Env) (registered : list (WelcomeModule Env)).

Lemma register_get module (modules : list (string * WelcomeModule Env)) (n : string) :
  assoc_get n (register module modules)
  = if String.eqb n (name module) then Some module else assoc_get n modules.
Proof.
  unfold register. destruct (String.eqb_spec n (name module)) as [->|Hne].
  - apply assoc_get_set_eq.
  - apply assoc_get_set_ne. congruence.
Qed.

(** Looking a name up in a registry finds the module registered last under
    it. *)
Lemma registry_lookup registered (modules : list (string * WelcomeModule Env)) (n : string) :
  assoc_get n (fold_left (fun modules module => register module modules) registered modules)
  = match registered_as n registered with
    | Some module => Some module
    | None => assoc_get n modules
    end.
Proof.
  revert modules. induction registered as [|module rest IH]; intros modules; cbn.
  - reflexivity.
  - rewrite IH, register_get.
    destruct (registered_as n rest); [reflexivity|].
    by destruct (String.eqb n (name module)).
Qed.

Lemma registered_as_name registered (n : string) module :
  registered_as n registered = Some module -> name module = n /\ module ∈ registered.
Proof.
  induction registered as [|m rest IH]; cbn; [discriminate|].
  destruct (registered_as n rest) as [later|].
  - intros Heq. destruct (IH Heq) as [Hname Hin]. split; [exact Hname|by right].
  - destruct (String.eqb_spec n (name m)) as [->|]; [|discriminate].
    intros [= <-]. split; [reflexivity|by left].
Qed.

Lemma registered_as_None registered (n : string) :
  registered_as n registered = None <-> n ∉ name <$> registered.
Proof.
  induction registered as [|m rest IH]; cbn.
  - split; [intros _; apply not_elem_of_nil|reflexivity].
  - rewrite not_elem_of_cons. destruct (registered_as n rest) as [later|].
    + split; [discriminate|]. intros [_ Hrest]. by apply IH in Hrest.
    + destruct (String.eqb_spec n (name m)) as [->|Hne].
      * split; [discriminate|]. by intros [Hne _].
      * split; [|reflexivity]. intros _. split; [exact Hne|by apply IH].
Qed.

Lemma getEnabledModules_registry_of registered (config : WelcomeConfig) :
  getEnabledModules (registry_of registered) config
  = omap (fun n => registered_as n registered) (enabledModules config).
Proof.
  unfold getEnabledModules, filter_defined, registry_of.
  induction (enabledModules config) as [|n names IH]; cbn; [reflexivity|].
  rewrite IH, registry_lookup. cbn. by destruct (registered_as n registered).
Qed.

(** C6. On a registry on which the modules of [registered] were registered,
    [getEnabledModules] returns, for each configured name in the configured
    order, the module registered (last) under that name, and nothing for a
    name under which no module was registered: the names of the result are
    the configured names that are registered, in order. With modules A and B
    registered and the configured order B, X, A the result is B, A. *)
Theorem getEnabledModules_order registered (config : WelcomeConfig) :
  getEnabledModules (registry_of registered) config
    = omap (fun n => registered_as n registered) (enabledModules config)
  /\ name <$> getEnabledModules (registry_of registered) config
     = filter (fun n => n ∈ name <$> registered) (enabledModules config)
  /\ (forall module, module ∈ getEnabledModules (registry_of registered) config ->
                     module ∈ registered /\ name module ∈ enabledModules config)
  /\ (forall (a b : Methods Env) (rest : WelcomeConfig),
        getEnabledModules (registry_of [built_in "A" a; built_in "B" b])
                          (with_enabledModules ["B"; "X"; "A"] rest)
        = [built_in "B" b; built_in "A" a]).
Proof.
  split; [apply getEnabledModules_registry_of|].
  rewrite getEnabledModules_registry_of.
  split; [|split].
  - induction (enabledModules config) as [|n names IH]; [reflexivity|].
    cbn [omap list_omap]. rewrite filter_cons.
    destruct (registered_as n registered) as [module|] eqn:Hn.
    + destruct (registered_as_name _ _ _ Hn) as [Hname Hin].
      rewrite decide_True.
      * cbn. by rewrite IH, Hname.
      * rewrite <- Hname. by apply list_elem_of_fmap_2.
    + rewrite decide_False by (by apply registered_as_None). exact IH.
  - intros module Hin. apply list_elem_of_omap in Hin as (n & Hn & Hreg).
    destruct (registered_as_name _ _ _ Hreg) as [Hname Hmem].
    split; [exact Hmem|by rewrite Hname].
  - intros a b rest. reflexivity.
Qed.

End RegistryProps.

Section OrchestratorProps.
Context {Env : Type}.
Variables githubMethods weatherMethods linearStalledMethods systemMethods
          greetingMethods : Methods Env.
Implicit Types (module : WelcomeModule Env) (w : World Env) (config : WelcomeConfig).

#[local] Abbreviation githubModule := (githubModule (Env := Env) githubMethods).
#[local] Abbreviation weatherModule := (weatherModule (Env := Env) weatherMethods).
#[local] Abbreviation linearStalledModule :=
  (linearStalledModule (Env := Env) linearStalledMethods).
#[local] Abbreviation systemModule := (systemModule (Env := Env) systemMethods).
#[local] Abbreviation greetingModule := (greetingModule (Env := Env) greetingMethods).
#[local] Abbreviation moduleRegistry :=
  (moduleRegistry (Env := Env) githubMethods weatherMethods linearStalledMethods
                  systemMethods).
#[local] Abbreviation setupModules :=
  (setupModules (Env := Env) githubMethods weatherMethods linearStalledMethods
                systemMethods).
#[local] Abbreviation displayWelcome :=
  (displayWelcome (Env := Env) githubMethods weatherMethods linearStalledMethods
                  systemMethods).

Lemma moduleRegistry_lookup (n : string) :
  assoc_get n moduleRegistry
  = if String.eqb n "github" then Some githubModule
    else if String.eqb n "weather" then Some weatherModule
    else if String.eqb n "linearStalled" then Some linearStalledModule
    else if String.eqb n "system" then Some systemModule
    else None.
Proof. reflexivity. Qed.

Lemma enabled_built_in config module :
  module ∈ getEnabledModules moduleRegistry config ->
  module = githubModule \/ module = weatherModule
  \/ module = linearStalledModule \/ module = systemModule.
Proof.
  unfold getEnabledModules, filter_defined. rewrite list_elem_of_omap.
  intros (found & Hin & Hsome). apply list_elem_of_fmap in Hin as (n & -> & _).
  rewrite moduleRegistry_lookup in Hsome. cbn in Hsome.
  repeat match type of Hsome with
         | (if ?b then _ else _) = _ => destruct b
         end; inversion Hsome; auto.
Qed.

(** C10. Whatever the configuration, every module [getEnabledModules] yields
    from the singleton registry is one of the four registered ones, so none
    is named greeting and the greeting module is not among them, although
    the default list of enabled modules names it: for the default
    configuration the enabled modules are system, weather, github and
    linearStalled. *)
Theorem greeting_never_enabled config (penv : ProcessEnv) :
  Forall (fun module => module = githubModule \/ module = weatherModule
                        \/ module = linearStalledModule \/ module = systemModule)
         (getEnabledModules moduleRegistry config)
  /\ ("greeting" ∉ name <$> getEnabledModules moduleRegistry config)
  /\ (greetingModule ∉ getEnabledModules moduleRegistry config)
  /\ ("greeting" ∈ enabledModules (defaultConfig penv))
  /\ getEnabledModules moduleRegistry (defaultConfig penv)
     = [systemModule; weatherModule; githubModule; linearStalledModule].
Proof.
  assert (forall module, module ∈ getEnabledModules moduleRegistry config ->
                         name module <> "greeting") as Hname.
  { intros module Hin.
    destruct (enabled_built_in config module Hin) as [-> | [-> | [-> | ->]]]; discriminate. }
  split; [|split; [|split; [|split]]].
  - apply Forall_forall. apply enabled_built_in.
  - intros Hin. apply list_elem_of_fmap in Hin as (module & Heq & Hin).
    by apply (Hname module Hin).
  - intros Hin. by apply (Hname _ Hin).
  - cbn. apply list_elem_of_further, list_elem_of_here.
  - reflexivity.
Qed.

(** ** The loops *)

Lemma timer_key_not_total (n : string) :
  n <> "welcome" -> "display_" +:+ n <> "display_welcome".
Proof. intros Hne Heq. apply Hne. cbn in Heq. by injection Heq. Qed.

(** One turn of the setup loop returns, and leaves in [sys] what the module's
    [setup] followed by the orchestrator's log line leave. *)
Lemma setup_one_run config module w :
  exists tm,
    setup_one config module w
    = (Ok tt, {| sys := setup_step config (sys w) module; timers := tm |}).
Proof.
  unfold setup_one, setup_step, try_catch, bind, startTimer, endTimer,
    performance_now, gets, modify, lift, set_timers. cbn.
  destruct (setup module config (sys w)) as [[[]|error] s']; cbn.
  - rewrite lookup_insert_eq. cbn. eexists. reflexivity.
  - eexists. reflexivity.
Qed.

Lemma setup_each_run config (enabled : list (WelcomeModule Env)) w :
  exists tm,
    setup_each config enabled w
    = (Ok tt, {| sys := setup_pass config enabled (sys w); timers := tm |}).
Proof.
  revert w. induction enabled as [|module rest IH]; intros w; cbn.
  - exists (timers w). by destruct w.
  - unfold bind. destruct (setup_one_run config module w) as [tm ->].
    destruct (IH {| sys := setup_step config (sys w) module; timers := tm |}) as [tm' ->].
    by exists tm'.
Qed.

(** One turn of the display loop returns the output extended by the module's
    fragment, and does not touch the timer of the whole pass unless the
    module is named welcome. *)
Lemma display_one_run config module (output : list string) w :
  exists tm,
    display_one config module output w
    = (Ok (output ++ fragment_of (fst (display_step config (sys w) module))),
       {| sys := snd (display_step config (sys w) module); timers := tm |})
    /\ (name module <> "welcome" ->
        tm !! "display_welcome" = timers w !! "display_welcome").
Proof.
  unfold display_one, display_step, try_catch, bind, startTimer, endTimer,
    performance_now, gets, modify, lift, set_timers. cbn.
  destruct (display module config (sys w)) as [[moduleOutput|error] s']; cbn.
  - rewrite lookup_insert_eq. cbn.
    exists (delete ("display_" +:+ name module)
              (<["display_" +:+ name module := perf_clock (sys w)]> (timers w))).
    split.
    + destruct (100 <? perf_clock s' - perf_clock (sys w)); cbn; unfold ret;
        destruct (String.eqb moduleOutput ""); cbn; by rewrite ?app_nil_r.
    + intros Hne.
      by rewrite lookup_delete_ne, lookup_insert_ne by (by apply timer_key_not_total).
  - exists (<["display_" +:+ name module := perf_clock (sys w)]> (timers w)).
    unfold ret. rewrite app_nil_r. split; [reflexivity|].
    intros Hne. by rewrite lookup_insert_ne by (by apply timer_key_not_total).
Qed.

Lemma display_each_run config (enabled : list (WelcomeModule Env))
    (output : list string) w :
  Forall (fun module => name module <> "welcome") enabled ->
  exists tm,
    display_each config enabled output w
    = (Ok (output ++ fst (display_pass config enabled (sys w))),
       {| sys := snd (display_pass config enabled (sys w)); timers := tm |})
    /\ tm !! "display_welcome" = timers w !! "display_welcome".
Proof.
  revert output w. induction enabled as [|module rest IH]; intros output w Hnames; cbn.
  - exists (timers w). rewrite app_nil_r. by destruct w.
  - apply Forall_cons in Hnames as [Hname Hrest]. unfold bind.
    destruct (display_one_run config module output w) as (tm & -> & Htm).
    destruct (IH (output ++ fragment_of (fst (display_step config (sys w) module)))
                 {| sys := snd (display_step config (sys w) module); timers := tm |}
                 Hrest) as (tm' & -> & Htm').
    exists tm'. cbn [display_pass timers] in *.
    destruct (display_step config (sys w) module) as [result s']. cbn [fst snd sys] in *.
    destruct (display_pass config rest s') as [fragments s'']. cbn [fst snd].
    split; [by rewrite <- (app_assoc output)|]. rewrite Htm'. by apply Htm.
Qed.

Lemma enabled_not_welcome config :
  Forall (fun module => name module <> "welcome")
         (getEnabledModules moduleRegistry config).
Proof.
  apply Forall_forall. intros module Hin.
  destruct (enabled_built_in config module Hin) as [-> | [-> | [-> | ->]]]; discriminate.
Qed.

(** [setupModules] in full. *)
Lemma setupModules_run config w :
  let enabled := getEnabledModules moduleRegistry config in
  exists tm,
    setupModules config w
    = (Ok tt,
       {| sys := setup_pass config enabled
                   (log_entry DEBUG
                      ("Setting up " +:+ Js.show_Z (Z.of_nat (length enabled)) +:+ " modules")
                      (sys w));
          timers := tm |}).
Proof.
  cbv zeta. unfold Base.setupModules.
  set (enabled := getEnabledModules moduleRegistry config). clearbody enabled.
  unfold bind, lift, logger_debug, modify. cbn [fst snd sys].
  apply setup_each_run.
Qed.

(** [displayWelcome] in full. *)
Lemma displayWelcome_run config w :
  let enabled := getEnabledModules moduleRegistry config in
  let pass := display_pass config enabled (sys w) in
  exists tm,
    displayWelcome config w
    = (Ok (array_join Js.newline ([""] ++ fst pass ++ [""])),
       {| sys := log_entry DEBUG
                   ("Total welcome display time: "
                    +:+ show_seconds (perf_clock (snd pass) - perf_clock (sys w)) +:+ "s")
                   (snd pass);
          timers := tm |}).
Proof.
  cbv zeta. unfold Base.displayWelcome.
  pose proof (enabled_not_welcome config) as Hnames.
  set (enabled := getEnabledModules moduleRegistry config) in *. clearbody enabled.
  unfold bind at 1.
  unfold startTimer, bind at 1, performance_now, gets, modify, set_timers.
  cbn -[array_join]. unfold bind at 1.
  destruct (display_each_run config enabled [""]
              {| sys := sys w; timers := <["display_welcome" := perf_clock (sys w)]> (timers w) |}
              Hnames) as (tm & -> & Htm).
  cbn -[array_join] in Htm. rewrite lookup_insert_eq in Htm.
  unfold endTimer, bind, gets, performance_now, modify, lift, logger_debug, set_timers.
  cbn -[array_join]. rewrite Htm. cbn -[array_join]. eexists. reflexivity.
Qed.

(** C2. Whatever the enabled modules' methods do, [setupModules] returns and
    has run every enabled module's [setup], in order, each on the state its
    predecessor left ([setup_pass] folds over all of them whether they
    returned or threw); [displayWelcome] returns a text and has run every
    enabled module's [display] likewise; a [display] that throws contributes
    no fragment; and the display pass that follows a setup pass runs over the
    same enabled modules, whatever the setups did. *)
Theorem failure_isolation config w :
  let enabled := getEnabledModules moduleRegistry config in
  let w' := snd (setupModules config w) in
  fst (setupModules config w) = Ok tt
  /\ sys w'
     = setup_pass config enabled
         (log_entry DEBUG
            ("Setting up " +:+ Js.show_Z (Z.of_nat (length enabled)) +:+ " modules") (sys w))
  /\ (exists text, fst (displayWelcome config w) = Ok text)
  /\ sys (snd (displayWelcome config w))
     = log_entry DEBUG
         ("Total welcome display time: "
          +:+ show_seconds (perf_clock (snd (display_pass config enabled (sys w)))
                            - perf_clock (sys w)) +:+ "s")
         (snd (display_pass config enabled (sys w)))
  /\ (forall module s error s',
        display module config s = (Throw error, s') ->
        fragment_of (fst (display_step config s module)) = [])
  /\ fst (displayWelcome config w')
     = Ok (array_join Js.newline ([""] ++ fst (display_pass config enabled (sys w')) ++ [""])).
Proof.
  cbv zeta.
  destruct (setupModules_run config w) as [tm Hsetup].
  destruct (displayWelcome_run config w) as [tm' Hdisplay].
  destruct (displayWelcome_run config (snd (setupModules config w))) as [tm'' Hafter].
  rewrite Hdisplay, Hafter. rewrite Hsetup. cbn [fst snd sys].
  split; [reflexivity|]. split; [reflexivity|]. split; [by eexists|].
  split; [reflexivity|]. split; [|reflexivity].
  intros module s error s' Hthrow. unfold display_step. by rewrite Hthrow.
Qed.

Lemma display_pass_nonempty config (enabled : list (WelcomeModule Env)) (s : Sys Env) :
  Forall (fun fragment => fragment <> "") (fst (display_pass config enabled s)).
Proof.
  revert s. induction enabled as [|module rest IH]; intros s.
  - constructor.
  - cbn [display_pass].
    destruct (display_step config s module) as [[text|error] s1].
    + specialize (IH s1). destruct (display_pass config rest s1) as [fragments s2].
      cbn [fst fragment_of] in *.
      destruct (String.eqb_spec text ""); [exact IH|by constructor].
    + specialize (IH s1). by destruct (display_pass config rest s1).
Qed.

(** C7. [displayWelcome] returns the non-empty fragments of the enabled
    modules' [display] calls, in order, between two empty strings, joined by
    single newlines. With system as the only enabled module and a [display]
    that returns a text, that is a newline, the text and a newline; the text
    is a fragment when it is not empty, as the system module's always is (it
    starts with its heading). An empty text is no fragment, and the result is
    then the single newline of the framing. *)
Theorem displayWelcome_output config w :
  let enabled := getEnabledModules moduleRegistry config in
  let fragments := fst (display_pass config enabled (sys w)) in
  fst (displayWelcome config w) = Ok (array_join Js.newline ([""] ++ fragments ++ [""]))
  /\ Forall (fun fragment => fragment <> "") fragments
  /\ (forall text s',
        enabledModules config = ["system"] ->
        on_display systemMethods config (sys w) = (Ok text, s') ->
        text <> "" ->
        fst (displayWelcome config w) = Ok (Js.newline +:+ text +:+ Js.newline))
  /\ (forall s',
        enabledModules config = ["system"] ->
        on_display systemMethods config (sys w) = (Ok "", s') ->
        fst (displayWelcome config w) = Ok Js.newline).
Proof.
  cbv zeta. destruct (displayWelcome_run config w) as [tm Hdisplay].
  rewrite Hdisplay. cbn [fst].
  assert (forall names, enabledModules config = names ->
                        getEnabledModules moduleRegistry config
                        = filter_defined (map (fun n => assoc_get n moduleRegistry) names))
    as Henabled by (by intros names <-).
  split; [reflexivity|]. split; [|split].
  - apply display_pass_nonempty.
  - intros text s' Hsystem Htext Hne.
    rewrite (Henabled _ Hsystem). cbn [map filter_defined omap list_omap].
    rewrite moduleRegistry_lookup. cbn [String.eqb Ascii.eqb Bool.eqb id].
    cbn [display_pass]. unfold display_step. cbn [display built_in Base.systemModule].
    rewrite Htext. destruct (100 <? _); cbn [fst fragment_of];
      (destruct (String.eqb_spec text ""); [contradiction|reflexivity]).
  - intros s' Hsystem Htext.
    rewrite (Henabled _ Hsystem). cbn [map filter_defined omap list_omap].
    rewrite moduleRegistry_lookup. cbn [String.eqb Ascii.eqb Bool.eqb id].
    cbn [display_pass]. unfold display_step. cbn [display built_in Base.systemModule].
    rewrite Htext. by destruct (100 <? _).
Qed.

End OrchestratorProps.

Import Scenario.

Lemma getEnabledModules_order_witness :
  built_in "system" (returning system_report)
    ∈ [built_in "github" (throwing "Error: GitHub API error: 401 Unauthorized");
       built_in "system" (returning system_report)]
  /\ name (built_in "system" (returning system_report)) ∈ enabledModules only_system.
Proof.
  apply (proj1 (proj2 (proj2 (getEnabledModules_order
           [built_in "github" (throwing "Error: GitHub API error: 401 Unauthorized");
            built_in "system" (returning system_report)]
           only_system)))).
  vm_compute. apply list_elem_of_here.
Defined.

(** The scenario of the specification: the module that throws during
    [display] adds nothing, and the call returns. *)
Lemma failure_isolation_witness :
  fragment_of
    (fst (display_step system_and_github (boot tt)
            (Base.githubModule (throwing "Error: GitHub API error: 401 Unauthorized"))))
  = []
  /\ fst (Base.displayWelcome
            (throwing "Error: GitHub API error: 401 Unauthorized")
            (returning "") (returning "") (returning system_report)
            system_and_github (start tt))
     = Ok (Js.newline +:+ system_report +:+ Js.newline).
Proof.
  split; [|vm_compute; reflexivity].
  apply (proj1 (proj2 (proj2 (proj2 (proj2
           (failure_isolation
              (throwing "Error: GitHub API error: 401 Unauthorized")
              (returning "") (returning "") (returning system_report)
              system_and_github (start tt))))))
           (Base.githubModule (throwing "Error: GitHub API error: 401 Unauthorized"))
           (boot tt) "Error: GitHub API error: 401 Unauthorized" (boot tt)).
  reflexivity.
Defined.

Lemma displayWelcome_output_witness :
  fst (Base.displayWelcome (returning "") (returning "") (returning "")
         (returning system_report) only_system (start tt))
  = Ok (Js.newline +:+ system_report +:+ Js.newline).
Proof.
  apply (proj1 (proj2 (proj2
           (displayWelcome_output (returning "") (returning "") (returning "")
              (returning system_report) only_system (start tt))))
           system_report (boot tt)).
  - reflexivity.
  - reflexivity.
  - discriminate.
Defined.

End BaseProps.

(* ===================================================================== *)
(** * Properties of the configuration loader *)
(* ===================================================================== *)

Module ConfigProps.
Import Js Types Config.

Section SpreadFacts.

Lemma assoc_get_app {A} (k : string) (l1 l2 : list (string * A)) :
  assoc_get k (l1 ++ l2)
  = match assoc_get k l1 with Some v => Some v | None => assoc_get k l2 end.
Proof.
  induction l1 as [|[k' v'] rest IH]; cbn; [reflexivity|].
  by destruct (String.eqb k k').
Qed.

Lemma assoc_get_elem_of {A} (k : string) (v : A) (l : list (string * A)) :
  assoc_get k l = Some v -> (k, v) ∈ l.
Proof.
  induction l as [|[k' v'] rest IH]; cbn; [discriminate|].
  destruct (String.eqb_spec k k') as [->|_].
  - intros [= ->]. apply list_elem_of_here.
  - intros Hget. apply list_elem_of_further. by apply IH.
Qed.

Lemma assoc_get_None_reverse {A} (k : string) (l : list (string * A)) :
  assoc_get k l = None -> assoc_get k (reverse l) = None.
Proof.
  induction l as [|[k' v'] rest IH]; [reflexivity|].
  rewrite reverse_cons, assoc_get_app. cbn [assoc_get].
  destruct (String.eqb k k'); [discriminate|]. intros Hrest. by rewrite IH.
Qed.

(** Setting the entries of [xs] one after the other: the last entry of a key
    wins, and a key [xs] does not have keeps its value. *)
Lemma assoc_get_fold_set {A} (k : string) (xs acc : list (string * A)) :
  assoc_get k (fold_left (fun acc kv => assoc_set (fst kv) (snd kv) acc) xs acc)
  = match assoc_get k (reverse xs) with
    | Some v => Some v
    | None => assoc_get k acc
    end.
Proof.
  revert acc. induction xs as [|[k' v'] rest IH]; intros acc; [reflexivity|].
  cbn [fold_left fst snd]. rewrite IH, reverse_cons, assoc_get_app. cbn [assoc_get].
  destruct (assoc_get k (reverse rest)); [reflexivity|].
  destruct (String.eqb_spec k k') as [->|Hne].
  - apply BaseProps.assoc_get_set_eq.
  - apply BaseProps.assoc_get_set_ne. congruence.
Qed.

End SpreadFacts.

Section ConfigProps.
Context {Env : Type}.
Variable host : Host.
Variable penv : ProcessEnv.
Variable JSON_stringify : Value -> option string.
Variable JSON_parse : string -> option Value.

#[local] Abbreviation loadConfig := (loadConfig (Env := Env) host penv JSON_stringify JSON_parse).
#[local] Abbreviation saveConfig := (saveConfig (Env := Env) host JSON_stringify).
#[local] Abbreviation persisted := (persisted (Env := Env) host JSON_parse).
#[local] Abbreviation expected_config := (expected_config (Env := Env) host penv JSON_parse).
#[local] Abbreviation defaultConfigObject := (defaultConfigObject penv).

Lemma saveConfig_returns (config : Value) (s : Sys Env) :
  exists s', saveConfig config s = (Ok tt, s').
Proof.
  unfold Config.saveConfig, try_catch, bind, fs_writeFile.
  destruct (JSON_stringify config); [|by eexists].
  destruct (decide (CONFIG_FILE host ∈ unwritable host)); by eexists.
Qed.

(** The properties of the defaults are those of their literal. *)
Lemma spread_defaults (userConfig : Value) :
  spread defaultConfigObject userConfig
  = VObj (fold_left (fun acc kv => obj_set (fst kv) (snd kv) acc)
                    (own_props userConfig) (own_props defaultConfigObject)).
Proof. unfold spread. by rewrite fold_left_app. Qed.

Lemma prop_spread (userConfig : Value) (key : string) :
  prop (spread defaultConfigObject userConfig) key
  = match assoc_get key (reverse (own_props userConfig)) with
    | Some v => v
    | None => prop defaultConfigObject key
    end.
Proof.
  rewrite spread_defaults. unfold prop at 1, obj_get, obj_set.
  rewrite assoc_get_fold_set.
  by destruct (assoc_get key (reverse (own_props userConfig))).
Qed.

(** [loadConfig] returns in every state, and returns [expected_config]. *)
Lemma loadConfig_run (s : Sys Env) :
  exists s', loadConfig s = (Ok (expected_config s), s').
Proof.
  unfold Config.expected_config, Config.persisted. run_loadConfig.
  destruct (decide (CONFIG_DIR host ∈ no_mkdir host)); run_loadConfig; [by eexists|].
  destruct (files s !! CONFIG_FILE host) as [f|]; run_loadConfig;
    [|fall_back saveConfig_returns].
  destruct (decide (CONFIG_FILE host ∈ unreadable host)); run_loadConfig;
    [fall_back saveConfig_returns|].
  destruct (JSON_parse (content f)) as [userConfig|]; run_loadConfig;
    [|fall_back saveConfig_returns].
  destruct (prop (spread defaultConfigObject userConfig) "display");
    run_loadConfig; cbn [is_nullish]; first [fall_back saveConfig_returns | by eexists].
Qed.

End ConfigProps.

Import Scenario.

(** C8 at the failing input. The persisted file sets the city of the weather
    section and nothing else. [loadConfig] returns a configuration whose
    weather section is the persisted one: the city is Paris, and the units
    and six more fields of the section have no value although the defaults
    give them one. The merge the configuration command does of the same file
    ([loadCurrentConfig]) keeps the city and fills every field in. *)
Theorem loadConfig_partial_section :
  let s := with_config_file (default "" (stringify paris)) in
  Js.parse (default "" (stringify paris)) = Some paris
  /\ (exists config,
        fst (Config.loadConfig laptop jens_env stringify Js.parse s) = Ok config
        /\ prop (prop config "weather") "city" = VStr "Paris"
        /\ prop (prop config "weather") "units" = VUndefined
        /\ prop (prop (Config.defaultConfigObject jens_env) "weather") "units"
           = VStr "imperial"
        /\ missing_fields (Config.defaultConfigObject jens_env) config
           = [("weather", "country"); ("weather", "zip"); ("weather", "units");
              ("weather", "apiKey"); ("weather", "showForecast");
              ("weather", "showHumidity"); ("weather", "showWind")])
  /\ (exists merged,
        fst (ConfigCommand.loadCurrentConfig laptop jens_env Js.parse s) = Ok merged
        /\ prop (prop merged "weather") "city" = VStr "Paris"
        /\ prop (prop merged "weather") "units" = VStr "imperial"
        /\ missing_fields (Config.defaultConfigObject jens_env) merged = []).
Proof.
  cbv zeta. split; [vm_compute; reflexivity|]. split.
  - eexists. split; [vm_compute; reflexivity|].
    split; [vm_compute; reflexivity|]. split; [vm_compute; reflexivity|].
    split; vm_compute; reflexivity.
  - eexists. split; [vm_compute; reflexivity|].
    split; [vm_compute; reflexivity|]. split; vm_compute; reflexivity.
Qed.

End ConfigProps.

(* ===================================================================== *)
(** * The entry point run as the main module *)
(* ===================================================================== *)

Module IndexProps.
Import Scenario.

(** C9 at the failing input. Run as the program's main module, the entry
    point calls [init] twice, so every enabled and registered module's
    [setup] and [display] are called twice in the process; imported by
    another module, it calls [init] once. The modules here note their calls
    in a journal. *)
Example main_runs_init_twice :
  let main :=
    Index.main laptop (recording "github") (recording "weather")
      (recording "linearStalled") (recording "system")
      (ret (Types.defaultConfig jens_env)) in
  let calls (as_main : bool) (call : string) :=
    length (filter (fun entry => entry = call)
                   (env (sys (snd (main as_main (start [])))))) in
  Forall (fun call => calls true call = 2%nat /\ calls false call = 1%nat)
         ["setup system"; "setup weather"; "setup github"; "setup linearStalled";
          "display system"; "display weather"; "display github";
          "display linearStalled"].
Proof. cbv zeta. repeat (constructor; [split; vm_compute; reflexivity|]). constructor. Qed.

End IndexProps.

(* ===================================================================== *)
(** * Further properties of the cache *)
(* ===================================================================== *)

Module CacheMore.
Import Js Cache CacheProps.




Section CacheMore.
Context {Env : Type}.
Variable host : Host.
Variable JSON_stringify : Value -> option string.
Variable JSON_parse : string -> option Value.

#[local] Abbreviation getCache := (getCache (Env := Env) host JSON_parse).
#[local] Abbreviation saveCache := (saveCache (Env := Env) host JSON_stringify).
#[local] Abbreviation apiRequest := (apiRequest (Env := Env) host JSON_stringify JSON_parse).
#[local] Abbreviation cacheFile := (cacheFile host).
#[local] Abbreviation stored_value := (stored_value (Env := Env) host JSON_parse).


(** X2. What [apiRequest] returns, given what [getCache] finds. A truthy
    cached value is returned as it is, and the only effect is one debug line:
    the producer is not run. Otherwise the producer is run once, and
    [apiRequest] returns what the producer returns or throws what it throws,
    whether or not the response could be cached; the cache adds log lines and
    at most the key's file. *)
Theorem apiRequest_outcome (s : Sys Env) (key : string) (maxAge : Z)
    (requestFn : M (Sys Env) Value) (cached : Value) :
  getCache key maxAge s = (Ok cached, s) ->
  let miss := log_entry DEBUG ("Cache miss for " +:+ key +:+ ", making API request") s in
  if truthy cached
  then apiRequest key maxAge requestFn s
       = (Ok cached, log_entry DEBUG ("Using cached data for " +:+ key) s)
  else fst (apiRequest key maxAge requestFn s) = fst (requestFn miss)
       /\ env (snd (apiRequest key maxAge requestFn s)) = env (snd (requestFn miss))
       /\ clock (snd (apiRequest key maxAge requestFn s)) = clock (snd (requestFn miss))
       /\ (forall path, path <> cacheFile key ->
                        files (snd (apiRequest key maxAge requestFn s)) !! path
                        = files (snd (requestFn miss)) !! path).
Proof.
  intros Hget. cbv zeta. destruct (truthy cached) eqn:Htruthy.
  - unfold Cache.apiRequest, bind at 1. by rewrite Hget, Htruthy.
  - destruct (requestFn _) as [[response|error] s2] eqn:Hrequest.
    + destruct (saveCache_files host JSON_stringify s2 key response)
        as (s3 & Hsave & Hclock & Henv & Hfiles).
      assert (apiRequest key maxAge requestFn s = (Ok response, s3)) as ->.
      { unfold Cache.apiRequest, bind at 1. rewrite Hget, Htruthy.
        unfold bind at 1, logger_debug, modify, try_catch, bind at 1.
        rewrite Hrequest. unfold bind. by rewrite Hsave. }
      cbn [fst snd]. split; [reflexivity|]. split; [exact Henv|]. split; [exact Hclock|].
      intros path Hne. rewrite Hfiles.
      destruct (JSON_stringify response); [|reflexivity].
      destruct (decide (cacheFile key ∈ unwritable host)); [reflexivity|].
      by rewrite lookup_insert_ne.
    + assert (apiRequest key maxAge requestFn s
              = (Throw error,
                 log_entry ERROR ("API request failed for " +:+ key +:+ ": " +:+ error) s2))
        as ->.
      { unfold Cache.apiRequest, bind at 1. rewrite Hget, Htruthy.
        unfold bind at 1, logger_debug, modify, try_catch, bind at 1.
        by rewrite Hrequest. }
      by repeat split.
Qed.

(** X3. An entry as old as the maximal age or older is not served: the
    producer is run, its response is returned, and, when the response has a
    JSON text and the host accepts the write, the entry is replaced by that
    text with the time of the write. *)
Theorem apiRequest_refreshes_stale_entry (s s2 : Sys Env) (key : string) (maxAge : Z)
    (requestFn : M (Sys Env) Value) (entry : File) (response : Value) (text : string) :
  files s !! cacheFile key = Some entry ->
  maxAge * 1000 <= clock s - mtimeMs entry ->
  requestFn (log_entry DEBUG ("Cache miss for " +:+ key +:+ ", making API request") s)
    = (Ok response, s2) ->
  JSON_stringify response = Some text ->
  cacheFile key ∉ unwritable host ->
  exists s3,
    apiRequest key maxAge requestFn s = (Ok response, s3)
    /\ files s3 !! cacheFile key = Some {| mtimeMs := clock s2; content := text |}.
Proof.
  intros Hfile Hstale Hrequest Hprint Hwrite.
  destruct (saveCache_written host JSON_stringify s2 key response text Hprint Hwrite)
    as (s3 & Hsave & Hfiles & _).
  exists s3. split; [|rewrite Hfiles; apply lookup_insert_eq].
  unfold Cache.apiRequest, bind at 1.
  rewrite getCache_stored, (stored_value_stale host JSON_parse s key maxAge entry Hfile Hstale).
  cbn [truthy]. unfold bind at 1, logger_debug, modify, try_catch, bind at 1.
  rewrite Hrequest. unfold bind. by rewrite Hsave.
Qed.

(** X4. The maximal age is the caller's: an entry that [getCache] returns for
    one maximal age is returned for every larger one, in the same state. *)
Theorem getCache_monotone (s : Sys Env) (key : string) (maxAge maxAge' : Z) (v : Value) :
  getCache key maxAge s = (Ok v, s) ->
  v <> VNull ->
  maxAge <= maxAge' ->
  getCache key maxAge' s = (Ok v, s).
Proof.
  rewrite !getCache_stored. intros [= Hv] Hpresent Hle. f_equal. f_equal.
  revert Hv. unfold Cache.stored_value.
  destruct (files s !! cacheFile key) as [entry|]; [|by intros <-].
  case_bool_decide as Hlive; [|by intros <-].
  intros Hv. rewrite bool_decide_eq_true_2; [exact Hv|].
  destruct Hlive as [Hage Hread]. split; [lia|exact Hread].
Qed.

End CacheMore.
End CacheMore.

(* ===================================================================== *)
(** * Further properties of the registry and the orchestrator *)
(* ===================================================================== *)

Module BaseMore.
Import Types Performance Base BaseProps.

Section AssocMore.
Context {A : Type}.
Implicit Types (l : list (string * A)).

Lemma assoc_set_keys (k : string) (v : A) l :
  (assoc_set k v l).*1 = if assoc_get k l is Some _ then l.*1 else l.*1 ++ [k].
Proof.
  induction l as [|[k' v'] rest IH]; cbn; [reflexivity|].
  destruct (String.eqb_spec k k') as [->|Hne]; cbn; [reflexivity|].
  rewrite IH. by destruct (assoc_get k rest).
Qed.

Lemma assoc_get_None_keys (k : string) l : assoc_get k l = None <-> k ∉ l.*1.
Proof.
  induction l as [|[k' v'] rest IH]; cbn.
  - split; [intros _; apply not_elem_of_nil|reflexivity].
  - rewrite not_elem_of_cons. destruct (String.eqb_spec k k') as [->|Hne].
    + split; [discriminate|]. by intros [Hne _].
    + rewrite IH. split; [by split|by intros [_ Hrest]].
Qed.

Lemma assoc_set_elem_of (k : string) (v : A) l : (k, v) ∈ assoc_set k v l.
Proof.
  induction l as [|[k' v'] rest IH]; cbn; [apply list_elem_of_here|].
  destruct (String.eqb k k'); [apply list_elem_of_here|by apply list_elem_of_further].
Qed.

Lemma assoc_set_NoDup (k : string) (v : A) l : NoDup l.*1 -> NoDup (assoc_set k v l).*1.
Proof.
  intros Hnodup. rewrite assoc_set_keys.
  destruct (assoc_get k l) eqn:Hget; [exact Hnodup|].
  apply NoDup_app. split; [exact Hnodup|]. split; [|apply NoDup_singleton].
  intros k' Hin ->%list_elem_of_singleton. by apply assoc_get_None_keys in Hget.
Qed.

Lemma assoc_set_elem_of_inv (k k' : string) (v v' : A) l :
  (k', v') ∈ assoc_set k v l -> (k' = k /\ v' = v) \/ (k', v') ∈ l.
Proof.
  induction l as [|[k0 v0] rest IH]; cbn.
  - intros [= -> ->]%list_elem_of_singleton. by left.
  - destruct (String.eqb_spec k k0) as [->|Hne].
    + intros [[= -> ->]|Hin]%elem_of_cons; [by left|].
      right. by apply list_elem_of_further.
    + intros [[= -> ->]|Hin]%elem_of_cons; [right; apply list_elem_of_here|].
      destruct (IH Hin) as [?|?]; [by left|right; by apply list_elem_of_further].
Qed.

Lemma assoc_get_NoDup_elem_of (k : string) (v : A) l :
  NoDup l.*1 -> (k, v) ∈ l -> assoc_get k l = Some v.
Proof.
  induction l as [|[k' v'] rest IH]; cbn; [by intros _ ?%not_elem_of_nil|].
  intros [Hfresh Hnodup]%NoDup_cons [[= -> ->]|Hin]%elem_of_cons.
  - by rewrite String.eqb_refl.
  - destruct (String.eqb_spec k k') as [->|_]; [|by apply IH].
    destruct Hfresh. by apply (list_elem_of_fmap_2 fst) in Hin.
Qed.

End AssocMore.

Section RegistryMore.
Context {Env : Type}.
Implicit Types (module : WelcomeModule Env) (modules : list (string * WelcomeModule Env)).

(** X5. A registered module is found under its name and is among all the
    modules; registering it leaves every other name as it was, and adds an
    entry only when the name was free (a second registration under a name
    replaces the first). *)
Theorem register_getModule module modules :
  getModule (register module modules) (name module) = Some module
  /\ (forall n, n <> name module ->
                getModule (register module modules) n = getModule modules n)
  /\ module ∈ getAllModules (register module modules)
  /\ length (getAllModules (register module modules))
     = if getModule modules (name module) is Some _
       then length (getAllModules modules)
       else S (length (getAllModules modules)).
Proof.
  unfold getModule, getAllModules, register. split; [apply assoc_get_set_eq|].
  split; [intros n Hne; apply assoc_get_set_ne; congruence|]. split.
  - apply (list_elem_of_fmap_2 snd _ (name module, module)), assoc_set_elem_of.
  - rewrite !length_fmap, <- (length_fmap fst (assoc_set _ _ _)), assoc_set_keys.
    destruct (assoc_get (name module) modules); [apply length_fmap|].
    rewrite length_app, length_fmap. cbn. lia.
Qed.

Lemma register_ok module modules : registry_ok modules -> registry_ok (register module modules).
Proof.
  intros [Hnodup Hnames]. split; [by apply assoc_set_NoDup|].
  apply Forall_forall. intros [k m] Hin.
  apply assoc_set_elem_of_inv in Hin as [[-> ->]|Hin]; [reflexivity|].
  by apply (proj1 (Forall_forall _ _) Hnames (k, m)).
Qed.

Lemma registry_of_ok (registered : list (WelcomeModule Env)) :
  registry_ok (registry_of registered).
Proof.
  unfold registry_of.
  assert (registry_ok (@nil (string * WelcomeModule Env))) as Hnil
    by (split; [apply NoDup_nil_2|apply Forall_nil_2]).
  revert Hnil. generalize (@nil (string * WelcomeModule Env)).
  induction registered as [|module rest IH]; intros modules Hok; [exact Hok|].
  cbn. apply IH. by apply register_ok.
Qed.

(** X6. However modules were registered, no two modules of the registry have
    the same name, and [getAllModules] and [getModule] agree: a module is
    among all the modules exactly when it is the one found under its name,
    which is the one registered last under that name. *)
Theorem registry_coherent (registered : list (WelcomeModule Env)) :
  NoDup (name <$> getAllModules (registry_of registered))
  /\ (forall module,
        module ∈ getAllModules (registry_of registered)
        <-> getModule (registry_of registered) (name module) = Some module)
  /\ (forall n, getModule (registry_of registered) n = registered_as n registered).
Proof.
  destruct (registry_of_ok registered) as [Hnodup Hnames].
  assert (name <$> getAllModules (registry_of registered) = (registry_of registered).*1)
    as Hkeys.
  { unfold getAllModules. rewrite <- list_fmap_compose.
    apply Forall_fmap_ext_1. by apply (Forall_impl _ _ _ Hnames). }
  split; [by rewrite Hkeys|]. split.
  - intros module. unfold getAllModules, getModule. split.
    + intros ([k m] & -> & Hin)%list_elem_of_fmap. cbn.
      pose proof (proj1 (Forall_forall _ _) Hnames _ Hin) as Hname. cbn in Hname.
      rewrite Hname. by apply assoc_get_NoDup_elem_of.
    + intros Hget. apply (list_elem_of_fmap_2 snd _ (name module, module)).
      by apply ConfigProps.assoc_get_elem_of.
  - intros n. unfold getModule, registry_of. rewrite registry_lookup.
    by destruct (registered_as n registered).
Qed.

End RegistryMore.

Section OrchestratorMore.
Context {Env : Type}.
Variables githubMethods weatherMethods linearStalledMethods systemMethods : Methods Env.
Implicit Types (module : WelcomeModule Env) (w : World Env) (config : WelcomeConfig).

#[local] Abbreviation moduleRegistry :=
  (moduleRegistry (Env := Env) githubMethods weatherMethods linearStalledMethods
                  systemMethods).
#[local] Abbreviation setupModules :=
  (setupModules (Env := Env) githubMethods weatherMethods linearStalledMethods
                systemMethods).
#[local] Abbreviation displayWelcome :=
  (displayWelcome (Env := Env) githubMethods weatherMethods linearStalledMethods
                  systemMethods).

Lemma none_registered config :
  Forall (fun n => n ∉ ["github"; "weather"; "linearStalled"; "system"])
         (enabledModules config) ->
  getEnabledModules moduleRegistry config = [].
Proof.
  unfold getEnabledModules, filter_defined.
  induction (enabledModules config) as [|n names IH]; [reflexivity|].
  intros [Hn Hnames]%Forall_cons. cbn [map omap list_omap].
  rewrite moduleRegistry_lookup, (IH Hnames).
  rewrite !not_elem_of_cons in Hn. destruct Hn as (Hg & Hw & Hl & Hs & _).
  destruct (String.eqb_spec n "github"); [contradiction|].
  destruct (String.eqb_spec n "weather"); [contradiction|].
  destruct (String.eqb_spec n "linearStalled"); [contradiction|].
  destruct (String.eqb_spec n "system"); [contradiction|].
  reflexivity.
Qed.

(** X7. When the configuration enables no registered module (only names such
    as greeting, or none at all), [setupModules] does nothing but log that it
    sets up 0 modules, and [displayWelcome] returns a single newline, logs a
    total time of 0s and leaves no timer of its own behind. *)
Theorem nothing_enabled config w :
  Forall (fun n => n ∉ ["github"; "weather"; "linearStalled"; "system"])
         (enabledModules config) ->
  setupModules config w
  = (Ok tt, {| sys := log_entry DEBUG "Setting up 0 modules" (sys w);
               timers := timers w |})
  /\ displayWelcome config w
     = (Ok Js.newline,
        {| sys := log_entry DEBUG "Total welcome display time: 0s" (sys w);
           timers := delete "display_welcome" (timers w) |}).
Proof.
  intros Hnone. unfold Base.setupModules, Base.displayWelcome.
  rewrite (none_registered config Hnone). split.
  - reflexivity.
  - unfold bind, startTimer, endTimer, performance_now, gets, modify, set_timers, lift,
      logger_debug, ret. cbn -[array_join show_seconds].
    rewrite lookup_insert_eq. cbn -[array_join show_seconds].
    rewrite Z.sub_diag, delete_insert_eq. reflexivity.
Qed.

Lemma join_closing (sep : string) (fragments : list string) :
  Js.join sep (fragments ++ [""])
  = foldr (fun fragment rest => fragment +:+ sep +:+ rest) "" fragments.
Proof.
  induction fragments as [|fragment rest IH]; [reflexivity|].
  cbn [app foldr]. rewrite <- IH. by destruct rest.
Qed.

(** X8. The text [displayWelcome] returns is a newline followed by every
    fragment of the enabled modules, each followed by a newline: it is never
    the empty string, and it starts with a newline whatever the modules
    return. *)
Theorem displayWelcome_lines config w :
  let fragments :=
    fst (display_pass config (getEnabledModules moduleRegistry config) (sys w)) in
  fst (displayWelcome config w)
  = Ok (Js.newline
        +:+ foldr (fun fragment rest => fragment +:+ Js.newline +:+ rest) "" fragments)
  /\ forall text, fst (displayWelcome config w) = Ok text ->
       exists rest, text = String "010"%char rest.
Proof.
  cbv zeta.
  destruct (displayWelcome_run githubMethods weatherMethods linearStalledMethods
              systemMethods config w) as [tm ->].
  cbn [fst]. unfold array_join.
  assert (forall fragments,
            Js.join Js.newline ([""] ++ fragments ++ [""])
            = (Js.newline
               +:+ foldr (fun fragment rest => fragment +:+ Js.newline +:+ rest) ""
                     fragments)%string) as Hjoin.
  { intros fragments. rewrite <- join_closing. cbn [app Js.join].
    by destruct (fragments ++ [""]) eqn:Hnil; [destruct fragments|]. }
  rewrite Hjoin. split; [reflexivity|].
  intros text [= <-]. by eexists.
Qed.

(** ** The timers of the setup pass *)


Lemma setup_one_sys config module w :
  sys (snd (setup_one config module w)) = setup_step config (sys w) module.
Proof. by destruct (setup_one_run config module w) as [tm ->]. Qed.





End OrchestratorMore.
End BaseMore.

(* ===================================================================== *)
(** * Properties of the timers *)
(* ===================================================================== *)

Module PerformanceMore.
Import Performance.

Section PerformanceMore.
Context {Env A : Type}.
Implicit Types (w : World Env) (fn : M (World Env) A) (r : Outcome A).

#[local] Abbreviation not_started name :=
  ("Error: Timer " +:+ String Js.dquote name +:+ String Js.dquote " was not started").

Lemma measureTime_run (name : string) fn w :
  measureTime name fn w
  = let '(r, w1) := fn (set_timers (insert name (perf_clock (sys w))) w) in
    match timers w1 !! name with
    | Some _ => (r, set_timers (delete name) w1)
    | None => (Throw (not_started name), w1)
    end.
Proof.
  unfold measureTime, try_finally, bind at 1, startTimer, bind at 1, performance_now,
    gets, modify. cbn [fst snd].
  destruct (fn _) as [r w1]. unfold endTimer, bind, gets, throw, performance_now, modify, ret.
  by destruct (timers w1 !! name).
Qed.

(** X10. [measureTime] and [measureTimeSync] are transparent for a function
    that leaves the timer of that name in place: what the function returned
    is returned, what it threw is thrown, the state is the one the function
    left, and the timer is removed in both cases. *)
Theorem measureTime_transparent (name : string) fn w r (w1 : World Env) :
  fn (set_timers (insert name (perf_clock (sys w))) w) = (r, w1) ->
  is_Some (timers w1 !! name) ->
  measureTime name fn w = (r, set_timers (delete name) w1)
  /\ measureTimeSync name fn w = (r, set_timers (delete name) w1)
  /\ timers (snd (measureTime name fn w)) !! name = None.
Proof.
  intros Hfn [t Ht].
  assert (measureTime name fn w = (r, set_timers (delete name) w1)) as Hrun.
  { rewrite measureTime_run, Hfn. by rewrite Ht. }
  split; [exact Hrun|]. split; [exact Hrun|].
  rewrite Hrun. apply lookup_delete_eq.
Qed.


(** X12. A timer started, then anything that returns and leaves the timer in
    place, then the timer ended: the time that passed on the performance
    clock since the start is returned and the timer is removed, so that
    ending it a second time throws that it was not started. *)
Theorem startTimer_endTimer (name : string) (between : M (World Env) A) w a
    (w1 : World Env) :
  between (snd (startTimer name w)) = (Ok a, w1) ->
  timers w1 !! name = timers (snd (startTimer name w)) !! name ->
  (startTimer name >> between >> endTimer name) w
  = (Ok (perf_clock (sys w1) - perf_clock (sys w)), set_timers (delete name) w1)
  /\ (startTimer name >> between >> endTimer name >> endTimer name) w
     = (Throw (not_started name), set_timers (delete name) w1).
Proof.
  intros Hbetween Hkept. unfold bind at 1 3.
  destruct (startTimer name w) as [[[]|error] w0] eqn:Hstart;
    unfold startTimer, bind, performance_now, gets, modify in Hstart; cbn in Hstart;
    [|discriminate].
  injection Hstart as <-. cbn [snd] in Hbetween, Hkept.
  cbn [set_timers timers] in Hkept. rewrite lookup_insert_eq in Hkept.
  unfold bind at 1 2. rewrite Hbetween.
  assert (endTimer name w1
          = (Ok (perf_clock (sys w1) - perf_clock (sys w)), set_timers (delete name) w1))
    as Hend.
  { unfold endTimer, bind, gets, performance_now, modify, ret. by rewrite Hkept. }
  split; [exact Hend|]. unfold bind at 1. rewrite Hend.
  unfold endTimer, bind, gets, throw. cbn [set_timers timers].
  by rewrite lookup_delete_eq.
Qed.

End PerformanceMore.
End PerformanceMore.

(* ===================================================================== *)
(** * Properties of the entry point *)
(* ===================================================================== *)

Module IndexMore.
Import Types Performance Base BaseProps Index.

Section IndexMore.
Context {Env : Type}.
Variable host : Host.
Variables githubMethods weatherMethods linearStalledMethods systemMethods : Methods Env.
Variable loadConfig : M (Sys Env) WelcomeConfig.
Implicit Types (w : World Env) (config : WelcomeConfig).

#[local] Abbreviation init :=
  (init host githubMethods weatherMethods linearStalledMethods systemMethods loadConfig).
#[local] Abbreviation moduleRegistry :=
  (moduleRegistry (Env := Env) githubMethods weatherMethods linearStalledMethods
                  systemMethods).
#[local] Abbreviation setupModules :=
  (setupModules (Env := Env) githubMethods weatherMethods linearStalledMethods
                systemMethods).
#[local] Abbreviation displayWelcome :=
  (displayWelcome (Env := Env) githubMethods weatherMethods linearStalledMethods
                  systemMethods).

(** X14. When [loadConfig] returns a configuration, [init] returns; it sets
    the logger to WARN, runs [setupModules] and then [displayWelcome] on the
    state that leaves, and prints the text [displayWelcome] returned as one
    line, after everything the modules did: besides that line it only adds
    log entries. *)
Theorem init_prints_welcome w config (s1 : Sys Env) :
  loadConfig (snd (Cache.ensureCacheDir host (sys w))) = (Ok config, s1) ->
  let enabled := getEnabledModules moduleRegistry config in
  let prepared :=
    {| sys :=
         log_entry DEBUG
           ("Enabled and registered modules: " +:+ array_join ", " (map name enabled))
           (log_entry DEBUG
              ("Registered modules: "
               +:+ array_join ", " (map name (getAllModules moduleRegistry)))
              (log_entry DEBUG
                 ("Enabled modules in config: " +:+ array_join ", " (enabledModules config))
                 (set_logger_level (Js.VNum (LogLevel_value WARN)) s1)));
       timers := timers w |} in
  exists text shown final,
    displayWelcome config (snd (setupModules config prepared)) = (Ok text, shown)
    /\ init w = (Ok tt, final)
    /\ console (sys final) = console (sys shown) ++ [text]
    /\ files (sys final) = files (sys shown)
    /\ env (sys final) = env (sys shown)
    /\ logger_level (sys final) = logger_level (sys shown)
    /\ timers final = timers shown.
Proof.
  intros Hload. cbv zeta. unfold Index.init, try_catch, bind at 1, lift at 1.
  destruct (CacheProps.ensureCacheDir_returns host (sys w)) as (s0 & Hensure & _).
  rewrite Hensure in Hload |- *. cbn [snd sys timers] in *.
  unfold bind at 1, lift at 1. cbn [sys timers]. rewrite Hload.
  unfold bind at 1, lift at 1, logger_setLevel, modify. cbn [sys timers].
  unfold bind at 1, lift at 1, logger_debug, modify. cbn [sys timers].
  unfold bind at 1, lift at 1, logger_debug, modify. cbn [sys timers].
  unfold bind at 1, lift at 1, logger_debug, modify. cbn [sys timers].
  set (prepared := {| sys := _; timers := timers w |}).
  unfold bind at 1.
  destruct (setupModules_run githubMethods weatherMethods linearStalledMethods
              systemMethods config prepared) as [tm Hsetup].
  cbv zeta in Hsetup. rewrite Hsetup. cbn [snd].
  set (ready := {| sys := setup_pass _ _ _; timers := tm |}).
  unfold bind at 1.
  destruct (displayWelcome_run githubMethods weatherMethods linearStalledMethods
              systemMethods config ready) as [tm' Hdisplay].
  cbv zeta in Hdisplay. rewrite Hdisplay.
  set (text := array_join _ _). set (shown := {| sys := _; timers := tm' |}).
  exists text, shown.
  unfold bind, lift, logger_debug, console_log, modify, ret. cbn [sys timers].
  destruct (postWelcomeCommand config) as [command|];
    [destruct (negb (String.eqb command ""))|];
    eexists; (split; [reflexivity|]); (split; [reflexivity|]); cbn; by rewrite ?app_nil_r.
Qed.

End IndexMore.
End IndexMore.

(* ===================================================================== *)
(** * Further properties of the configuration loader *)
(* ===================================================================== *)

Module ConfigMore.
Import Js Types Config ConfigProps.

Lemma assoc_get_reverse_NoDup {A} (k : string) (l : list (string * A)) :
  NoDup l.*1 -> assoc_get k (reverse l) = assoc_get k l.
Proof.
  intros Hnodup. destruct (assoc_get k l) as [v|] eqn:Hget.
  - apply BaseMore.assoc_get_NoDup_elem_of.
    + by rewrite fmap_reverse, reverse_Permutation.
    + apply elem_of_reverse. by apply assoc_get_elem_of.
  - by apply assoc_get_None_reverse.
Qed.

Section ConfigMore.
Context {Env : Type}.
Variable host : Host.
Variable penv : ProcessEnv.
Variable JSON_stringify : Value -> option string.
Variable JSON_parse : string -> option Value.

#[local] Abbreviation loadConfig := (loadConfig (Env := Env) host penv JSON_stringify JSON_parse).
#[local] Abbreviation saveConfig := (saveConfig (Env := Env) host JSON_stringify).
#[local] Abbreviation persisted := (persisted (Env := Env) host JSON_parse).
#[local] Abbreviation defaultConfigObject := (defaultConfigObject penv).
#[local] Abbreviation CONFIG_FILE := (CONFIG_FILE host).
#[local] Abbreviation CONFIG_DIR := (CONFIG_DIR host).

Lemma saveConfig_written (config : Value) (text : string) (s : Sys Env) :
  JSON_stringify config = Some text ->
  CONFIG_FILE ∉ unwritable host ->
  saveConfig config s
  = (Ok tt,
     log_entry DEBUG "Saved configuration to file"
       (set_files (insert CONFIG_FILE {| mtimeMs := clock s; content := text |}) s)).
Proof.
  intros Htext Hwritable.
  unfold Config.saveConfig, try_catch, bind, fs_writeFile, logger_debug, modify.
  rewrite Htext. by rewrite decide_False.
Qed.

(** What [loadConfig] does when the persisted file gives a configuration
    whose [display] entry can be read. *)
Lemma loadConfig_usable (s : Sys Env) (userConfig : Value) :
  persisted s = Some userConfig ->
  is_nullish (prop (spread defaultConfigObject userConfig) "display") = false ->
  loadConfig s
  = (Ok (spread defaultConfigObject userConfig),
     log_entry DEBUG "Loaded configuration from file"
       (set_logger_level
          (prop (prop (spread defaultConfigObject userConfig) "display") "logLevel") s)).
Proof.
  unfold Config.persisted. intros Hpersisted Hdisplay. run_loadConfig.
  destruct (decide (Config.CONFIG_DIR host ∈ no_mkdir host)); [discriminate|].
  run_loadConfig.
  destruct (files s !! Config.CONFIG_FILE host) as [f|]; [|discriminate].
  destruct (decide (Config.CONFIG_FILE host ∈ unreadable host)); [discriminate|].
  rewrite Hpersisted. run_loadConfig.
  by destruct (prop (spread defaultConfigObject userConfig) "display").
Qed.

(** What it does when the directory is there and nothing usable can be read
    of the file. *)
Lemma loadConfig_unusable (s : Sys Env) :
  CONFIG_DIR ∉ no_mkdir host ->
  (persisted s = None
   \/ exists userConfig,
        persisted s = Some userConfig
        /\ is_nullish (prop (spread defaultConfigObject userConfig) "display") = true) ->
  loadConfig s
  = (Ok defaultConfigObject,
     log_entry INFO "Created default configuration file"
       (snd (saveConfig defaultConfigObject s))).
Proof.
  unfold Config.persisted. intros Hdir Hpersisted. run_loadConfig.
  destruct (decide (Config.CONFIG_DIR host ∈ no_mkdir host)); [contradiction|].
  run_loadConfig.
  assert (forall s0 : Sys Env,
            (let (o, s') := saveConfig defaultConfigObject s0 in
             match o with
             | Ok _ => (Ok defaultConfigObject,
                        log_entry INFO "Created default configuration file" s')
             | Throw e => (Throw e, s')
             end)
            = (Ok defaultConfigObject,
               log_entry INFO "Created default configuration file"
                 (snd (saveConfig defaultConfigObject s0)))) as Hfall.
  { intros s0. by destruct (saveConfig_returns host JSON_stringify defaultConfigObject s0)
      as [s' ->]. }
  destruct (files s !! Config.CONFIG_FILE host) as [f|]; run_loadConfig;
    [|by rewrite Hfall].
  destruct (decide (Config.CONFIG_FILE host ∈ unreadable host)); run_loadConfig;
    [by rewrite Hfall|].
  destruct Hpersisted as [Hnone|(userConfig & Hsome & Hnull)].
  - rewrite Hnone. run_loadConfig. by rewrite Hfall.
  - rewrite Hsome. run_loadConfig.
    destruct (prop (spread defaultConfigObject userConfig) "display");
      try discriminate Hnull; run_loadConfig; by rewrite Hfall.
Qed.


(** X16. With the configuration directory in place and the file writable,
    [loadConfig] replaces a file it cannot use by the defaults: a file that
    is absent, unreadable or not JSON, and also a file whose configuration
    has a null [display] entry, which is thereby lost. It returns the
    defaults and leaves the logger's level alone. *)
Theorem loadConfig_rewrites_unusable (s : Sys Env) (text : string) :
  CONFIG_DIR ∉ no_mkdir host ->
  CONFIG_FILE ∉ unwritable host ->
  JSON_stringify defaultConfigObject = Some text ->
  (persisted s = None
   \/ exists userConfig,
        persisted s = Some userConfig
        /\ is_nullish (prop (spread defaultConfigObject userConfig) "display") = true) ->
  fst (loadConfig s) = Ok defaultConfigObject
  /\ files (snd (loadConfig s))
     = <[CONFIG_FILE := {| mtimeMs := clock s; content := text |}]> (files s)
  /\ logger_level (snd (loadConfig s)) = logger_level s.
Proof.
  intros Hdir Hwritable Htext Hunusable.
  rewrite (loadConfig_unusable s Hdir Hunusable).
  by rewrite (saveConfig_written _ _ s Htext Hwritable).
Qed.

(** X17. When the persisted file gives a configuration whose [display] entry
    is not null, [loadConfig] only reads: no file changes, the logger's level
    becomes the [logLevel] of the merged [display] entry, and loading again
    returns the same configuration. *)
Theorem loadConfig_reads_usable (s : Sys Env) (userConfig : Value) :
  persisted s = Some userConfig ->
  is_nullish (prop (spread defaultConfigObject userConfig) "display") = false ->
  let config := spread defaultConfigObject userConfig in
  fst (loadConfig s) = Ok config
  /\ files (snd (loadConfig s)) = files s
  /\ logger_level (snd (loadConfig s)) = prop (prop config "display") "logLevel"
  /\ fst (loadConfig (snd (loadConfig s))) = Ok config.
Proof.
  intros Hpersisted Hdisplay. cbv zeta.
  rewrite (loadConfig_usable s userConfig Hpersisted Hdisplay). cbn [fst snd].
  split; [reflexivity|]. split; [reflexivity|]. split; [reflexivity|].
  by rewrite (loadConfig_usable _ userConfig).
Qed.

(** X18. When the configuration directory cannot be made, [loadConfig]
    returns the defaults without looking at the file: a valid persisted
    configuration is ignored, and nothing is written. *)
Theorem loadConfig_without_directory (s : Sys Env) :
  CONFIG_DIR ∈ no_mkdir host ->
  fst (loadConfig s) = Ok defaultConfigObject
  /\ files (snd (loadConfig s)) = files s
  /\ logger_level (snd (loadConfig s)) = logger_level s
  /\ exists message, logs (snd (loadConfig s)) = logs s ++ [(ERROR, message)].
Proof.
  intros Hdir. run_loadConfig. rewrite decide_True by exact Hdir.
  split; [reflexivity|]. split; [reflexivity|]. split; [reflexivity|].
  by eexists.
Qed.

End ConfigMore.
End ConfigMore.

(* ===================================================================== *)
(** * Properties of the configuration command handler *)
(* ===================================================================== *)

Module ConfigCommandProps.
Import Js Types Config ConfigProps ConfigCommand Text.

Lemma prop_spread_any (a b : Value) (key : string) :
  prop (spread a b) key
  = match assoc_get key (reverse (own_props b)) with
    | Some v => v
    | None => default VUndefined (assoc_get key (reverse (own_props a)))
    end.
Proof.
  unfold spread, prop, obj_get, obj_set.
  rewrite assoc_get_fold_set, reverse_app, assoc_get_app. cbn [assoc_get].
  destruct (assoc_get key (reverse (own_props b))); [reflexivity|].
  by destruct (assoc_get key (reverse (own_props a))).
Qed.

Section LoadCurrentConfig.
Context {Env : Type}.
Variable host : Host.
Variable penv : ProcessEnv.
Variable JSON_parse : string -> option Value.

#[local] Abbreviation loadCurrentConfig :=
  (loadCurrentConfig (Env := Env) host penv JSON_parse).
#[local] Abbreviation persisted := (persisted (Env := Env) host JSON_parse).
#[local] Abbreviation defaultConfigObject := (defaultConfigObject penv).
#[local] Abbreviation deep_merged := (deep_merged penv).

Lemma copy_of_defaults : spread defaultConfigObject (VObj []) = defaultConfigObject.
Proof. destruct penv as [[token|] [apiKey|] home profile]; reflexivity. Qed.

Lemma loadCurrentConfig_run (s : Sys Env) :
  loadCurrentConfig s
  = (Ok match persisted s with
        | Some userConfig =>
            if is_nullish userConfig then defaultConfigObject else deep_merged userConfig
        | None => defaultConfigObject
        end, s).
Proof.
  unfold ConfigCommand.loadCurrentConfig, Config.persisted, try_catch, bind at 1, fs_mkdir.
  destruct (decide (Config.CONFIG_DIR host ∈ no_mkdir host));
    [by rewrite copy_of_defaults|].
  unfold ret at 1, bind at 1, fs_readFile.
  destruct (files s !! Config.CONFIG_FILE host) as [f|]; [|by rewrite copy_of_defaults].
  destruct (decide (Config.CONFIG_FILE host ∈ unreadable host));
    [by rewrite copy_of_defaults|].
  unfold bind at 1, Cache.JSON_parse_or_throw.
  destruct (JSON_parse (content f)) as [userConfig|]; [|by rewrite copy_of_defaults].
  unfold ret at 1.
  destruct userConfig; cbn [is_nullish]; try (by rewrite copy_of_defaults); reflexivity.
Qed.

Lemma section_NoDup (section : string) :
  section ∈ sections ->
  NoDup (own_props (prop defaultConfigObject section)).*1.
Proof.
  unfold sections. rewrite !elem_of_cons.
  intros [-> | [-> | [-> | [-> | [-> | [-> | [-> | [-> | Hnil]]]]]]]];
    [..|by apply elem_of_nil in Hnil];
    apply (bool_decide_unpack _); vm_compute; reflexivity.
Qed.

Lemma section_is_object (section : string) :
  section ∈ sections -> exists fields, prop defaultConfigObject section = VObj fields.
Proof.
  unfold sections. rewrite !elem_of_cons.
  intros [-> | [-> | [-> | [-> | [-> | [-> | [-> | [-> | Hnil]]]]]]]];
    [..|by apply elem_of_nil in Hnil]; by eexists.
Qed.

Lemma deep_merged_section (userConfig : Value) (section : string) :
  section ∈ sections ->
  prop (deep_merged userConfig) section
  = spread (prop defaultConfigObject section) (prop userConfig section).
Proof.
  unfold sections. rewrite !elem_of_cons.
  unfold ConfigCommand.deep_merged, sections, prop at 1, obj_get, obj_set.
  cbn [fold_left].
  intros [-> | [-> | [-> | [-> | [-> | [-> | [-> | [-> | Hnil]]]]]]]];
    [..|by apply elem_of_nil in Hnil];
    repeat (rewrite BaseProps.assoc_get_set_ne by discriminate);
    by rewrite BaseProps.assoc_get_set_eq.
Qed.

Lemma deep_merged_other (userConfig : Value) (key : string) :
  key ∉ sections ->
  prop (deep_merged userConfig) key = prop (spread defaultConfigObject userConfig) key.
Proof.
  unfold sections. rewrite !not_elem_of_cons.
  intros (H1 & H2 & H3 & H4 & H5 & H6 & H7 & H8 & _).
  unfold ConfigCommand.deep_merged, sections, prop at 1, obj_get, obj_set.
  cbn [fold_left].
  repeat (rewrite BaseProps.assoc_get_set_ne by congruence).
  reflexivity.
Qed.

(** X19. [loadCurrentConfig] merges the persisted configuration with the
    defaults field by field within the eight sections: a field the persisted
    section sets has the persisted value, and every other field of the
    section keeps its default, so a partial section loses nothing. Outside
    the sections a persisted top-level entry replaces the default one. *)
Theorem loadCurrentConfig_merges_fields (s : Sys Env) (userConfig : Value) :
  persisted s = Some userConfig ->
  is_nullish userConfig = false ->
  exists config,
    loadCurrentConfig s = (Ok config, s)
    /\ (forall section field,
          section ∈ sections ->
          prop (prop config section) field
          = match assoc_get field (reverse (own_props (prop userConfig section))) with
            | Some v => v
            | None => prop (prop defaultConfigObject section) field
            end)
    /\ (forall key,
          key ∉ sections ->
          prop config key
          = match assoc_get key (reverse (own_props userConfig)) with
            | Some v => v
            | None => prop defaultConfigObject key
            end).
Proof.
  intros Hpersisted Hnull. exists (deep_merged userConfig).
  rewrite loadCurrentConfig_run, Hpersisted, Hnull.
  split; [reflexivity|]. split.
  - intros section field Hin.
    rewrite (deep_merged_section _ _ Hin), prop_spread_any.
    destruct (assoc_get field (reverse (own_props (prop userConfig section))));
      [reflexivity|].
    rewrite ConfigMore.assoc_get_reverse_NoDup by (by apply section_NoDup).
    destruct (section_is_object _ Hin) as [fields ->]. reflexivity.
  - intros key Hout. rewrite (deep_merged_other _ _ Hout). apply prop_spread.
Qed.

(** X20. [loadCurrentConfig] returns in every state; when nothing can be
    read of the file, or the file holds null, it returns the defaults. It
    makes the configuration directory when it can, which the state does not
    record; beyond that it writes no file, logs nothing and leaves the
    logger's level alone, where [loadConfig] writes the configuration file
    and sets the level. *)
Theorem loadCurrentConfig_returns (s : Sys Env) :
  exists config s',
    loadCurrentConfig s = (Ok config, s')
    /\ files s' = files s
    /\ logs s' = logs s
    /\ logger_level s' = logger_level s
    /\ (persisted s = None \/ persisted s = Some VNull -> config = defaultConfigObject).
Proof.
  rewrite loadCurrentConfig_run. eexists _, _. split; [reflexivity|].
  split; [reflexivity|]. split; [reflexivity|]. split; [reflexivity|].
  by intros [-> | ->].
Qed.

End LoadCurrentConfig.

(** ** Lines of text *)

Lemma split_lines_cons (s : string) : exists line lines, split_lines s = line :: lines.
Proof.
  destruct s as [|c rest]; cbn; [by eexists _, _|].
  destruct (Ascii.eqb c "010"%char); [by eexists _, _|].
  destruct (split_lines rest); by eexists _, _.
Qed.

Lemma split_single_line (s : string) : single_line s = true -> split_lines s = [s].
Proof.
  induction s as [|c rest IH]; cbn; [reflexivity|].
  destruct (Ascii.eqb c "010"%char); cbn; [discriminate|].
  intros Hrest. by rewrite (IH Hrest).
Qed.

Lemma split_lines_single (s : string) :
  Forall (fun line => single_line line = true) (split_lines s).
Proof.
  induction s as [|c rest IH]; cbn; [by repeat constructor|].
  destruct (Ascii.eqb c "010"%char) eqn:Hc; [by constructor|].
  destruct (split_lines rest) as [|line lines]; [by repeat constructor; cbn; rewrite Hc|].
  apply Forall_cons in IH as [Hline Hlines].
  constructor; [cbn; by rewrite Hc|exact Hlines].
Qed.

Lemma join_cons (sep a b : string) (rest : list string) :
  join sep (a :: b :: rest) = (a +:+ sep +:+ join sep (b :: rest))%string.
Proof. reflexivity. Qed.

Lemma join_split_lines (s : string) : join newline (split_lines s) = s.
Proof.
  induction s as [|c rest IH]; cbn [split_lines]; [reflexivity|].
  destruct (split_lines_cons rest) as (line & lines & Hrest).
  rewrite Hrest in IH |- *.
  destruct (Ascii.eqb_spec c "010"%char) as [->|_].
  - by rewrite join_cons, IH.
  - destruct lines as [|next lines].
    + cbn in IH |- *. by rewrite IH.
    + rewrite join_cons in IH |- *. cbn. by rewrite <- IH.
Qed.

Lemma append_String (c : ascii) (a b : string) :
  (String c a +:+ b)%string = String c (a +:+ b).
Proof. reflexivity. Qed.

Lemma append_empty (b : string) : ("" +:+ b)%string = b.
Proof. reflexivity. Qed.

Lemma split_lines_app (a b : string) :
  split_lines (a +:+ newline +:+ b) = split_lines a ++ split_lines b.
Proof.
  change (newline +:+ b)%string with (String "010"%char b).
  induction a as [|c rest IH]; [reflexivity|].
  rewrite append_String. cbn [split_lines].
  rewrite IH. destruct (Ascii.eqb c "010"%char); [reflexivity|].
  by destruct (split_lines_cons rest) as (line & lines & ->).
Qed.

Lemma split_lines_join (lines : list string) :
  lines <> [] ->
  Forall (fun line => single_line line = true) lines ->
  split_lines (join newline lines) = lines.
Proof.
  induction lines as [|line rest IH]; [done|]. intros _ [Hline Hrest]%Forall_cons.
  destruct rest as [|next rest]; [by apply split_single_line|].
  rewrite join_cons, split_lines_app, IH by done. by rewrite split_single_line.
Qed.

Lemma single_line_app (a b : string) :
  single_line (a +:+ b) = single_line a && single_line b.
Proof.
  induction a as [|c rest IH]; [reflexivity|].
  rewrite append_String. cbn [single_line]. by rewrite IH, andb_assoc.
Qed.

Lemma trimEnd_last (s : string) (c : ascii) :
  is_space c = false -> trimEnd (s +:+ String c "") = s +:+ String c "".
Proof.
  intros Hc. induction s as [|c' rest IH].
  - rewrite append_empty. cbn [trimEnd]. by rewrite Hc.
  - rewrite append_String. cbn [trimEnd]. rewrite IH.
    destruct rest; reflexivity.
Qed.

Lemma prefix_app (p s : string) : String.prefix p (p +:+ s) = true.
Proof.
  induction p as [|c rest IH]; [by destruct s|].
  rewrite append_String. cbn [String.prefix].
  destruct (ascii_dec c c); [exact IH|contradiction].
Qed.

Lemma append_assoc (a b c : string) : ((a +:+ b) +:+ c)%string = (a +:+ b +:+ c)%string.
Proof.
  induction a as [|x rest IH]; [reflexivity|].
  rewrite !append_String. by rewrite IH.
Qed.

Section Lines.
Variables key value : string.

#[local] Abbreviation line := (exportLine key value).
#[local] Abbreviation replace :=
  (fun l : string => if sets_key key l then exportLine key value else l).

Lemma exportLine_trim : trim line = line.
Proof.
  unfold trim, exportLine.
  set (body := (key +:+ "=" +:+ String dquote value +:+ String dquote "")%string).
  change ("export " +:+ body)%string with (String "e" ("xport " +:+ body)).
  cbn [trimStart]. change (is_space "e") with false. cbv iota.
  change (String "e" ("xport " +:+ body)) with ("export " +:+ body)%string.
  subst body. rewrite <- !append_assoc. by apply trimEnd_last.
Qed.

Lemma exportLine_sets_key : sets_key key line = true.
Proof.
  unfold sets_key. rewrite exportLine_trim. unfold startsWith, exportLine.
  replace ("export " +:+ key +:+ "=" +:+ String dquote value +:+ String dquote "")%string
    with (("export " +:+ key +:+ "=") +:+ String dquote value +:+ String dquote "")%string.
  - by rewrite prefix_app.
  - by rewrite !append_assoc.
Qed.

Lemma empty_sets_no_key : sets_key key "" = false.
Proof. unfold sets_key, startsWith. cbn. by destruct key. Qed.

Lemma exportLine_single :
  single_line key = true -> single_line value = true -> single_line line = true.
Proof.
  intros Hkey Hvalue. unfold exportLine.
  rewrite !single_line_app. cbn [single_line]. by rewrite Hkey, Hvalue.
Qed.

Lemma replace_replace (l : string) : replace (replace l) = replace l.
Proof.
  cbv beta. destruct (sets_key key l) eqn:Hl; [by rewrite exportLine_sets_key|by rewrite Hl].
Qed.

Lemma replace_no_key (lines : list string) :
  existsb (sets_key key) lines = false -> map replace lines = lines.
Proof.
  induction lines as [|l rest IH]; cbn; [reflexivity|].
  intros [Hl Hrest]%orb_false_elim. by rewrite Hl, IH.
Qed.

Lemma replace_keeps_key (lines : list string) :
  existsb (sets_key key) lines = true -> existsb (sets_key key) (map replace lines) = true.
Proof.
  induction lines as [|l rest IH]; cbn; [discriminate|].
  destruct (sets_key key l) eqn:Hl; cbn.
  - by rewrite exportLine_sets_key.
  - rewrite Hl. exact IH.
Qed.

(** The lines of the text [updateEnvFile] writes. *)
Lemma updated_lines (content : string) :
  single_line key = true -> single_line value = true ->
  split_lines (updated key value content)
  = if existsb (sets_key key) (split_lines content)
    then map replace (split_lines content)
    else if negb (String.eqb (trim content) "")
         then split_lines content ++ [line; ""]
         else [line; ""].
Proof.
  intros Hkey Hvalue. pose proof (exportLine_single Hkey Hvalue) as Hline.
  unfold updated. destruct (existsb (sets_key key) (split_lines content)).
  - apply split_lines_join.
    + destruct (split_lines_cons content) as (l & ls & ->). discriminate.
    + apply Forall_fmap. apply (Forall_impl _ _ _ (split_lines_single content)).
      intros l Hl. cbn. by destruct (sets_key key l).
  - assert (split_lines (line +:+ newline) = [line; ""]) as Hlast.
    { change (line +:+ newline)%string with (line +:+ newline +:+ "")%string.
      by rewrite split_lines_app, split_single_line. }
    destruct (negb (String.eqb (trim content) "")); [|exact Hlast].
    by rewrite split_lines_app, Hlast.
Qed.

Lemma updated_fixed (content : string) :
  single_line key = true -> single_line value = true ->
  existsb (sets_key key) (split_lines (updated key value content)) = true
  /\ map replace (split_lines (updated key value content))
     = split_lines (updated key value content).
Proof.
  intros Hkey Hvalue. rewrite (updated_lines content Hkey Hvalue).
  destruct (existsb (sets_key key) (split_lines content)) eqn:Hexists.
  - split; [by apply replace_keeps_key|].
    rewrite map_map. apply map_ext. intros l. apply replace_replace.
  - destruct (negb (String.eqb (trim content) "")).
    + rewrite existsb_app, map_app, (replace_no_key _ Hexists). cbn.
      by rewrite exportLine_sets_key, empty_sets_no_key, orb_true_r.
    + cbn. by rewrite exportLine_sets_key, empty_sets_no_key.
Qed.

Lemma updated_updated (content : string) :
  single_line key = true -> single_line value = true ->
  updated key value (updated key value content) = updated key value content.
Proof.
  intros Hkey Hvalue. destruct (updated_fixed content Hkey Hvalue) as [Hexists Hmap].
  unfold updated at 1. rewrite Hexists, Hmap. apply join_split_lines.
Qed.

Lemma kept_lines_replace (lines : list string) :
  List.filter (fun l => negb (sets_key key l)) (map replace lines)
  = List.filter (fun l => negb (sets_key key l)) lines.
Proof.
  induction lines as [|l rest IH]; [reflexivity|]. cbn [map List.filter].
  destruct (sets_key key l) eqn:Hl.
  - by rewrite exportLine_sets_key.
  - rewrite Hl. cbn. by rewrite IH.
Qed.

Lemma replace_sets (lines : list string) (l : string) :
  l ∈ map replace lines -> sets_key key l = true -> l = line.
Proof.
  intros (l0 & -> & _)%list_elem_of_fmap. destruct (sets_key key l0) eqn:Hl0; [done|].
  by rewrite Hl0.
Qed.

Lemma replace_has_line (lines : list string) :
  existsb (sets_key key) lines = true -> line ∈ map replace lines.
Proof.
  induction lines as [|l rest IH]; cbn; [discriminate|].
  destruct (sets_key key l) eqn:Hl; [intros _; apply list_elem_of_here|].
  intros Hrest. apply list_elem_of_further. by apply IH.
Qed.

Lemma no_key_elem_of (lines : list string) (l : string) :
  existsb (sets_key key) lines = false -> l ∈ lines -> sets_key key l = false.
Proof.
  induction lines as [|l0 rest IH]; cbn; [by intros _ ?%elem_of_nil|].
  intros [Hl0 Hrest]%orb_false_elim [->|Hin]%elem_of_cons; [exact Hl0|by apply IH].
Qed.

Lemma kept_lines_no_key (lines : list string) :
  existsb (sets_key key) lines = false ->
  List.filter (fun l => negb (sets_key key l)) lines = lines.
Proof.
  induction lines as [|l rest IH]; cbn; [reflexivity|].
  intros [Hl Hrest]%orb_false_elim. by rewrite Hl, IH.
Qed.

End Lines.

Section UpdateEnvFile.
Context {Env : Type}.
Variable host : Host.
Variables key value filePath : string.

#[local] Abbreviation updateEnvFile :=
  (updateEnvFile (Env := Env) host key value filePath).
#[local] Abbreviation read_or_empty := (read_or_empty (Env := Env) host filePath).
#[local] Abbreviation sets := (fun l : string => negb (sets_key key l)).

Lemma updateEnvFile_run (s : Sys Env) :
  filePath ∉ unwritable host ->
  exists s',
    updateEnvFile s = (Ok tt, s')
    /\ files s'
       = <[filePath := {| mtimeMs := clock s;
                          content := updated key value (read_or_empty s) |}]> (files s)
    /\ clock s' = clock s.
Proof.
  intros Hwritable.
  unfold ConfigCommand.updateEnvFile, ConfigCommand.read_or_empty, updated,
    try_catch, bind, fs_readFile, fs_writeFile, logger_debug, modify, ret.
  destruct (decide (filePath ∈ unwritable host)); [contradiction|].
  destruct (files s !! filePath) as [f|];
    [destruct (decide (filePath ∈ unreadable host))|];
    cbv zeta;
    match goal with
    | |- context [existsb (sets_key key) (split_lines ?c)] =>
        destruct (existsb (sets_key key) (split_lines c));
          [|destruct (negb (String.eqb (trim c) ""))]
    end; eexists; split; try reflexivity; split; reflexivity.
Qed.

(** X21. [updateEnvFile] is idempotent: with a key and a value that hold no
    newline and a file that can be written, a second call with the same
    arguments returns and leaves the file as the first call left it. *)
Theorem updateEnvFile_idempotent (s : Sys Env) :
  single_line key = true ->
  single_line value = true ->
  filePath ∉ unwritable host ->
  let once := snd (updateEnvFile s) in
  fst (updateEnvFile s) = Ok tt
  /\ fst (updateEnvFile once) = Ok tt
  /\ files (snd (updateEnvFile once)) = files once.
Proof.
  intros Hkey Hvalue Hwritable. cbv zeta.
  destruct (updateEnvFile_run s Hwritable) as (s1 & -> & Hfiles1 & Hclock1). cbn [fst snd].
  destruct (updateEnvFile_run s1 Hwritable) as (s2 & -> & Hfiles2 & Hclock2). cbn [fst snd].
  split; [reflexivity|]. split; [reflexivity|].
  rewrite Hfiles2, Hclock1, Hfiles1, insert_insert_eq. f_equal. f_equal.
  unfold ConfigCommand.read_or_empty at 1. rewrite Hfiles1, lookup_insert_eq. cbn [content].
  unfold ConfigCommand.read_or_empty.
  destruct (decide (filePath ∈ unreadable host)).
  - by destruct (files s !! filePath).
  - by apply updated_updated.
Qed.

(** X22. After [updateEnvFile] the file sets the key once and for all: the
    export line of the key and value is one of its lines, and every line that
    sets the key is that export line, so no earlier setting of the key is
    left. *)
Theorem updateEnvFile_sets_key (s : Sys Env) :
  single_line key = true ->
  single_line value = true ->
  filePath ∉ unwritable host ->
  exists f,
    files (snd (updateEnvFile s)) !! filePath = Some f
    /\ exportLine key value ∈ split_lines (content f)
    /\ forall l, l ∈ split_lines (content f) -> sets_key key l = true ->
                 l = exportLine key value.
Proof.
  intros Hkey Hvalue Hwritable.
  destruct (updateEnvFile_run s Hwritable) as (s1 & -> & Hfiles1 & _). cbn [snd].
  rewrite Hfiles1, lookup_insert_eq. eexists. split; [reflexivity|]. cbn [content].
  rewrite (updated_lines key value _ Hkey Hvalue).
  destruct (existsb (sets_key key) (split_lines (read_or_empty s))) eqn:Hexists.
  - split; [by apply replace_has_line|]. apply replace_sets.
  - assert (forall l, l ∈ [exportLine key value; ""] -> sets_key key l = true ->
                      l = exportLine key value) as Hlast.
    { intros l [->|[->|Hnil]%elem_of_cons]%elem_of_cons; [done| |by apply elem_of_nil in Hnil].
      by rewrite empty_sets_no_key. }
    destruct (negb (String.eqb (trim (read_or_empty s)) "")).
    + split; [apply elem_of_app; right; apply list_elem_of_here|].
      intros l [Hold|Hnew]%elem_of_app; [|by apply Hlast].
      by rewrite (no_key_elem_of key _ l Hexists Hold).
    + split; [apply list_elem_of_here|exact Hlast].
Qed.

(** X23. [updateEnvFile] keeps the rest of a file that is not blank: the
    lines that do not set the key are those of the text it read, in the same
    order, followed by one empty line when the key was appended. *)
Theorem updateEnvFile_keeps_other_lines (s : Sys Env) :
  single_line key = true ->
  single_line value = true ->
  filePath ∉ unwritable host ->
  trim (read_or_empty s) <> "" ->
  exists f,
    files (snd (updateEnvFile s)) !! filePath = Some f
    /\ List.filter sets (split_lines (content f))
       = List.filter sets (split_lines (read_or_empty s))
         ++ (if existsb (sets_key key) (split_lines (read_or_empty s)) then [] else [""]).
Proof.
  intros Hkey Hvalue Hwritable Hblank.
  destruct (updateEnvFile_run s Hwritable) as (s1 & -> & Hfiles1 & _). cbn [snd].
  rewrite Hfiles1, lookup_insert_eq. eexists. split; [reflexivity|]. cbn [content].
  rewrite (updated_lines key value _ Hkey Hvalue).
  destruct (existsb (sets_key key) (split_lines (read_or_empty s))) eqn:Hexists.
  - by rewrite kept_lines_replace, app_nil_r.
  - destruct (String.eqb_spec (trim (read_or_empty s)) "") as [Heq|_]; [contradiction|].
    cbn [negb]. rewrite List.filter_app. cbn [List.filter].
    by rewrite exportLine_sets_key, empty_sets_no_key.
Qed.

End UpdateEnvFile.

End ConfigCommandProps.

(* ===================================================================== *)
(** * Properties of the logger, the greeting and the uptime *)
(* ===================================================================== *)

Module LoggerProps.
Import Logger.

Section LoggerProps.
Variable colorText : string -> string -> string.

#[local] Abbreviation calls := (calls colorText).
#[local] Abbreviation call := (call colorText).
#[local] Abbreviation rendered := (rendered colorText).

Lemma call_printed (this : Logger) (entry : LogLevel * string) :
  level (call entry this) = level this
  /\ stdout (call entry this)
     = stdout this
       ++ (if match fst entry with ERROR => false | _ => true end
              && (LogLevel_value (level this) <=? LogLevel_value (fst entry))
           then [rendered entry] else [])
  /\ stderr (call entry this)
     = stderr this ++ (if match fst entry with ERROR => true | _ => false end
                       then [rendered entry] else []).
Proof.
  destruct entry as [severity message], this as [threshold out err].
  destruct severity, threshold; cbn; rewrite ?app_nil_r; done.
Qed.

(** X24. What a logger prints of a sequence of calls: on the standard output
    the debug, info and warn messages whose severity is at least the logger's
    level, in the order of the calls; on the standard error every error
    message, whatever the level, so errors cannot be silenced. *)
Theorem calls_printed (this : Logger) (entries : list (LogLevel * string)) :
  level (calls entries this) = level this
  /\ stdout (calls entries this)
     = stdout this
       ++ map rendered
            (List.filter
               (fun entry => match fst entry with ERROR => false | _ => true end
                             && (LogLevel_value (level this) <=? LogLevel_value (fst entry)))
               entries)
  /\ stderr (calls entries this)
     = stderr this
       ++ map rendered
            (List.filter (fun entry => match fst entry with ERROR => true | _ => false end)
                         entries).
Proof.
  revert this. induction entries as [|entry rest IH]; intros this.
  - cbn. by rewrite !app_nil_r.
  - cbn [Logger.calls fold_left List.filter].
    destruct (IH (call entry this)) as (Hlevel & Hout & Herr).
    destruct (call_printed this entry) as (Hlevel1 & Hout1 & Herr1).
    unfold Logger.calls in *. rewrite Hlevel, Hout, Herr, Hlevel1, Hout1, Herr1.
    split; [reflexivity|].
    split.
    + destruct (_ && _); cbn; by rewrite <- app_assoc.
    + destruct (fst entry); cbn; by rewrite <- app_assoc.
Qed.

End LoggerProps.
End LoggerProps.

Module GreetingProps.
Import Types Greeting.

Section GreetingProps.
Context {Env : Type}.
Variable getHours : Sys Env -> Z.
Variables colorText colorBoldText : string -> string -> string.

#[local] Abbreviation display := (display getHours colorText colorBoldText).

(** X25. The greeting module's [display] returns without touching the state.
    With emojis switched off the text is the coloured Hey line alone, at any
    hour: the greeting for the time of day goes with the emoji. With emojis on
    it always carries the greeting for the period of the hour, the night
    being the hours from 22 to 4. An empty user name is replaced by User. *)
Theorem display_greeting (config : WelcomeConfig) (s : Sys Env) :
  let name :=
    if String.eqb (userName (user config)) "" then "User" else userName (user config) in
  let hey := colorBoldText "magenta" ("Hey " +:+ name +:+ "!") in
  let period := getCurrentTimePeriod (getHours s) in
  display config s
  = (Ok (if useEmojis (Types.display config)
         then "👋 " +:+ hey +:+ " "
              +:+ colorText "blue" ("Good " +:+ TimePeriod_text period)
              +:+ " " +:+ getTimeEmoji period
         else hey), s)
  /\ match period with
     | MORNING => 5 <= getHours s < 12
     | AFTERNOON => 12 <= getHours s < 18
     | EVENING => 18 <= getHours s < 22
     | NIGHT => getHours s < 5 \/ 22 <= getHours s
     end.
Proof.
  cbv zeta. split.
  - unfold Greeting.display, bind, gets, ret. cbn [fst snd].
    destruct (useEmojis (Types.display config)); [|reflexivity].
    destruct (getCurrentTimePeriod (getHours s)); cbn [getTimeEmoji negb String.eqb];
      reflexivity.
  - unfold getCurrentTimePeriod.
    destruct (5 <=? getHours s) eqn:H5, (getHours s <? 12) eqn:H12,
      (12 <=? getHours s) eqn:H12', (getHours s <? 18) eqn:H18,
      (18 <=? getHours s) eqn:H18', (getHours s <? 22) eqn:H22; cbn; lia.
Qed.

End GreetingProps.
End GreetingProps.

Module SystemProps.
Import System.

(** X26. The three numbers [getUptime] prints decompose the uptime: hours
    times 3600 plus minutes times 60 plus seconds is the uptime, with minutes
    and seconds below 60; the hours are not wrapped into days. *)
Theorem getUptime_decomposes (uptime : Z) :
  0 <= uptime ->
  let '(hours, minutes, seconds) := uptime_parts uptime in
  uptime = 3600 * hours + 60 * minutes + seconds
  /\ 0 <= hours /\ 0 <= minutes < 60 /\ 0 <= seconds < 60
  /\ getUptime uptime
     = Js.show_Z hours +:+ "h " +:+ Js.show_Z minutes +:+ "m " +:+ Js.show_Z seconds +:+ "s".
Proof.
  intros Hpos. unfold getUptime, uptime_parts.
  rewrite !Z.rem_mod_nonneg by lia.
  repeat split; try reflexivity; Z.to_euclidean_division_equations; lia.
Qed.

End SystemProps.

(* ===================================================================== *)
(** * Properties of the GitHub module *)
(* ===================================================================== *)

Module GitHubProps.
Import Js Types Config GitHub.

Lemma append_nil_r (a : string) : (a +:+ "")%string = a.
Proof. induction a as [|c rest IH]; [reflexivity|]. by rewrite ConfigCommandProps.append_String, IH. Qed.

Section GitHubProps.
Context {Env : Type}.
Variable host : Host.
Variable JSON_stringify : Value -> option string.
Variable JSON_parse : string -> option Value.
Variables GITHUB_PERSONAL_TOKEN GITHUB_TOKEN : option string.
Variable fetch : string -> list (string * string) -> M (Sys Env) (Response Env).
Variables colorText colorBoldText : string -> string -> string.
Variable string_gt : string -> Z -> bool.

#[local] Abbreviation fetchGitHub := (fetchGitHub (Env := Env) fetch).
#[local] Abbreviation apiRequest :=
  (Cache.apiRequest (Env := Env) host JSON_stringify JSON_parse).
#[local] Abbreviation search :=
  (search (Env := Env) host JSON_stringify JSON_parse fetch).
#[local] Abbreviation searches :=
  (searches (Env := Env) host JSON_stringify JSON_parse fetch).
#[local] Abbreviation build := (build (Env := Env) colorText colorBoldText string_gt).
#[local] Abbreviation template := (template (Env := Env)).
#[local] Abbreviation setup :=
  (setup (Env := Env) GITHUB_PERSONAL_TOKEN GITHUB_TOKEN fetch).
#[local] Abbreviation display :=
  (display (Env := Env) host JSON_stringify JSON_parse fetch colorText colorBoldText
           string_gt).
#[local] Abbreviation heading := (heading colorBoldText).
#[local] Abbreviation not_configured := (not_configured colorText colorBoldText).

Lemma template_printable (v : Value) (text : string) (s : Sys Env) :
  to_text v = Some text -> template v s = (Ok text, s).
Proof. unfold template. by intros ->. Qed.

Lemma template_unprintable (v : Value) (s : Sys Env) :
  to_text v = None -> exists e, template v s = (Throw e, s).
Proof. unfold template. intros ->. by eexists. Qed.

(** [v > n] throws exactly when [`${v}`] does. *)
Lemma js_gt_run (v : Value) (n : Z) (s : Sys Env) :
  if printable v
  then exists above, js_gt string_gt v n s = (Ok above, s)
  else exists e, js_gt string_gt v n s = (Throw e, s).
Proof.
  unfold printable, js_gt.
  destruct v as [| |b|m|text|items|props];
    try (cbn [to_text]; by eexists); [destruct b; by eexists| |].
  - unfold bind, template. destruct (to_text (VArr items)); by eexists.
  - unfold bind, template. destruct (to_text (VObj props)); by eexists.
Qed.

Lemma item_line_run (sep : string) (item : Value) (s : Sys Env) :
  match item_text sep item with
  | Some line => item_line sep item s = (Ok line, s)
  | None => exists e, item_line sep item s = (Throw e, s)
  end.
Proof.
  unfold item_text, item_line.
  assert (member (S := Sys Env) item "repository_url" s = (Ok (prop item "repository_url"), s)
          \/ (prop item "repository_url" = VUndefined
              /\ exists e, member (S := Sys Env) item "repository_url" s = (Throw e, s)))
    as [Hmember | [-> [e Hmember]]] by (destruct item; cbn; eauto).
  - destruct (prop item "repository_url") as [| | | |url| |];
      try (unfold bind at 1; rewrite Hmember; by eexists).
    unfold template.
    destruct (to_text (prop item "number")) as [number|];
      [|unfold bind; rewrite Hmember; by eexists].
    destruct (to_text (prop item "title")) as [title|];
      unfold bind; rewrite Hmember; [reflexivity|by eexists].
  - unfold bind at 1. rewrite Hmember. by eexists.
Qed.

Lemma item_lines_run (sep : string) (items : list Value) (s : Sys Env) :
  match mapM (item_text sep) items with
  | Some lines => item_lines sep items s = (Ok lines, s)
  | None => exists e, item_lines sep items s = (Throw e, s)
  end.
Proof.
  induction items as [|item rest IH]; [reflexivity|].
  pose proof (item_line_run sep item s) as Hitem.
  cbn [mapM item_lines]. unfold bind.
  destruct (item_text sep item) as [line|]; cbn [mbind option_bind].
  - rewrite Hitem.
    destruct (mapM (item_text sep) rest) as [lines|]; cbn [mbind option_bind].
    + by rewrite IH.
    + destruct IH as [e ->]. by eexists.
  - destruct Hitem as [e ->]. by eexists.
Qed.

Lemma items_map_run (sep : string) (data : Value) (s : Sys Env) :
  match items_text sep data with
  | Some lines => items_map sep data s = (Ok lines, s)
  | None => exists e, items_map sep data s = (Throw e, s)
  end.
Proof.
  unfold items_text, items_map.
  destruct (prop data "items") as [| | | | |items|]; try (by eexists).
  apply item_lines_run.
Qed.

Lemma search_returns (username : Value) (prefix query token sep failure maxPRs : string)
    (cacheAge : Z) (s : Sys Env) :
  exists result s',
    search username prefix query token sep failure maxPRs cacheAge s = (Ok result, s').
Proof.
  unfold GitHub.search, try_catch, bind at 1.
  destruct (template username s) as [[name|e] s0]; [|by eexists _, _].
  unfold bind at 1.
  destruct (apiRequest _ _ _ s0) as [[data|e] s']; [|by eexists _, _].
  unfold bind at 1.
  destruct (member data "total_count" s') as [[count|e] s''] eqn:Hcount;
    [|by eexists _, _].
  unfold bind. destruct (items_map sep data s'') as [[items|e] s3]; by eexists _, _.
Qed.

Lemma searches_return (this : Fields) (config : WelcomeConfig) (s : Sys Env) :
  exists results s', searches this config s = (Ok results, s').
Proof.
  unfold GitHub.searches. cbv zeta.
  assert (forall (flag : bool) username prefix query token sep failure maxPRs cacheAge
                 (s0 : Sys Env),
            exists result s',
              (if flag
               then search username prefix query token sep failure maxPRs cacheAge
               else ret nothing) s0 = (Ok result, s')) as Hsection.
  { intros [] *; [apply search_returns|by eexists _, _]. }
  unfold bind at 1.
  edestruct (Hsection (showAssignedPRs (github config))) as (review & s1 & ->).
  unfold bind at 1.
  edestruct (Hsection (showCreatedPRs (github config))) as (created & s2 & ->).
  unfold bind at 1.
  edestruct (Hsection (showMentions (github config))) as (mention & s3 & ->).
  by eexists _, _.
Qed.

(** Two steps without effect in sequence: the second runs when the first
    returns. *)
Lemma bind_run {A B : Type} (m : M (Sys Env) A) (k : A -> M (Sys Env) B)
    (first second : bool) (s : Sys Env) :
  (if first then exists a, m s = (Ok a, s) else exists e, m s = (Throw e, s)) ->
  (first = true ->
   forall a, if second then exists b, k a s = (Ok b, s) else exists e, k a s = (Throw e, s)) ->
  if first && second
  then exists b, bind m k s = (Ok b, s)
  else exists e, bind m k s = (Throw e, s).
Proof.
  intros Hm Hk. unfold bind. destruct first; cbn [andb].
  - destruct Hm as [a ->]. by apply Hk.
  - destruct Hm as [e ->]. by eexists.
Qed.

Lemma template_run (v : Value) (s : Sys Env) :
  if printable v
  then exists text, template v s = (Ok text, s)
  else exists e, template v s = (Throw e, s).
Proof. unfold printable, template. destruct (to_text v); by eexists. Qed.

(** [build] has no effect, and throws exactly when a count it prints cannot
    be printed. *)
Lemma build_run (config : WelcomeConfig)
    (results : (Value * list string) * (Value * list string) * (Value * list string))
    (s : Sys Env) :
  if counts_printable config results
  then exists text, build config results s = (Ok text, s)
  else exists e, build config results s = (Throw e, s).
Proof.
  destruct results as [[[reviewCount reviewItems] [createdCount createdItems]]
                         [mentionCount mentionItems]].
  unfold counts_printable, build. cbn [fst snd].
  assert (forall a b c : bool, a && b && c = a && (b && (c && true))) as ->
    by (by intros [] [] []).
  apply bind_run; [|intros _ message1; apply bind_run;
                     [|intros _ message2; apply bind_run; [|intros _ message3; by eexists]]].
  - destruct (showAssignedPRs (github config)); cbn [implb]; [|by eexists].
    assert (forall b : bool, b = b && (b && (b && true))) as Hthrice by (by intros []).
    rewrite (Hthrice (printable reviewCount)).
    apply bind_run; [apply js_gt_run|]. intros Hcount above3.
    apply bind_run; [|intros _ color; apply bind_run;
                       [apply template_run|intros _ text; by eexists]].
    rewrite Hcount. cbv iota. destruct above3; [by eexists|].
    pose proof (js_gt_run reviewCount 0 s) as Habove. rewrite Hcount in Habove.
    destruct Habove as [above0 Habove]. unfold bind. rewrite Habove. by eexists.
  - destruct (showCreatedPRs (github config)); cbn [implb]; [|by eexists].
    rewrite <- (andb_true_r (printable createdCount)).
    apply bind_run; [apply template_run|intros _ text; by eexists].
  - destruct (showMentions (github config)); cbn [implb]; [|by eexists].
    rewrite <- (andb_true_r (printable mentionCount)).
    apply bind_run; [apply template_run|intros _ text; by eexists].
Qed.

(** X27. [display] makes no request and touches nothing in two cases: when
    the token or the user name is missing it returns the warning that the
    GitHub API is not configured; when the three lists are switched off it
    returns the heading alone. *)
Theorem display_without_requests (this : Fields) (config : WelcomeConfig) (s : Sys Env) :
  (blank (this_token this) = true \/ truthy (this_username this) = false ->
   display this config s = (Ok not_configured, s))
  /\ (blank (this_token this) = false ->
      truthy (this_username this) = true ->
      showAssignedPRs (github config) = false ->
      showCreatedPRs (github config) = false ->
      showMentions (github config) = false ->
      display this config s = (Ok (heading +:+ newline), s)).
Proof.
  unfold GitHub.display. split.
  - by intros [-> | ->]; rewrite ?orb_true_r.
  - intros -> -> Hreview Hcreated Hmention. cbn [orb negb].
    unfold searches, build. rewrite Hreview, Hcreated, Hmention.
    unfold bind, ret, nothing. cbn [fst snd details].
    by rewrite !append_nil_r.
Qed.

(** X28. Where the GitHub module can throw, for a configuration of the
    declared type (every section present, every field of its type). [setup]
    never throws, and the three searches of [display] never throw, whatever
    the network, the cache files and the cached or fetched data are: each
    request and each access to the data is made inside a handler that logs
    the failure. [display] itself throws in one case only: the count of a
    list that is switched on is compared and printed outside the handlers, so
    [display] throws when that count is data that cannot be converted to a
    text (an object with an own property toString, or an array that holds
    one), and returns a text in every other case. *)
Theorem display_throws_only_printing (config : WelcomeConfig) (s : Sys Env) :
  (exists fields s', setup config s = (Ok fields, s'))
  /\ (forall this,
        exists results s',
          searches this config s = (Ok results, s')
          /\ if blank (this_token this) || negb (truthy (this_username this))
             then display this config s = (Ok not_configured, s)
             else if counts_printable config results
                  then exists text, display this config s = (Ok text, s')
                  else exists e, display this config s = (Throw e, s')).
Proof.
  split.
  - unfold GitHub.setup, getUsername.
    assert (exists u s',
              (if negb (blank (username (github config)))
               then ret (optional (username (github config)))
               else GitHub.getUsername GITHUB_PERSONAL_TOKEN GITHUB_TOKEN fetch config) s
              = (Ok u, s')) as (u & s' & Hu).
    { unfold getUsername. destruct (negb (blank (username (github config))));
        [by eexists _, _|].
      destruct (blank (getToken _ _ (github config))); [by eexists _, _|].
      unfold try_catch, bind.
      destruct (fetchGitHub _ _ s) as [[data|e] s']; [|by eexists _, _].
      destruct (member data "login" s') as [[login|e] s'']; by eexists _, _. }
    unfold bind at 1. unfold getUsername in Hu. rewrite Hu.
    unfold bind, logger_warn, modify, ret.
    destruct (blank (getToken GITHUB_PERSONAL_TOKEN GITHUB_TOKEN (github config))),
      (negb (truthy u)); by eexists _, _.
  - intros this. destruct (searches_return this config s) as (results & s' & Hsearches).
    exists results, s'. split; [exact Hsearches|].
    unfold GitHub.display.
    destruct (blank (this_token this) || negb (truthy (this_username this)));
      [reflexivity|].
    unfold bind. rewrite Hsearches. apply build_run.
Qed.

(** X29. What one of the three searches of [display] leaves in its count and
    its items. When the user name cannot be printed, when the request fails
    and when the data are null, it leaves the count 0 and no items, with a
    warning. When the mapping of the items throws (they are not an array, an
    item has no string as repository URL, or a number or title cannot be
    printed), it leaves the count of the data and no items, with a warning.
    Otherwise it leaves the count and one line per item, in order. *)
Theorem search_outcomes (username : Value)
    (prefix query token sep failure maxPRs : string) (cacheAge : Z) (s s' : Sys Env) :
  (to_text username = None ->
   exists e,
     search username prefix query token sep failure maxPRs cacheAge s
     = (Ok (VNum 0, []), log_entry WARN (failure +:+ e) s))
  /\ (forall name,
        to_text username = Some name ->
        let request :=
          apiRequest (prefix +:+ name) cacheAge
            (fetchGitHub (query +:+ name +:+ "&per_page=" +:+ maxPRs) token) s in
        let found := search username prefix query token sep failure maxPRs cacheAge s in
        (forall e,
           request = (Throw e, s') ->
           found = (Ok (VNum 0, []), log_entry WARN (failure +:+ e) s'))
        /\ (forall data,
              request = (Ok data, s') ->
              is_nullish data = true ->
              exists e, found = (Ok (VNum 0, []), log_entry WARN (failure +:+ e) s'))
        /\ (forall data,
              request = (Ok data, s') ->
              is_nullish data = false ->
              items_text sep data = None ->
              exists e,
                found = (Ok (prop data "total_count", []),
                         log_entry WARN (failure +:+ e) s'))
        /\ (forall data lines,
              request = (Ok data, s') ->
              is_nullish data = false ->
              items_text sep data = Some lines ->
              found = (Ok (prop data "total_count", lines), s'))).
Proof.
  split.
  - intros Hname. unfold GitHub.search, try_catch, bind at 1, template.
    rewrite Hname. by eexists.
  - intros name Hname. cbv zeta.
    assert (search username prefix query token sep failure maxPRs cacheAge s
            = try_catch
                (do data <- apiRequest (prefix +:+ name) cacheAge
                              (fetchGitHub (query +:+ name +:+ "&per_page=" +:+ maxPRs)
                                           token);
                 do count <- member data "total_count";
                 try_catch
                   (do items <- items_map sep data;
                    ret (count, items))
                   (fun e => logger_warn (failure +:+ e) >> ret (count, [])))
                (fun e => logger_warn (failure +:+ e) >> ret (VNum 0, [])) s) as ->.
    { unfold GitHub.search, try_catch, bind at 1, template. rewrite Hname.
      unfold ret at 1. unfold bind at 1 4. reflexivity. }
    assert (forall data : Value,
              is_nullish data = false ->
              member (S := Sys Env) data "total_count" = ret (prop data "total_count"))
      as Hcount by (by intros []).
    split; [|split; [|split]].
    + intros e Hrequest. unfold try_catch, bind at 1. by rewrite Hrequest.
    + intros data Hrequest Hnull. unfold try_catch, bind at 1. rewrite Hrequest.
      destruct data; try discriminate Hnull; by eexists.
    + intros data Hrequest Hdata Hitems. unfold try_catch, bind at 1.
      rewrite Hrequest, (Hcount data Hdata). unfold bind at 1, ret at 1, bind at 1.
      pose proof (items_map_run sep data s') as Hmap. rewrite Hitems in Hmap.
      destruct Hmap as [e ->]. by eexists.
    + intros data lines Hrequest Hdata Hitems. unfold try_catch, bind at 1.
      rewrite Hrequest, (Hcount data Hdata). unfold bind at 1, ret at 1, bind at 1.
      pose proof (items_map_run sep data s') as Hmap. rewrite Hitems in Hmap.
      by rewrite Hmap.
Qed.

End GitHubProps.

Lemma split_on_cons (sep : ascii) (s : string) :
  exists part parts, split_on sep s = part :: parts.
Proof.
  destruct s as [|c rest]; cbn; [by eexists _, _|].
  destruct (Ascii.eqb c sep); [by eexists _, _|].
  destruct (split_on sep rest); by eexists _, _.
Qed.

Lemma split_on_without (sep : ascii) (s : string) :
  Forall (fun part => without sep part = true) (split_on sep s).
Proof.
  induction s as [|c rest IH]; cbn; [by repeat constructor|].
  destruct (Ascii.eqb c sep) eqn:Hc; [by constructor|].
  destruct (split_on sep rest) as [|part parts]; [by repeat constructor; cbn; rewrite Hc|].
  apply Forall_cons in IH as [Hpart Hparts].
  constructor; [cbn; by rewrite Hc|exact Hparts].
Qed.

Lemma join_split_on (sep : ascii) (s : string) :
  join (String sep "") (split_on sep s) = s.
Proof.
  induction s as [|c rest IH]; cbn [split_on]; [reflexivity|].
  destruct (split_on_cons sep rest) as (part & parts & Hrest).
  rewrite Hrest in IH |- *.
  destruct (Ascii.eqb_spec c sep) as [->|_].
  - by rewrite ConfigCommandProps.join_cons, IH.
  - destruct parts as [|next parts].
    + cbn in IH |- *. by rewrite IH.
    + rewrite ConfigCommandProps.join_cons in IH |- *.
      by rewrite ConfigCommandProps.append_String, IH.
Qed.

Lemma join_last (sep : string) (part : string) (parts : list string) :
  join sep (part :: parts) = List.last (part :: parts) ""
  \/ exists before,
       join sep (part :: parts) = (before +:+ sep +:+ List.last (part :: parts) "")%string.
Proof.
  revert part. induction parts as [|next parts IH]; intros part; [by left|].
  rewrite ConfigCommandProps.join_cons. right.
  change (List.last (part :: next :: parts) "") with (List.last (next :: parts) "").
  destruct (IH next) as [->|[before ->]].
  - by exists part.
  - exists (part +:+ sep +:+ before)%string.
    by rewrite !ConfigCommandProps.append_assoc.
Qed.

Section RepoName.
Context {Env : Type}.

(** X30. [repoNameFromUrl] returns what follows the last slash of a URL (the
    URL itself when it has no slash), and throws for a URL that is not a
    string. *)
Theorem repoNameFromUrl_last_part (url : string) (s : Sys Env) :
  exists repo,
    repoNameFromUrl (VStr url) s = (Ok repo, s)
    /\ without "/" repo = true
    /\ (url = repo \/ exists before, url = (before +:+ "/" +:+ repo)%string)
    /\ forall other : Value,
         (forall text, other <> VStr text) ->
         exists e, repoNameFromUrl other s = (Throw e, s).
Proof.
  exists (List.last (split_on "/" url) ""). split; [reflexivity|].
  destruct (split_on_cons "/" url) as (part & parts & Hparts).
  split; [|split].
  - pose proof (split_on_without "/" url) as Hwithout. rewrite Hparts in Hwithout |- *.
    clear Hparts. revert part Hwithout.
    induction parts as [|next parts IH]; intros part [Hpart Hrest]%Forall_cons;
      [exact Hpart|].
    change (List.last (part :: next :: parts) "") with (List.last (next :: parts) "").
    by apply IH.
  - rewrite Hparts. rewrite <- (join_split_on "/" url), Hparts. apply join_last.
  - intros other Hother. destruct other as [| | | |text| |]; try (by eexists).
    by destruct (Hother text).
Qed.

End RepoName.

End GitHubProps.

(* ===================================================================== *)
(** * The further properties at concrete inputs *)
(* ===================================================================== *)

Module Examples.
Import Js Scenario.


Lemma apiRequest_outcome_witness :
  Cache.apiRequest laptop stringify Js.parse review_key 300 fetch_reviews
    (cached 0%nat 1000 reviews_text)
  = (Ok reviews,
     log_entry DEBUG ("Using cached data for " +:+ review_key)
       (cached 0%nat 1000 reviews_text)).
Proof.
  apply (CacheMore.apiRequest_outcome laptop stringify Js.parse
           (cached 0%nat 1000 reviews_text) review_key 300 fetch_reviews reviews).
  vm_compute. reflexivity.
Defined.

Lemma apiRequest_refreshes_stale_entry_witness :
  let s := cached 0%nat 300000 reviews_text in
  let s2 :=
    snd (fetch_reviews
           (log_entry DEBUG ("Cache miss for " +:+ review_key +:+ ", making API request") s)) in
  exists s3,
    Cache.apiRequest laptop stringify Js.parse review_key 300 fetch_reviews s
    = (Ok reviews, s3)
    /\ files s3 !! Cache.cacheFile laptop review_key
       = Some {| mtimeMs := clock s2; content := reviews_text |}.
Proof.
  cbv zeta.
  apply (CacheMore.apiRequest_refreshes_stale_entry laptop stringify Js.parse
           (cached 0%nat 300000 reviews_text) _ review_key 300 fetch_reviews
           {| mtimeMs := 1700000000000 - 300000; content := reviews_text |} reviews
           reviews_text).
  - vm_compute. reflexivity.
  - vm_compute. discriminate.
  - reflexivity.
  - vm_compute. reflexivity.
  - intros Hin. vm_compute in Hin. discriminate Hin.
Defined.

Lemma getCache_monotone_witness :
  Cache.getCache laptop Js.parse review_key 600 (cached tt 299999 reviews_text)
  = (Ok reviews, cached tt 299999 reviews_text).
Proof.
  apply (CacheMore.getCache_monotone laptop Js.parse (cached tt 299999 reviews_text)
           review_key 300 600 reviews).
  - vm_compute. reflexivity.
  - discriminate.
  - lia.
Defined.

(** The default list of enabled modules cut down to the greeting. *)
Lemma nothing_enabled_witness :
  Base.displayWelcome (returning "") (returning "") (returning "")
    (returning system_report) only_greeting (start tt)
  = (Ok newline,
     {| sys := log_entry DEBUG "Total welcome display time: 0s" (sys (start tt));
        timers := delete "display_welcome" (timers (start tt)) |}).
Proof.
  apply (BaseMore.nothing_enabled (returning "") (returning "") (returning "")
           (returning system_report) only_greeting (start tt)).
  apply (bool_decide_unpack _). vm_compute. reflexivity.
Defined.


Lemma measureTime_transparent_witness :
  fst (Performance.measureTime "answer" slow_answer (start tt)) = Ok 42
  /\ timers (snd (Performance.measureTime "answer" slow_answer (start tt))) !! "answer"
     = None.
Proof.
  destruct (PerformanceMore.measureTime_transparent "answer" slow_answer (start tt)
              (Ok 42) _ eq_refl) as (Hrun & _ & Hgone).
  - vm_compute. by eexists.
  - split; [by rewrite Hrun|exact Hgone].
Defined.


Lemma startTimer_endTimer_witness :
  fst ((Performance.startTimer "answer" >> slow_answer >> Performance.endTimer "answer")%eff
         (start tt))
  = Ok 250.
Proof.
  destruct (PerformanceMore.startTimer_endTimer "answer" slow_answer (start tt) 42 _
              eq_refl eq_refl) as [Hrun _].
  by rewrite Hrun.
Defined.

Lemma init_prints_welcome_witness :
  exists (text : string) (shown final : World unit),
    Index.init laptop (returning "") (returning "") (returning "")
      (returning system_report) (ret only_system) (start tt)
    = (Ok tt, final)
    /\ console (sys final) = console (sys shown) ++ [text].
Proof.
  destruct (IndexMore.init_prints_welcome laptop (returning "") (returning "")
              (returning "") (returning system_report) (ret only_system) (start tt)
              only_system (boot tt) eq_refl)
    as (text & shown & final & _ & Hinit & Hconsole & _).
  by exists text, shown, final.
Defined.


Lemma loadConfig_rewrites_unusable_witness :
  let text := default "" (stringify (Config.defaultConfigObject jens_env)) in
  files (snd (Config.loadConfig laptop jens_env stringify Js.parse (boot tt)))
  = <[Config.CONFIG_FILE laptop := {| mtimeMs := clock (boot tt); content := text |}]>
      (files (boot tt)).
Proof.
  cbv zeta.
  apply (ConfigMore.loadConfig_rewrites_unusable laptop jens_env stringify Js.parse
           (boot tt) (default "" (stringify (Config.defaultConfigObject jens_env)))).
  - intros Hin. vm_compute in Hin. discriminate Hin.
  - intros Hin. vm_compute in Hin. discriminate Hin.
  - vm_compute. reflexivity.
  - left. reflexivity.
Defined.

Lemma loadConfig_reads_usable_witness :
  let s := with_config_file (default "" (stringify paris)) in
  files (snd (Config.loadConfig laptop jens_env stringify Js.parse s)) = files s.
Proof.
  cbv zeta.
  apply (ConfigMore.loadConfig_reads_usable laptop jens_env stringify Js.parse
           (with_config_file (default "" (stringify paris))) paris).
  - vm_compute. reflexivity.
  - vm_compute. reflexivity.
Defined.

Lemma loadConfig_without_directory_witness :
  fst (Config.loadConfig locked_config jens_env stringify Js.parse
         (with_config_file (default "" (stringify paris))))
  = Ok (Config.defaultConfigObject jens_env).
Proof.
  apply (ConfigMore.loadConfig_without_directory locked_config jens_env stringify Js.parse
           (with_config_file (default "" (stringify paris)))).
  apply (bool_decide_unpack _). vm_compute. reflexivity.
Defined.

(** The persisted city with the default units, which [loadConfig] loses. *)
Lemma loadCurrentConfig_merges_fields_witness :
  let s := with_config_file (default "" (stringify paris)) in
  exists config,
    ConfigCommand.loadCurrentConfig laptop jens_env Js.parse s = (Ok config, s)
    /\ prop (prop config "weather") "city" = VStr "Paris"
    /\ prop (prop config "weather") "units" = VStr "imperial".
Proof.
  cbv zeta.
  destruct (ConfigCommandProps.loadCurrentConfig_merges_fields laptop jens_env Js.parse
              (with_config_file (default "" (stringify paris))) paris)
    as (config & Hload & Hsections & _).
  - vm_compute. reflexivity.
  - reflexivity.
  - assert ("weather" ∈ ConfigCommand.sections) as Hweather
      by (apply (bool_decide_unpack _); vm_compute; reflexivity).
    exists config. split; [exact Hload|]. split.
    + exact (Hsections "weather" "city" Hweather).
    + exact (Hsections "weather" "units" Hweather).
Defined.

Lemma loadCurrentConfig_returns_witness :
  fst (ConfigCommand.loadCurrentConfig laptop jens_env Js.parse (boot tt))
  = Ok (Config.defaultConfigObject jens_env).
Proof.
  destruct (ConfigCommandProps.loadCurrentConfig_returns laptop jens_env Js.parse
              (boot tt)) as (config & s' & Hload & _ & _ & _ & Hdefaults).
  rewrite Hload, Hdefaults; [reflexivity|]. left. reflexivity.
Defined.

Lemma updateEnvFile_idempotent_witness :
  let update :=
    ConfigCommand.updateEnvFile laptop "GITHUB_PERSONAL_TOKEN" "ghp_new" zshenv in
  files (snd (update (snd (update (with_zshenv old_zshenv)))))
  = files (snd (update (with_zshenv old_zshenv))).
Proof.
  cbv zeta.
  apply (ConfigCommandProps.updateEnvFile_idempotent laptop "GITHUB_PERSONAL_TOKEN"
           "ghp_new" zshenv (with_zshenv old_zshenv)).
  - reflexivity.
  - reflexivity.
  - intros Hin. vm_compute in Hin. discriminate Hin.
Defined.

Lemma updateEnvFile_sets_key_witness :
  exists f,
    files (snd (ConfigCommand.updateEnvFile laptop "GITHUB_PERSONAL_TOKEN" "ghp_new"
                  zshenv (with_zshenv old_zshenv))) !! zshenv = Some f
    /\ ConfigCommand.exportLine "GITHUB_PERSONAL_TOKEN" "ghp_new"
       ∈ Text.split_lines (content f).
Proof.
  destruct (ConfigCommandProps.updateEnvFile_sets_key laptop "GITHUB_PERSONAL_TOKEN"
              "ghp_new" zshenv (with_zshenv old_zshenv))
    as (f & Hfile & Hline & _).
  - reflexivity.
  - reflexivity.
  - intros Hin. vm_compute in Hin. discriminate Hin.
  - by exists f.
Defined.

Lemma updateEnvFile_keeps_other_lines_witness :
  exists f,
    files (snd (ConfigCommand.updateEnvFile laptop "GITHUB_PERSONAL_TOKEN" "ghp_new"
                  zshenv (with_zshenv old_zshenv))) !! zshenv = Some f
    /\ List.filter (fun l => negb (ConfigCommand.sets_key "GITHUB_PERSONAL_TOKEN" l))
         (Text.split_lines (content f))
       = ["export PATH=/usr/local/bin:$PATH"; ""].
Proof.
  destruct (ConfigCommandProps.updateEnvFile_keeps_other_lines laptop
              "GITHUB_PERSONAL_TOKEN" "ghp_new" zshenv (with_zshenv old_zshenv))
    as (f & Hfile & Hlines).
  - reflexivity.
  - reflexivity.
  - intros Hin. vm_compute in Hin. discriminate Hin.
  - intros Hblank. vm_compute in Hblank. discriminate Hblank.
  - exists f. split; [exact Hfile|]. rewrite Hlines. vm_compute. reflexivity.
Defined.

(** Three hours, twelve minutes and five seconds. *)
Lemma getUptime_decomposes_witness :
  System.uptime_parts 11525 = (3, 12, 5)
  /\ System.getUptime 11525 = "3h 12m 5s".
Proof.
  split; [reflexivity|].
  pose proof (SystemProps.getUptime_decomposes 11525) as Hparts.
  cbv beta iota zeta delta [System.uptime_parts] in Hparts.
  apply Hparts. lia.
Defined.

Lemma display_without_requests_witness :
  GitHub.display laptop stringify Js.parse github_api plain plain digits_gt no_fields
    (Types.defaultConfig jens_env) (boot tt)
  = (Ok (GitHub.not_configured plain plain), boot tt)
  /\ GitHub.display laptop stringify Js.parse github_api plain plain digits_gt jens_fields
       no_lists (boot tt)
     = (Ok (GitHub.heading plain +:+ newline), boot tt).
Proof.
  split.
  - apply (proj1 (GitHubProps.display_without_requests laptop stringify Js.parse
                    github_api plain plain digits_gt no_fields
                    (Types.defaultConfig jens_env) (boot tt))).
    left. reflexivity.
  - apply (proj2 (GitHubProps.display_without_requests laptop stringify Js.parse
                    github_api plain plain digits_gt jens_fields no_lists (boot tt)));
      reflexivity.
Defined.

(** The API answering with one review, and with a count that is an object
    with an own property toString. *)
Lemma display_throws_only_printing_witness :
  (exists text,
     fst (GitHub.display laptop stringify Js.parse github_api plain plain digits_gt
            jens_fields (Types.defaultConfig jens_env) (boot tt)) = Ok text)
  /\ (exists e,
        fst (GitHub.display laptop stringify Js.parse (github_answering odd_count)
               plain plain digits_gt jens_fields (Types.defaultConfig jens_env) (boot tt))
        = Throw e).
Proof.
  split.
  - destruct (proj2 (GitHubProps.display_throws_only_printing laptop stringify Js.parse
                       None None github_api plain plain digits_gt
                       (Types.defaultConfig jens_env) (boot tt)) jens_fields)
      as (results & s' & Hsearches & Hdisplay).
    assert (GitHub.counts_printable (Types.defaultConfig jens_env) results = true) as Hcounts.
    { vm_compute in Hsearches. injection Hsearches as <- _. reflexivity. }
    change (if GitHub.counts_printable (Types.defaultConfig jens_env) results
            then exists text,
                GitHub.display laptop stringify Js.parse github_api plain plain digits_gt
                  jens_fields (Types.defaultConfig jens_env) (boot tt) = (Ok text, s')
            else exists e,
                GitHub.display laptop stringify Js.parse github_api plain plain digits_gt
                  jens_fields (Types.defaultConfig jens_env) (boot tt) = (Throw e, s'))
      in Hdisplay.
    rewrite Hcounts in Hdisplay. destruct Hdisplay as [text Hdisplay].
    exists text. by rewrite Hdisplay.
  - destruct (proj2 (GitHubProps.display_throws_only_printing laptop stringify Js.parse
                       None None (github_answering odd_count) plain plain digits_gt
                       (Types.defaultConfig jens_env) (boot tt)) jens_fields)
      as (results & s' & Hsearches & Hdisplay).
    assert (GitHub.counts_printable (Types.defaultConfig jens_env) results = false)
      as Hcounts.
    { vm_compute in Hsearches. injection Hsearches as <- _. reflexivity. }
    change (if GitHub.counts_printable (Types.defaultConfig jens_env) results
            then exists text,
                GitHub.display laptop stringify Js.parse (github_answering odd_count)
                  plain plain digits_gt jens_fields (Types.defaultConfig jens_env) (boot tt)
                = (Ok text, s')
            else exists e,
                GitHub.display laptop stringify Js.parse (github_answering odd_count)
                  plain plain digits_gt jens_fields (Types.defaultConfig jens_env) (boot tt)
                = (Throw e, s'))
      in Hdisplay.
    rewrite Hcounts in Hdisplay. destruct Hdisplay as [e Hdisplay].
    exists e. by rewrite Hdisplay.
Defined.

(** The API refusing the request, the API answering it, and the API
    answering with an item whose number cannot be printed. *)
Lemma search_outcomes_witness :
  let request fetch :=
    Cache.apiRequest laptop stringify Js.parse "github_review_jens" 300
      (GitHub.fetchGitHub fetch
         "https://api.github.com/search/issues?q=is:open+is:pr+review-requested:jens&per_page=5"
         "ghp_abc")
      (boot tt) in
  let search username fetch :=
    GitHub.search laptop stringify Js.parse fetch username "github_review_"
      "https://api.github.com/search/issues?q=is:open+is:pr+review-requested:" "ghp_abc"
      " #" "Failed to fetch review requests: " "5" 300 (boot tt) in
  (exists e,
     search (VObj [("toString", VNum 0)]) github_api
     = (Ok (VNum 0, []),
        log_entry WARN ("Failed to fetch review requests: " +:+ e) (boot tt)))
  /\ search (VStr "jens") github_down
     = (Ok (VNum 0, []),
        log_entry WARN
          ("Failed to fetch review requests: "
           +:+ "Error: GitHub API error: 503 Service Unavailable")
          (snd (request github_down)))
  /\ (exists e,
        search (VStr "jens") (github_answering odd_item)
        = (Ok (VNum 1, []),
           log_entry WARN ("Failed to fetch review requests: " +:+ e)
             (snd (request (github_answering odd_item)))))
  /\ search (VStr "jens") github_api
     = (Ok (VNum 1, ["terminal-brief #42: Fix the cache"]), snd (request github_api)).
Proof.
  cbv zeta. split; [|split; [|split]].
  - apply (proj1 (GitHubProps.search_outcomes laptop stringify Js.parse github_api
                    (VObj [("toString", VNum 0)]) "github_review_"
                    "https://api.github.com/search/issues?q=is:open+is:pr+review-requested:"
                    "ghp_abc" " #" "Failed to fetch review requests: " "5" 300
                    (boot tt) (boot tt))).
    reflexivity.
  - apply (proj1 (proj2 (GitHubProps.search_outcomes laptop stringify Js.parse github_down
                    (VStr "jens") "github_review_"
                    "https://api.github.com/search/issues?q=is:open+is:pr+review-requested:"
                    "ghp_abc" " #" "Failed to fetch review requests: " "5" 300
                    (boot tt) _) "jens" eq_refl)).
    vm_compute. reflexivity.
  - apply (proj1 (proj2 (proj2 (proj2
             (GitHubProps.search_outcomes laptop stringify Js.parse
                (github_answering odd_item)
                (VStr "jens") "github_review_"
                "https://api.github.com/search/issues?q=is:open+is:pr+review-requested:"
                "ghp_abc" " #" "Failed to fetch review requests: " "5" 300
                (boot tt) _) "jens" eq_refl))) odd_item).
    + vm_compute. reflexivity.
    + reflexivity.
    + reflexivity.
  - apply (proj2 (proj2 (proj2 (proj2
             (GitHubProps.search_outcomes laptop stringify Js.parse github_api
                (VStr "jens") "github_review_"
                "https://api.github.com/search/issues?q=is:open+is:pr+review-requested:"
                "ghp_abc" " #" "Failed to fetch review requests: " "5" 300
                (boot tt) _) "jens" eq_refl))) reviews).
    + vm_compute. reflexivity.
    + reflexivity.
    + reflexivity.
Defined.

Lemma repoNameFromUrl_last_part_witness :
  GitHub.repoNameFromUrl (VStr "https://api.github.com/repos/jens/terminal-brief") (boot tt)
  = (Ok "terminal-brief", boot tt)
  /\ exists e, GitHub.repoNameFromUrl (VNum 42) (boot tt) = (Throw e, boot tt).
Proof.
  split; [reflexivity|].
  destruct (GitHubProps.repoNameFromUrl_last_part
              "https://api.github.com/repos/jens/terminal-brief" (boot tt))
    as (repo & _ & _ & _ & Hother).
  apply Hother. discriminate.
Defined.

End Examples.
